(** * whatsapp-translator: the webhook handler of [index.js]

    A shallow embedding of the POST /webhook pipeline of [index.js]
    (signature check, validation, allow-list, translation and reply) together
    with the library functions it calls: SHA-256 and HMAC (node's [crypto]),
    [JSON.parse] / [JSON.stringify], UTF-8 encoding of JavaScript strings and
    the field selection of express-validator.

    JavaScript strings are sequences of UTF-16 code units, byte buffers are
    sequences of octets; both are lists of [Z].  A run of the handler is the
    list of what it does, in order (the response, console output, the calls
    of the two collaborators), with how it ends.  The middleware in front of
    the route (helmet, the rate limiter, the request logger) calls neither
    collaborator and is left out. *)

From Stdlib Require Import ZArith String Ascii List Bool.
Import ListNotations.
Local Open Scope Z_scope.

(** ** Octets, code units and literals *)

Definition byte := Z.
Definition code_unit := Z.
Definition jsstring := list code_unit.

Definition ascii_code (c : ascii) : Z := Z.of_N (N_of_ascii c).

(** A source literal, as the code units of its (ASCII) characters. *)
Fixpoint js (s : string) : jsstring :=
  match s with
  | EmptyString => []
  | String c s' => ascii_code c :: js s'
  end.

Fixpoint jsstring_eqb (a b : jsstring) : bool :=
  match a, b with
  | [], [] => true
  | x :: a', y :: b' => (x =? y) && jsstring_eqb a' b'
  | _, _ => false
  end.

(** ** SHA-256 (FIPS 180-4), on 32-bit words held in [Z] *)

Module SHA256.

Definition mask32 : Z := 0xffffffff.
Definition wrap32 (x : Z) : Z := x mod 2 ^ 32.
Definition add32 (x y : Z) : Z := wrap32 (x + y).
Definition rotr (n x : Z) : Z :=
  Z.lor (Z.shiftr x n) (wrap32 (Z.shiftl x (32 - n))).

Definition Ch (x y z : Z) : Z :=
  Z.lxor (Z.land x y) (Z.land (Z.lxor x mask32) z).
Definition Maj (x y z : Z) : Z :=
  Z.lxor (Z.lxor (Z.land x y) (Z.land x z)) (Z.land y z).
Definition bsig0 (x : Z) : Z := Z.lxor (Z.lxor (rotr 2 x) (rotr 13 x)) (rotr 22 x).
Definition bsig1 (x : Z) : Z := Z.lxor (Z.lxor (rotr 6 x) (rotr 11 x)) (rotr 25 x).
Definition ssig0 (x : Z) : Z := Z.lxor (Z.lxor (rotr 7 x) (rotr 18 x)) (Z.shiftr x 3).
Definition ssig1 (x : Z) : Z := Z.lxor (Z.lxor (rotr 17 x) (rotr 19 x)) (Z.shiftr x 10).

Definition round_constants : list Z :=
  0x428a2f98 :: 0x71374491 :: 0xb5c0fbcf :: 0xe9b5dba5 ::
  0x3956c25b :: 0x59f111f1 :: 0x923f82a4 :: 0xab1c5ed5 ::
  0xd807aa98 :: 0x12835b01 :: 0x243185be :: 0x550c7dc3 ::
  0x72be5d74 :: 0x80deb1fe :: 0x9bdc06a7 :: 0xc19bf174 ::
  0xe49b69c1 :: 0xefbe4786 :: 0x0fc19dc6 :: 0x240ca1cc ::
  0x2de92c6f :: 0x4a7484aa :: 0x5cb0a9dc :: 0x76f988da ::
  0x983e5152 :: 0xa831c66d :: 0xb00327c8 :: 0xbf597fc7 ::
  0xc6e00bf3 :: 0xd5a79147 :: 0x06ca6351 :: 0x14292967 ::
  0x27b70a85 :: 0x2e1b2138 :: 0x4d2c6dfc :: 0x53380d13 ::
  0x650a7354 :: 0x766a0abb :: 0x81c2c92e :: 0x92722c85 ::
  0xa2bfe8a1 :: 0xa81a664b :: 0xc24b8b70 :: 0xc76c51a3 ::
  0xd192e819 :: 0xd6990624 :: 0xf40e3585 :: 0x106aa070 ::
  0x19a4c116 :: 0x1e376c08 :: 0x2748774c :: 0x34b0bcb5 ::
  0x391c0cb3 :: 0x4ed8aa4a :: 0x5b9cca4f :: 0x682e6ff3 ::
  0x748f82ee :: 0x78a5636f :: 0x84c87814 :: 0x8cc70208 ::
  0x90befffa :: 0xa4506ceb :: 0xbef9a3f7 :: 0xc67178f2 :: nil.

Record state := mkState
  { sa : Z; sb : Z; sc : Z; sd : Z; se : Z; sf : Z; sg : Z; sh : Z }.

Definition initial_state : state :=
  mkState 0x6a09e667 0xbb67ae85 0x3c6ef372 0xa54ff53a
          0x510e527f 0x9b05688c 0x1f83d9ab 0x5be0cd19.

(** The message schedule, grown newest-first: [rw] holds W(t-1), W(t-2), ... *)
Fixpoint extend_schedule (n : nat) (rw : list Z) : list Z :=
  match n with
  | O => rw
  | S n' =>
      let w := add32 (add32 (ssig1 (nth 1 rw 0)) (nth 6 rw 0))
                     (add32 (ssig0 (nth 14 rw 0)) (nth 15 rw 0)) in
      extend_schedule n' (w :: rw)
  end.

Definition schedule (block : list Z) : list Z :=
  rev (extend_schedule 48 (rev block)).

Definition round (s : state) (kw : Z * Z) : state :=
  let t1 := add32 (add32 (add32 (sh s) (bsig1 (se s)))
                         (add32 (Ch (se s) (sf s) (sg s)) (fst kw))) (snd kw) in
  let t2 := add32 (bsig0 (sa s)) (Maj (sa s) (sb s) (sc s)) in
  mkState (add32 t1 t2) (sa s) (sb s) (sc s) (add32 (sd s) t1) (se s) (sf s) (sg s).

Definition compress (h : state) (block : list Z) : state :=
  let s := fold_left round (combine round_constants (schedule block)) h in
  mkState (add32 (sa h) (sa s)) (add32 (sb h) (sb s))
          (add32 (sc h) (sc s)) (add32 (sd h) (sd s))
          (add32 (se h) (se s)) (add32 (sf h) (sf s))
          (add32 (sg h) (sg s)) (add32 (sh h) (sh s)).

(** Big-endian packing of octets into words, and back. *)
Fixpoint words_of_bytes (bs : list byte) : list Z :=
  match bs with
  | b0 :: b1 :: b2 :: b3 :: rest =>
      (((b0 * 256 + b1) * 256 + b2) * 256 + b3) :: words_of_bytes rest
  | _ => []
  end.

Definition bytes_of_word (w : Z) : list byte :=
  [ Z.shiftr w 24 mod 256; Z.shiftr w 16 mod 256; Z.shiftr w 8 mod 256; w mod 256 ].

Definition length_block (bits : Z) : list byte :=
  bytes_of_word (Z.shiftr bits 32 mod 2 ^ 32) ++ bytes_of_word (bits mod 2 ^ 32).

Definition pad (msg : list byte) : list byte :=
  let len := Z.of_nat (length msg) in
  let zeros := Z.to_nat ((55 - len) mod 64) in
  msg ++ 0x80 :: repeat 0 zeros ++ length_block (8 * len).

Fixpoint blocks (fuel : nat) (bs : list byte) : list (list Z) :=
  match fuel, bs with
  | O, _ | _, [] => []
  | S fuel', _ => words_of_bytes (firstn 64 bs) :: blocks fuel' (skipn 64 bs)
  end.

Definition digest_bytes (s : state) : list byte :=
  flat_map bytes_of_word [sa s; sb s; sc s; sd s; se s; sf s; sg s; sh s].

Definition sha256 (msg : list byte) : list byte :=
  let padded := pad msg in
  digest_bytes (fold_left compress (blocks (length padded) padded) initial_state).

End SHA256.

(** ** HMAC (RFC 2104) with SHA-256, and node's ['hex'] digest encoding *)

Module HMAC.

Definition block_size : nat := 64.

Definition block_key (key : list byte) : list byte :=
  let k := if (block_size <? length key)%nat then SHA256.sha256 key else key in
  k ++ repeat 0 (block_size - length k).

Definition hmac_sha256 (key msg : list byte) : list byte :=
  let k := block_key key in
  SHA256.sha256 (map (Z.lxor 0x5c) k ++ SHA256.sha256 (map (Z.lxor 0x36) k ++ msg)).

End HMAC.

Definition hex_digit (n : Z) : code_unit :=
  if n <? 10 then 48 + n else 87 + n.

Definition hex_of_bytes (bs : list byte) : jsstring :=
  flat_map (fun b => [hex_digit (b / 16); hex_digit (b mod 16)]) bs.


(** ** UTF-8

    [hmac.update(string)] and [Buffer.from(string)] both encode a string as
    UTF-8; an unpaired surrogate becomes U+FFFD (EF BF BD). *)

Definition is_high_surrogate (c : code_unit) : bool := (0xD800 <=? c) && (c <=? 0xDBFF).
Definition is_low_surrogate (c : code_unit) : bool := (0xDC00 <=? c) && (c <=? 0xDFFF).
Definition is_surrogate (c : code_unit) : bool := (0xD800 <=? c) && (c <=? 0xDFFF).

Definition code_point_of_pair (hi lo : code_unit) : Z :=
  0x10000 + (hi - 0xD800) * 0x400 + (lo - 0xDC00).

Definition utf8_of_code_point (cp : Z) : list byte :=
  if cp <? 0x80 then [cp]
  else if cp <? 0x800 then [0xC0 + cp / 64; 0x80 + cp mod 64]
  else if cp <? 0x10000 then
    [0xE0 + cp / 4096; 0x80 + (cp / 64) mod 64; 0x80 + cp mod 64]
  else
    [0xF0 + cp / 262144; 0x80 + (cp / 4096) mod 64;
     0x80 + (cp / 64) mod 64; 0x80 + cp mod 64].

Definition utf8_replacement : list byte := [0xEF; 0xBF; 0xBD].

Fixpoint utf8_encode (s : jsstring) : list byte :=
  match s with
  | [] => []
  | c :: rest =>
      if is_high_surrogate c then
        match rest with
        | d :: rest' =>
            if is_low_surrogate d
            then utf8_of_code_point (code_point_of_pair c d) ++ utf8_encode rest'
            else utf8_replacement ++ utf8_encode rest
        | [] => utf8_replacement
        end
      else if is_low_surrogate c then utf8_replacement ++ utf8_encode rest
      else utf8_of_code_point c ++ utf8_encode rest
  end.

Definition utf16_of_code_point (cp : Z) : jsstring :=
  if cp <? 0x10000 then [cp]
  else [0xD800 + (cp - 0x10000) / 0x400; 0xDC00 + (cp - 0x10000) mod 0x400].

Definition is_continuation (b : byte) : bool := (0x80 <=? b) && (b <=? 0xBF).

(** Decoding of well-formed UTF-8 (shortest form, no surrogates, at most
    U+10FFFF).  On malformed input the body parser substitutes U+FFFD; such
    bodies are outside this model and decode to [None]. *)
Fixpoint utf8_decode (bs : list byte) : option jsstring :=
  match bs with
  | [] => Some []
  | b0 :: r0 =>
      if (0 <=? b0) && (b0 <? 0x80) then option_map (cons b0) (utf8_decode r0)
      else match r0 with
      | b1 :: r1 =>
          if (0xC2 <=? b0) && (b0 <=? 0xDF) && is_continuation b1 then
            option_map (cons ((b0 - 0xC0) * 64 + (b1 - 0x80))) (utf8_decode r1)
          else match r1 with
          | b2 :: r2 =>
              let cp3 := (b0 - 0xE0) * 4096 + (b1 - 0x80) * 64 + (b2 - 0x80) in
              if (0xE0 <=? b0) && (b0 <=? 0xEF) && is_continuation b1
                 && is_continuation b2 && (0x800 <=? cp3) && negb (is_surrogate cp3)
              then option_map (cons cp3) (utf8_decode r2)
              else match r2 with
              | b3 :: r3 =>
                  let cp4 := (b0 - 0xF0) * 262144 + (b1 - 0x80) * 4096
                             + (b2 - 0x80) * 64 + (b3 - 0x80) in
                  if (0xF0 <=? b0) && (b0 <=? 0xF4) && is_continuation b1
                     && is_continuation b2 && is_continuation b3
                     && (0x10000 <=? cp4) && (cp4 <=? 0x10FFFF)
                  then option_map (app (utf16_of_code_point cp4)) (utf8_decode r3)
                  else None
              | [] => None
              end
          | [] => None
          end
      | [] => None
      end
  end.

(** ** JavaScript values that a JSON body and its property reads produce

    A number is an integer of magnitude at most 2^53 (what a double holds
    exactly and [JSON.stringify] prints in plain decimal); fractions and
    exponents are outside the model.  An object lists its own properties in
    enumeration order; a lookup takes the first binding of a key. *)

#[local] Unset Elimination Schemes.
Inductive jsval : Type :=
| JUndefined
| JNull
| JBool (b : bool)
| JNum (n : Z)
| JStr (s : jsstring)
| JArr (xs : list jsval)
| JObj (fields : list (jsstring * jsval)).
#[local] Set Elimination Schemes.

(** *** JSON.stringify *)

Definition hex4 (c : Z) : jsstring :=
  [hex_digit (c / 4096); hex_digit ((c / 256) mod 16);
   hex_digit ((c / 16) mod 16); hex_digit (c mod 16)].

Definition unicode_escape (c : code_unit) : jsstring := js "\u" ++ hex4 c.

Definition quote_unit (c : code_unit) : jsstring :=
  if c =? 8 then js "\b" else if c =? 9 then js "\t"
  else if c =? 10 then js "\n" else if c =? 12 then js "\f"
  else if c =? 13 then js "\r" else if c =? 34 then [92; 34]
  else if c =? 92 then [92; 92]
  else if c <? 32 then unicode_escape c
  else [c].

(** QuoteJSONString (ES2019): paired surrogates are kept, lone ones escaped. *)
Fixpoint quote_units (s : jsstring) : jsstring :=
  match s with
  | [] => []
  | c :: rest =>
      if is_high_surrogate c then
        match rest with
        | d :: rest' =>
            if is_low_surrogate d then c :: d :: quote_units rest'
            else unicode_escape c ++ quote_units rest
        | [] => unicode_escape c
        end
      else if is_low_surrogate c then unicode_escape c ++ quote_units rest
      else quote_unit c ++ quote_units rest
  end.

Definition quote (s : jsstring) : jsstring := 34 :: quote_units s ++ [34].

Fixpoint decimal_digits (fuel : nat) (n : Z) (acc : jsstring) : jsstring :=
  match fuel with
  | O => acc
  | S fuel' =>
      let acc' := (48 + n mod 10) :: acc in
      if n <? 10 then acc' else decimal_digits fuel' (n / 10) acc'
  end.

Definition number_to_string (n : Z) : jsstring :=
  let m := Z.abs n in
  let ds := decimal_digits (S (Z.to_nat (Z.log2 m))) m [] in
  if n <? 0 then 45 :: ds else ds.

Fixpoint join_comma (parts : list jsstring) : jsstring :=
  match parts with
  | [] => []
  | [p] => p
  | p :: rest => p ++ 44 :: join_comma rest
  end.

(** [None] is JavaScript's [undefined] result of [JSON.stringify(undefined)]. *)
Fixpoint JSON_stringify (v : jsval) : option jsstring :=
  match v with
  | JUndefined => None
  | JNull => Some (js "null")
  | JBool b => Some (if b then js "true" else js "false")
  | JNum n => Some (number_to_string n)
  | JStr s => Some (quote s)
  | JArr xs =>
      Some (js "[" ++ join_comma (map (fun x =>
              match JSON_stringify x with Some t => t | None => js "null" end) xs)
            ++ js "]")
  | JObj fields =>
      Some (js "{" ++ join_comma (flat_map (fun kv =>
              match JSON_stringify (snd kv) with
              | Some t => [quote (fst kv) ++ 58 :: t]
              | None => []
              end) fields)
            ++ js "}")
  end.

(** *** JSON.parse

    Own properties enumerate array-index keys first, in ascending order, then
    the other keys in insertion order; writing an existing key keeps its
    place. *)

Definition is_digit (c : code_unit) : bool := (48 <=? c) && (c <=? 57).

Definition decimal_value (s : jsstring) : Z :=
  fold_left (fun acc c => acc * 10 + (c - 48)) s 0.

Definition array_index (k : jsstring) : option Z :=
  match k with
  | [] => None
  | c :: rest =>
      if forallb is_digit k && ((49 <=? c) || (length rest =? 0)%nat)
         && (decimal_value k <? 2 ^ 32 - 1)
      then Some (decimal_value k) else None
  end.

Fixpoint obj_set (fields : list (jsstring * jsval)) (k : jsstring) (v : jsval)
  : list (jsstring * jsval) :=
  match fields with
  | [] => [(k, v)]
  | (k', v') :: rest =>
      if jsstring_eqb k k' then (k, v) :: rest
      else match array_index k, array_index k' with
           | Some i, Some i' =>
               if i <? i' then (k, v) :: fields else (k', v') :: obj_set rest k v
           | Some _, None => (k, v) :: fields
           | None, _ => (k', v') :: obj_set rest k v
           end
  end.

Definition is_ws (c : code_unit) : bool :=
  (c =? 32) || (c =? 9) || (c =? 10) || (c =? 13).

Fixpoint skip_ws (s : jsstring) : jsstring :=
  match s with
  | c :: rest => if is_ws c then skip_ws rest else s
  | [] => []
  end.

Definition hex_value (c : code_unit) : option Z :=
  if is_digit c then Some (c - 48)
  else if (97 <=? c) && (c <=? 102) then Some (c - 87)
  else if (65 <=? c) && (c <=? 70) then Some (c - 55)
  else None.

Definition hex4_value (a b c d : code_unit) : option Z :=
  match hex_value a, hex_value b, hex_value c, hex_value d with
  | Some x, Some y, Some z, Some w => Some (((x * 16 + y) * 16 + z) * 16 + w)
  | _, _, _, _ => None
  end.

Definition simple_escape (e : code_unit) : option code_unit :=
  if (e =? 34) || (e =? 92) || (e =? 47) then Some e
  else if e =? 98 then Some 8 else if e =? 102 then Some 12
  else if e =? 110 then Some 10 else if e =? 114 then Some 13
  else if e =? 116 then Some 9 else None.

(** The characters of a string literal after its opening quote; [acc] is the
    text read so far, newest first. *)
Fixpoint parse_string_chars (s acc : jsstring) : option (jsstring * jsstring) :=
  match s with
  | [] => None
  | c :: r =>
      if c =? 34 then Some (rev acc, r)
      else if c =? 92 then
        match r with
        | e :: r' =>
            if e =? 117 then
              match r' with
              | h1 :: h2 :: h3 :: h4 :: r'' =>
                  match hex4_value h1 h2 h3 h4 with
                  | Some u => parse_string_chars r'' (u :: acc)
                  | None => None
                  end
              | _ => None
              end
            else match simple_escape e with
                 | Some u => parse_string_chars r' (u :: acc)
                 | None => None
                 end
        | [] => None
        end
      else if c <? 32 then None
      else parse_string_chars r (c :: acc)
  end.

Fixpoint take_digits (s : jsstring) (acc : Z) : Z * jsstring :=
  match s with
  | c :: r => if is_digit c then take_digits r (acc * 10 + (c - 48)) else (acc, s)
  | [] => (acc, [])
  end.

Definition starts_fraction_or_exponent (s : jsstring) : bool :=
  match s with
  | c :: _ => (c =? 46) || (c =? 101) || (c =? 69)
  | [] => false
  end.

(** Integer literals only.  A number of [jsval] is an integer, so a literal
    with a fraction or an exponent, or of a magnitude above 2^53 (where
    [JSON.parse] rounds), has no value in the model: for these the result is
    [None] although [JSON.parse] accepts them.  [Some] is what [JSON.parse]
    yields; [None] means a syntax error only for a text without such a
    literal. *)
Definition parse_number (s : jsstring) : option (Z * jsstring) :=
  let (negative, s1) :=
    match s with
    | c :: r => if c =? 45 then (true, r) else (false, s)
    | [] => (false, s)
    end in
  match s1 with
  | c :: r =>
      let (n, rest) := if c =? 48 then (0, r) else take_digits s1 0 in
      if negb (is_digit c) || starts_fraction_or_exponent rest || (2 ^ 53 <? n)
      then None
      else Some (if negative then - n else n, rest)
  | [] => None
  end.

Fixpoint strip_prefix (p s : jsstring) : option jsstring :=
  match p, s with
  | [], _ => Some s
  | a :: p', b :: s' => if a =? b then strip_prefix p' s' else None
  | _ :: _, [] => None
  end.

Fixpoint parse_value (fuel : nat) (s : jsstring) {struct fuel}
  : option (jsval * jsstring) :=
  match fuel with
  | O => None
  | S f =>
      match skip_ws s with
      | [] => None
      | c :: r =>
          if c =? 123 then
            match skip_ws r with
            | [] => None
            | c' :: r' => if c' =? 125 then Some (JObj [], r') else parse_members f r []
            end
          else if c =? 91 then
            match skip_ws r with
            | [] => None
            | c' :: r' => if c' =? 93 then Some (JArr [], r') else parse_elements f r []
            end
          else if c =? 34 then
            match parse_string_chars r [] with
            | Some (str, r') => Some (JStr str, r')
            | None => None
            end
          else
            match strip_prefix (js "true") (c :: r),
                  strip_prefix (js "false") (c :: r),
                  strip_prefix (js "null") (c :: r) with
            | Some r', _, _ => Some (JBool true, r')
            | _, Some r', _ => Some (JBool false, r')
            | _, _, Some r' => Some (JNull, r')
            | None, None, None =>
                match parse_number (c :: r) with
                | Some (n, r') => Some (JNum n, r')
                | None => None
                end
            end
      end
  end
with parse_elements (fuel : nat) (s : jsstring) (acc : list jsval) {struct fuel}
  : option (jsval * jsstring) :=
  match fuel with
  | O => None
  | S f =>
      match parse_value f s with
      | Some (v, r) =>
          match skip_ws r with
          | c :: r' =>
              if c =? 44 then parse_elements f r' (v :: acc)
              else if c =? 93 then Some (JArr (rev (v :: acc)), r')
              else None
          | [] => None
          end
      | None => None
      end
  end
with parse_members (fuel : nat) (s : jsstring) (acc : list (jsstring * jsval))
  {struct fuel} : option (jsval * jsstring) :=
  match fuel with
  | O => None
  | S f =>
      match skip_ws s with
      | c :: r =>
          if c =? 34 then
            match parse_string_chars r [] with
            | Some (k, r1) =>
                match skip_ws r1 with
                | c1 :: r2 =>
                    if c1 =? 58 then
                      match parse_value f r2 with
                      | Some (v, r3) =>
                          match skip_ws r3 with
                          | c3 :: r4 =>
                              if c3 =? 44 then parse_members f r4 (obj_set acc k v)
                              else if c3 =? 125 then Some (JObj (obj_set acc k v), r4)
                              else None
                          | [] => None
                          end
                      | None => None
                      end
                    else None
                | [] => None
                end
            | None => None
            end
          else None
      | [] => None
      end
  end.

Definition JSON_parse (text : jsstring) : option jsval :=
  match parse_value (2 * length text + 2) text with
  | Some (v, rest) => match skip_ws rest with [] => Some v | _ :: _ => None end
  | None => None
  end.

(** [bodyParser.json()]: an empty body is the empty object; in its (default)
    strict mode the first non-blank character must open an object or array. *)
Definition bodyParser_json (raw : list byte) : option jsval :=
  match raw with
  | [] => Some (JObj [])
  | _ :: _ =>
      match utf8_decode raw with
      | Some text =>
          match skip_ws text with
          | c :: _ => if (c =? 123) || (c =? 91) then JSON_parse text else None
          | [] => None
          end
      | None => None
      end
  end.

(** JSON text written with ' for the double quote. *)
Definition json_text (s : string) : list byte :=
  map (fun c => if c =? 39 then 34 else c) (js s).

(** ** Property reads and truthiness *)

Fixpoint lookup (fields : list (jsstring * jsval)) (k : jsstring) : jsval :=
  match fields with
  | [] => JUndefined
  | (k', v) :: rest => if jsstring_eqb k k' then v else lookup rest k
  end.

(** [v[k]] for a [v] other than [undefined] and [null].  None of the names
    the handler reads is inherited from a prototype, so own properties (fields,
    elements, the units of a string, [length]) are all there is. *)
Definition own_property (v : jsval) (k : jsstring) : jsval :=
  match v with
  | JObj fields => lookup fields k
  | JArr xs =>
      match array_index k with
      | Some i => nth (Z.to_nat i) xs JUndefined
      | None => if jsstring_eqb k (js "length")
                then JNum (Z.of_nat (length xs)) else JUndefined
      end
  | JStr s =>
      match array_index k with
      | Some i => match nth_error s (Z.to_nat i) with
                  | Some c => JStr [c]
                  | None => JUndefined
                  end
      | None => if jsstring_eqb k (js "length")
                then JNum (Z.of_nat (length s)) else JUndefined
      end
  | _ => JUndefined
  end.

Definition truthy (v : jsval) : bool :=
  match v with
  | JUndefined | JNull => false
  | JBool b => b
  | JNum n => negb (n =? 0)
  | JStr s => match s with [] => false | _ :: _ => true end
  | JArr _ | JObj _ => true
  end.

(** [ToString(v)], as a template literal applies it to [v], throws a
    TypeError.  For an object it calls [toString] and then [valueOf]: a value
    that [JSON.parse] made has neither as a function of its own, so an own
    property [toString] hides [Object.prototype.toString], and
    [Object.prototype.valueOf] gives back the object, which is no primitive.
    An array is joined, which converts each element other than [undefined] and
    [null].  Every other value has a string. *)
Fixpoint ToString_throws (v : jsval) : bool :=
  match v with
  | JObj fields => existsb (fun kv => jsstring_eqb (fst kv) (js "toString")) fields
  | JArr xs => existsb ToString_throws xs
  | _ => false
  end.

(** ** express-validator: field selection and [exists()]

    How the fields of a path with [*] are selected depends on the release of
    express-validator that is installed, and nothing under src/ pins one.
    [select_fields] is the selection of the 6.x releases: a [*] ranges over
    the own keys of an object or array and selects nothing under any other
    value; a named segment is read with lodash's [get], which yields
    [undefined] below [undefined] and [null].  Releases 7.0.0 and 7.1.0 stop
    at a primitive instead: [select_fields_stopping].  The selection in force
    is a field of the deployment, [field_selection] below. *)

Inductive segment := Wild | Key (k : string).

Definition own_keys (v : jsval) : list jsstring :=
  match v with
  | JObj fields => map fst fields
  | JArr xs => map (fun i => number_to_string (Z.of_nat i)) (seq 0 (length xs))
  | _ => []
  end.

Fixpoint select_fields (path : list segment) (v : jsval) : list jsval :=
  match path with
  | [] => [v]
  | Key k :: rest => select_fields rest (own_property v (js k))
  | Wild :: rest =>
      flat_map (fun k => select_fields rest (own_property v k)) (own_keys v)
  end.

Definition is_primitive (v : jsval) : bool :=
  match v with
  | JBool _ | JNum _ | JStr _ => true
  | _ => false
  end.

(** Releases 7.0.0 and 7.1.0: with segments left to walk, nothing is selected
    below a boolean, a number or a string. *)
Fixpoint select_fields_stopping (path : list segment) (v : jsval) : list jsval :=
  match path with
  | [] => [v]
  | seg :: rest =>
      if is_primitive v then []
      else
        match seg with
        | Key k => select_fields_stopping rest (own_property v (js k))
        | Wild =>
            flat_map (fun k => select_fields_stopping rest (own_property v k))
                     (own_keys v)
        end
  end.

Definition exists_ (v : jsval) : bool :=
  match v with JUndefined => false | _ => true end.

Definition path_text_body : list segment :=
  [Key "entry"; Wild; Key "changes"; Wild; Key "value"; Key "messages"; Wild;
   Key "text"; Key "body"].
Definition path_phone_number_id : list segment :=
  [Key "entry"; Wild; Key "changes"; Wild; Key "value"; Key "metadata";
   Key "phone_number_id"].
Definition path_from : list segment :=
  [Key "entry"; Wild; Key "changes"; Wild; Key "value"; Key "messages"; Wild;
   Key "from"].

(** ** Requests and configuration *)

Record request := mkRequest
  { x_hub_signature_256 : option jsstring;  (* the header, when present *)
    body : jsval }.                         (* req.body, as parsed *)

(** The deployment: the environment; the constant [DEBUG] of line 13 as a
    field so that both of its values can be spoken of ([index.js] fixes it to
    [true]); and the field selection of the express-validator installed. *)
Record config := mkConfig
  { NODE_ENV : jsstring;
    DEBUG : bool;
    WHATSAPP_TOKEN : jsstring;
    ALLOWED_PHONE_NUMBERS_env : jsstring;
    field_selection : list segment -> jsval -> list jsval }.

(** [validationResult(req).isEmpty()] for the five chains of the route. *)
Definition validation_is_empty (cfg : config) (req : request) : bool :=
  forallb exists_ (field_selection cfg [Key "object"] (body req))
  && forallb exists_ (field_selection cfg path_text_body (body req))
  && forallb exists_ (field_selection cfg path_phone_number_id (body req))
  && forallb exists_ (field_selection cfg path_from (body req))
  && match x_hub_signature_256 req with Some _ => true | None => false end.

Definition source_DEBUG : bool := true.

(** [index.js] as it is, with an express-validator of the 6.x releases. *)
Definition source_config (node_env token allowed : jsstring) : config :=
  mkConfig node_env source_DEBUG token allowed select_fields.

Definition isTestEnvironment (cfg : config) : bool :=
  jsstring_eqb (NODE_ENV cfg) (js "development").

(** [String.prototype.split(',')]. *)
Fixpoint split_comma (s cur : jsstring) : list jsstring :=
  match s with
  | [] => [rev cur]
  | c :: rest =>
      if c =? 44 then rev cur :: split_comma rest [] else split_comma rest (c :: cur)
  end.

Definition startsWith_1 (s : jsstring) : bool :=
  match s with c :: _ => c =? 49 | [] => false end.

(** The callback of lines 94-99: strip non-digits, then ensure a leading 1. *)
Definition normalize_number (num : jsstring) : jsstring :=
  let cleaned := filter is_digit num in
  if startsWith_1 cleaned then cleaned else 49 :: cleaned.

Definition ALLOWED_PHONE_NUMBERS (cfg : config) : list jsstring :=
  map normalize_number (split_comma (ALLOWED_PHONE_NUMBERS_env cfg) []).

(** [Array.prototype.includes] on an array of strings. *)
Definition includes (l : list jsstring) (v : jsval) : bool :=
  match v with
  | JStr s => existsb (jsstring_eqb s) l
  | _ => false
  end.

(** ** node's crypto: [createHmac('sha256', key).update(data).digest('hex')] *)

Inductive update_data :=
| DataString (s : jsstring)
| DataBuffer (b : list byte).

Definition Buffer_from (s : jsstring) : list byte := utf8_encode s.

Definition update_bytes (d : update_data) : list byte :=
  match d with
  | DataString s => utf8_encode s
  | DataBuffer b => b
  end.

Definition hmac_sha256_hex (key : jsstring) (d : update_data) : jsstring :=
  hex_of_bytes (HMAC.hmac_sha256 (utf8_encode key) (update_bytes d)).

Definition sha256_prefixed (hexdigest : jsstring) : jsstring :=
  js "sha256=" ++ hexdigest.

(** ** Effects: console output, the response, the two collaborators *)

Inductive level := log | warn | error.

(** A console call is recorded by its first argument (for a template
    literal, by its fixed prefix); the values logged with it are not. *)
Inductive event :=
| Respond (status : Z) (text : string)
| Console (lvl : level) (label : string)
| TranslateCall (text : jsval) (target : string)
| SendMessageCall (phone_number_id to : jsval) (message : jsstring).

Inductive exn := TypeError | TranslateError | FetchError | WhatsAppApiError.

(** How a block of statements ends: it falls through with a value, runs a
    [return] of the handler, or throws. *)
Inductive completion (A : Type) :=
| Normal (a : A)
| Returned
| Thrown (e : exn).
Arguments Normal {A} a.
Arguments Returned {A}.
Arguments Thrown {A} e.

Definition M (A : Type) : Type := list event * completion A.

Definition ret {A} (a : A) : M A := ([], Normal a).

Definition bind {A B} (m : M A) (k : A -> M B) : M B :=
  match snd m with
  | Normal a => let r := k a in (fst m ++ fst r, snd r)
  | Returned => (fst m, Returned)
  | Thrown e => (fst m, Thrown e)
  end.

Definition emit (e : event) : M unit := ([e], Normal tt).
Definition console (lvl : level) (label : string) : M unit := emit (Console lvl label).
Definition throw {A} (e : exn) : M A := ([], Thrown e).
Definition return_ {A} : M A := ([], Returned).

Definition try_catch {A} (m : M A) (handler : exn -> M A) : M A :=
  match snd m with
  | Thrown e => let r := handler e in (fst m ++ fst r, snd r)
  | _ => m
  end.

Declare Scope js_scope.
Delimit Scope js_scope with js.
Notation "x <- m ;; k" := (bind m (fun x => k))
  (at level 61, m at next level, right associativity) : js_scope.
Notation "m ;; k" := (bind m (fun _ => k))
  (at level 61, right associativity) : js_scope.
Local Open Scope js_scope.

(** [v.k] and [v[0]]: a TypeError on [undefined] and [null], here [None]. *)
Definition get_member (v : jsval) (k : string) : option jsval :=
  match v with
  | JUndefined | JNull => None
  | _ => Some (own_property v (js k))
  end.

Definition member (v : jsval) (k : string) : M jsval :=
  match get_member v k with
  | Some w => ret w
  | None => throw TypeError
  end.

(** A chain of reads [v.k1.k2...], [None] when one of them throws. *)
Fixpoint get_path (v : jsval) (path : list string) : option jsval :=
  match path with
  | [] => Some v
  | k :: rest =>
      match get_member v k with
      | Some w => get_path w rest
      | None => None
      end
  end.

(** [`...${v}...`]: the template literal converts [v] to a string. *)
Definition interpolate (v : jsval) : M unit :=
  if ToString_throws v then throw TypeError else ret tt.

(** What [fetch] and the reading of its response come to, for [sendMessage]:
    a response with [ok], one without, or a rejected promise. *)
Inductive fetch_result := FetchOk | FetchNotOk | FetchRejected.

Definition restricted_text : jsstring :=
  js "Sorry, this translation service is currently restricted to authorized users only.".

(** The reply of line 252: [`Translated text: ${translation}`]. *)
Definition translated_text (translation : jsstring) : jsstring :=
  js "Translated text: " ++ translation.

Definition is_string (v : jsval) (s : string) : bool :=
  match v with
  | JStr t => jsstring_eqb t (js s)
  | _ => false
  end.

Section Handler.

(** [translate.translate(text, target)]: the translation as the reply's
    template interpolates it (the empty string for an empty translation), or
    [None] when no such string is reached: the promise rejects, or what it
    resolves to cannot be destructured or interpolated, all within the [try]
    of line 241. *)
Variable translate_translate : jsval -> string -> option jsstring.
(** The POST that [sendMessage] makes to the Graph API. *)
Variable fetch : jsval -> jsval -> jsstring -> fetch_result.
Variable cfg : config.

(** Lines 276-310; [SendMessageCall] is the POST it makes with [fetch].  The
    URL of line 284 is built before the [try] of line 286. *)
Definition sendMessage (phone_number_id to : jsval) (message : jsstring) : M unit :=
  console log "Sending message:" ;;
  interpolate phone_number_id ;;
  try_catch
    (emit (SendMessageCall phone_number_id to message) ;;
     match fetch phone_number_id to message with
     | FetchRejected => throw FetchError
     | FetchNotOk => throw WhatsAppApiError
     | FetchOk => ret tt
     end)
    (fun e => console error "Error sending message:" ;; throw e).

(** Lines 171-183: both digests of the re-serialised body. *)
Definition expectedSignature1 (bodyString : jsstring) : jsstring :=
  hmac_sha256_hex (WHATSAPP_TOKEN cfg) (DataString bodyString).

Definition expectedSignature2 (bodyString : jsstring) : jsstring :=
  hmac_sha256_hex (WHATSAPP_TOKEN cfg) (DataBuffer (Buffer_from bodyString)).

(** The test of line 189. *)
Definition signature_matches (signature bodyString : jsstring) : bool :=
  jsstring_eqb signature (sha256_prefixed (expectedSignature1 bodyString))
  || jsstring_eqb signature (sha256_prefixed (expectedSignature2 bodyString)).

(** Lines 154-206. *)
Definition signature_block (req : request) : M unit :=
  try_catch
    (if jsstring_eqb (NODE_ENV cfg) (js "production") && negb (isTestEnvironment cfg)
     then
       match x_hub_signature_256 req with
       | Some (c :: s) =>
           let signature := c :: s in
           console log "Raw body:" ;;
           console log "Received signature:" ;;
           match JSON_stringify (body req) with
           | None => throw TypeError   (* update(undefined) *)
           | Some bodyString =>
               console log "Expected signature (Method 1):" ;;
               console log "Expected signature (Method 2):" ;;
               if signature_matches signature bodyString then
                 console log "Signature verified successfully"
               else if DEBUG cfg then
                 console warn "Invalid signature received, but continuing due to DEBUG mode"
               else
                 console warn "Invalid signature received" ;; return_
           end
       | _ =>  (* !signature: undefined or the empty string *)
           if DEBUG cfg then
             console warn "Missing signature, but continuing due to DEBUG mode"
           else
             console warn "Missing signature" ;; return_
       end
     else ret tt)
    (fun _ =>
       console error "Signature verification failed:" ;;
       if negb (DEBUG cfg) then return_
       else console warn "Continuing despite signature verification failure due to DEBUG mode").

(** Lines 241-259. *)
Definition translate_and_reply (value message from : jsval) : M unit :=
  try_catch
    (metadata <- member value "metadata" ;;
     phone_number_id <- member metadata "phone_number_id" ;;
     text <- member message "text" ;;
     msg_body <- member text "body" ;;
     console log "Processing message with phone_number_id:" ;;
     emit (TranslateCall msg_body "en") ;;
     match translate_translate msg_body "en" with
     | None => throw TranslateError
     | Some translation =>
         sendMessage phone_number_id from (translated_text translation) ;;
         console log "Translation successful:"
     end)
    (fun _ => console error "Translation error:").

(** Lines 226-239. *)
Definition phone_number_check (value from : jsval) : M unit :=
  if negb (includes (ALLOWED_PHONE_NUMBERS cfg) from) && negb (DEBUG cfg) then
    interpolate from ;;
    console log "Unauthorized phone number attempted to use bot: " ;;
    metadata <- member value "metadata" ;;
    phone_number_id <- member metadata "phone_number_id" ;;
    sendMessage phone_number_id from restricted_text ;;
    return_
  else if negb (includes (ALLOWED_PHONE_NUMBERS cfg) from) then
    interpolate from ;;
    console log "Unauthorized phone number bypassed in DEBUG mode: "
  else ret tt.

(** Lines 217-263. *)
Definition handle_value (value : jsval) : M unit :=
  messages <- member value "messages" ;;
  if truthy messages then
    message <- member messages "0" ;;
    from <- member message "from" ;;
    console log "Received message:" ;;
    console log "Full value object:" ;;
    phone_number_check value from ;;
    translate_and_reply value message from
  else
    statuses <- member value "statuses" ;;
    if truthy statuses then console log "Received status update:" else ret tt.

(** Lines 208-266. *)
Definition process_body (req : request) : M unit :=
  object <- member (body req) "object" ;;
  if is_string object "whatsapp_business_account" then
    entries <- member (body req) "entry" ;;
    entry <- member entries "0" ;;
    changes_list <- member entry "changes" ;;
    changes <- member changes_list "0" ;;
    value <- member changes "value" ;;
    console log "Webhook update type:" ;;
    console log "Value:" ;;
    handle_value value
  else console log "Invalid request format".

(** Lines 145-151. *)
Definition validation_gate (req : request) : M unit :=
  if negb (validation_is_empty cfg req) then
    console log "Validation errors:" ;;
    console log "Validation failed" ;;
    return_
  else ret tt.

(** Lines 124-273: the handler of [app.post('/webhook', ...)]. *)
Definition webhook_post (req : request) : M unit :=
  emit (Respond 200 "OK") ;;
  try_catch
    (console log "Environment:" ;;
     console log "Webhook POST received" ;;
     console log "Full request:" ;;
     validation_gate req ;;
     signature_block req ;;
     process_body req ;;
     console log "Processing completed successfully")
    (fun _ => console error "Error processing webhook:").

End Handler.

(** ** Reading a run *)

Definition trace {A} (m : M A) : list event := fst m.
Definition outcome {A} (m : M A) : completion A := snd m.

Definition is_translate_call (e : event) : bool :=
  match e with TranslateCall _ _ => true | _ => false end.
Definition is_send_call (e : event) : bool :=
  match e with SendMessageCall _ _ _ => true | _ => false end.
Definition is_collaborator_call (e : event) : bool :=
  is_translate_call e || is_send_call e.

Definition collaborator_calls (t : list event) : list event :=
  filter is_collaborator_call t.

(** ** What the statements below speak of *)

Definition is_console (e : event) : bool :=
  match e with Console _ _ => true | _ => false end.

Definition console_only (t : list event) : Prop :=
  forall e, In e t -> is_console e = true.

(** [prepend t r]: the run [r] after the events [t]. *)
Definition prepend {A} (t : list event) (r : M A) : M A := (t ++ fst r, snd r).

(** The signature the platform attaches: HMAC-SHA256 of the bytes it sends. *)
Definition platform_signature (secret : jsstring) (raw : list byte) : jsstring :=
  sha256_prefixed (hex_of_bytes (HMAC.hmac_sha256 (utf8_encode secret) raw)).

(** The header is there, non-empty, and passes the test of line 189. *)
Definition signature_accepted (cfg : config) (req : request) : bool :=
  match x_hub_signature_256 req, JSON_stringify (body req) with
  | Some (c :: s), Some bodyString => signature_matches cfg (c :: s) bodyString
  | _, _ => false
  end.

Definition is_production (cfg : config) : bool :=
  jsstring_eqb (NODE_ENV cfg) (js "production").

(** The request passed the validation of lines 145-151 and the signature
    block of lines 154-206 let it through. *)
Definition passes_gates (cfg : config) (req : request) : bool :=
  validation_is_empty cfg req
  && negb (is_production cfg && negb (DEBUG cfg) && negb (signature_accepted cfg req)).

(** The chains of reads the handler makes. *)
Definition path_value : list string :=
  ["entry"; "0"; "changes"; "0"; "value"]%string.
Definition path_first_message : list string :=
  ["entry"; "0"; "changes"; "0"; "value"; "messages"; "0"]%string.
Definition path_message_body : list string :=
  ["entry"; "0"; "changes"; "0"; "value"; "messages"; "0"; "text"; "body"]%string.
Definition path_metadata_id : list string := ["metadata"; "phone_number_id"]%string.
Definition path_message_text : list string := ["text"; "body"]%string.

(** The reads of lines 208-220 succeed: the body carries the discriminator,
    [value] is the value of the first change of the first entry, [message] its
    first message and [from] the sender of that message. *)
Definition message_event (req : request) (value message from : jsval) : Prop :=
  (exists object,
      get_member (body req) "object" = Some object
      /\ is_string object "whatsapp_business_account" = true)
  /\ get_path (body req) path_value = Some value
  /\ (exists messages,
         get_member value "messages" = Some messages
         /\ truthy messages = true
         /\ get_member messages "0" = Some message)
  /\ get_member message "from" = Some from.

(** The selection in force yields, for [path], at least the fields that the
    6.x selection yields: a value that [select_fields] reaches is checked.
    The 6.x releases meet it by definition; releases 7.0.0 and 7.1.0, which
    select nothing below a primitive, do not. *)
Definition selection_covers (cfg : config) (path : list segment) : Prop :=
  forall b x, In x (select_fields path b) -> In x (field_selection cfg path b).

(** The run of a request that fails validation (lines 145-151). *)
Definition validation_failed_trace : list event :=
  [Respond 200 "OK"; Console log "Environment:"; Console log "Webhook POST received";
   Console log "Full request:"; Console log "Validation errors:";
   Console log "Validation failed"].

(** ** Sample requests and deployments *)

Definition translate_hello (_ : jsval) (_ : string) : option jsstring := Some (js "Hello").
Definition translate_fails (_ : jsval) (_ : string) : option jsstring := None.
Definition fetch_ok (_ _ : jsval) (_ : jsstring) : fetch_result := FetchOk.

Definition sample_phone_number_id : jsval := JStr (js "123456789").

Definition sample_message (from text : jsval) : jsval :=
  JObj [(js "from", from); (js "text", JObj [(js "body", text)])].

Definition sample_value (from text : jsval) : jsval :=
  JObj [(js "messages", JArr [sample_message from text]);
        (js "metadata", JObj [(js "phone_number_id", sample_phone_number_id)])].

(** An envelope with one text message, as the platform posts it. *)
Definition message_envelope (from text : jsstring) : jsval :=
  JObj [(js "object", JStr (js "whatsapp_business_account"));
        (js "entry", JArr [JObj [(js "changes", JArr [JObj
           [(js "value", sample_value (JStr from) (JStr text))]])]])].

(** An envelope with a status update and no message. *)
Definition sample_statuses : list jsval :=
  [JObj [(js "status", JStr (js "delivered"))]].

Definition status_value : jsval :=
  JObj [(js "statuses", JArr sample_statuses);
        (js "metadata", JObj [(js "phone_number_id", sample_phone_number_id)])].

Definition status_envelope : jsval :=
  JObj [(js "object", JStr (js "whatsapp_business_account"));
        (js "entry", JArr [JObj [(js "changes", JArr [JObj
           [(js "value", status_value)]])]])].

(** [index.js] as it is ([DEBUG] forced on) in production, and with [DEBUG]
    off in production and in development. *)
Definition sample_token : jsstring := js "EAAG-sample-token".
Definition sample_allowed : jsstring := js "15551234567".

Definition production_source : config :=
  source_config (js "production") sample_token sample_allowed.

Definition production_debug_off : config :=
  mkConfig (js "production") false sample_token sample_allowed select_fields.

Definition development_debug_off : config :=
  mkConfig (js "development") false sample_token sample_allowed select_fields.

(** A request whose header is the signature the handler expects. *)
Definition signed (cfg : config) (b : jsval) : request :=
  mkRequest
    (option_map (fun s => platform_signature (WHATSAPP_TOKEN cfg) (utf8_encode s))
                (JSON_stringify b))
    b.

(** A request whose header is some other signature. *)
Definition wrongly_signed (b : jsval) : request :=
  mkRequest (Some (js "sha256=0000")) b.

(** The message envelope as bytes on the wire, with blanks after the
    separators, and the request the platform makes of it: the header signs
    these bytes. *)
Definition spaced_raw : list byte :=
  json_text "{'object': 'whatsapp_business_account', 'entry': [{'changes': [{'value': {'messages': [{'from': '15551234567', 'text': {'body': 'Hola'}}], 'metadata': {'phone_number_id': '123456789'}}}]}]}".

Definition spaced_request : request :=
  mkRequest (Some (platform_signature sample_token spaced_raw))
            (message_envelope (js "15551234567") (js "Hola")).

(** ** GET /webhook (lines 76-91) *)

(** The three query parameters the handler reads; an absent one is
    [undefined], a repeated one an array. *)
Record query := mkQuery
  { hub_mode : jsval; hub_verify_token : jsval; hub_challenge : jsval }.

Inductive get_response :=
| SendStatus (code : Z)              (* res.sendStatus(code) *)
| SendChallenge (challenge : jsval). (* res.status(200).send(challenge) *)

(** [v === s] for a string [s]. *)
Definition strict_equals_string (v : jsval) (s : jsstring) : bool :=
  match v with
  | JStr t => jsstring_eqb t s
  | _ => false
  end.

Definition webhook_get (WHATSAPP_VERIFY_TOKEN : jsstring) (q : query) : get_response :=
  if negb (truthy (hub_mode q)) || negb (truthy (hub_verify_token q)) then
    SendStatus 400
  else if is_string (hub_mode q) "subscribe"
          && strict_equals_string (hub_verify_token q) WHATSAPP_VERIFY_TOKEN then
    SendChallenge (hub_challenge q)
  else SendStatus 403.

(** ** The start-up check of the environment (lines 16-31) *)

Definition requiredEnvVars : list string :=
  ["WHATSAPP_TOKEN"; "WHATSAPP_VERIFY_TOKEN"; "GOOGLE_PROJECT_ID";
   "GOOGLE_APPLICATION_CREDENTIALS_JSON"; "ALLOWED_PHONE_NUMBERS"; "NODE_ENV";
   "WHATSAPP_PHONE_NUMBER_ID"]%string.

(** [process.env]: a variable is absent or holds a string. *)
Definition environment := string -> option jsstring.

(** [process.env[envVar]] is truthy. *)
Definition env_is_set (env : environment) (envVar : string) : bool :=
  match env envVar with
  | Some (_ :: _) => true
  | _ => false
  end.

(** The loop of lines 26-31: the variable it reports before
    [process.exit(1)], or [None] when it runs to its end. *)
Fixpoint first_missing (env : environment) (vars : list string) : option string :=
  match vars with
  | [] => None
  | envVar :: rest =>
      if env_is_set env envVar then first_missing env rest else Some envVar
  end.

Definition startup_check (env : environment) : option string :=
  first_missing env requiredEnvVars.

(** An environment given by its bindings. *)
Fixpoint env_of (bindings : list (string * jsstring)) : environment :=
  fun name =>
    match bindings with
    | [] => None
    | (n, v) :: rest => if String.eqb name n then Some v else env_of rest name
    end.

(** ** Further readings of a run of the POST handler *)

Definition is_respond (e : event) : bool :=
  match e with Respond _ _ => true | _ => false end.

(** The responses a run sends, in order. *)
Definition responses (t : list event) : list event := filter is_respond t.

Definition no_response {A} (m : M A) : Prop := responses (trace m) = [].

(** The run ends with the events [t]. *)
Definition ends_with (run : list event) (t : list event) : Prop :=
  exists before, run = before ++ t.

Definition path_messages : list string :=
  ["entry"; "0"; "changes"; "0"; "value"; "messages"]%string.

(** One of the reads of lines 210-220 throws: the chain down to
    [value.messages], or, below a truthy [messages], [messages[0].from]. *)
Definition envelope_read_throws (req : request) : Prop :=
  get_path (body req) path_messages = None
  \/ exists messages,
       get_path (body req) path_messages = Some messages
       /\ truthy messages = true
       /\ get_path messages ["0"; "from"]%string = None.

(** An envelope whose [messages] is the empty array. *)
Definition empty_messages_envelope : jsval :=
  JObj [(js "object", JStr (js "whatsapp_business_account"));
        (js "entry", JArr [JObj [(js "changes", JArr [JObj
           [(js "value",
             JObj [(js "messages", JArr []);
                   (js "metadata",
                    JObj [(js "phone_number_id", sample_phone_number_id)])])]])]])].

(** An envelope of some other kind of account. *)
Definition other_account_envelope : jsval :=
  JObj [(js "object", JStr (js "instagram"));
        (js "entry", JArr [])].

Definition fetch_not_ok (_ _ : jsval) (_ : jsstring) : fetch_result := FetchNotOk.

(** ** tests/local-test.js: the translation tests (lines 40-86) *)

(** The request the script posts for a test message: a Content-Type header
    only, and the envelope of lines 51-65. *)
Definition local_test_request (text : jsstring) : request :=
  mkRequest None (message_envelope (js "123456789") text).

Inductive test_verdict := TestPassed | TestFailed | TestNonJson.

(** Lines 68-86: the verdict on a response with this status and text. *)
Definition local_test_verdict (status : Z) (responseData : jsstring) : test_verdict :=
  match JSON_parse responseData with
  | None => TestNonJson
  | Some _ => if status =? 200 then TestPassed else TestFailed
  end.

(** The verdict on the first response of a run. *)
Definition local_test_outcome (run : list event) : option test_verdict :=
  match responses run with
  | Respond status text :: _ => Some (local_test_verdict status (js text))
  | _ => None
  end.

(** * The second version of [index.js] (lines 323-557)

    The file holds a second, stricter version of the server: an IP
    whitelist in front of /webhook, an allow-list taken from the environment
    as it is, and a POST handler that answers with the result of the
    processing. *)

Module V2.

(** ** The IP whitelist (lines 380-395) *)

Definition whatsappIPs : list jsstring :=
  [js "157.240.0.0/16"; js "69.171.250.0/24"; js "69.171.251.0/24"].

(** [range.split('/')[0]]. *)
Fixpoint split_slash_0 (range : jsstring) : jsstring :=
  match range with
  | [] => []
  | c :: rest => if c =? 47 then [] else c :: split_slash_0 rest
  end.

(** [s.slice(0, -1)]. *)
Definition slice_0_minus_1 (s : jsstring) : jsstring := removelast s.

(** [s.startsWith(searchString)]. *)
Fixpoint startsWith (s searchString : jsstring) {struct searchString} : bool :=
  match searchString, s with
  | [], _ => true
  | p :: ps, c :: cs => (c =? p) && startsWith cs ps
  | _ :: _, [] => false
  end.

Definition isWhatsAppIP (clientIP : jsstring) : bool :=
  existsb (fun range => startsWith clientIP (slice_0_minus_1 (split_slash_0 range)))
          whatsappIPs.

(** ** The allow-list (line 429) *)

Definition ALLOWED_PHONE_NUMBERS (cfg : config) : list jsstring :=
  split_comma (ALLOWED_PHONE_NUMBERS_env cfg) [].

(** ** The responses of POST /webhook *)

Inductive response :=
| UnauthorizedIP          (* 403 { error: 'Unauthorized IP' } *)
| ValidationErrors        (* 400 { errors: errors.array() } *)
| InvalidSignature        (* sendStatus(401) *)
| UnauthorizedSender      (* 403 { error: 'Unauthorized sender', ... } *)
| Success (translation : jsstring)  (* 200 { success: true, translation } *)
| TranslationFailed       (* 500 { error: 'Translation failed', ... } *)
| InvalidRequestFormat.   (* 400 { error: 'Invalid request format' } *)

Definition status (r : response) : Z :=
  match r with
  | UnauthorizedIP | UnauthorizedSender => 403
  | ValidationErrors | InvalidRequestFormat => 400
  | InvalidSignature => 401
  | Success _ => 200
  | TranslationFailed => 500
  end.

Section Handler.

Variable translate_translate : jsval -> string -> option jsstring.
Variable fetch : jsval -> jsval -> jsstring -> fetch_result.
Variable cfg : config.

(** Lines 504-538: in development the call to the Graph API is mocked.  The
    URL of line 513 is built before the [try] of line 515. *)
Definition sendMessage (phone_number_id to : jsval) (message : jsstring) : M unit :=
  if isTestEnvironment cfg then
    console log "Test environment: Mocking WhatsApp API call" ;;
    console log "Would have sent:"
  else
    interpolate phone_number_id ;;
    try_catch
      (emit (SendMessageCall phone_number_id to message) ;;
       match fetch phone_number_id to message with
       | FetchRejected => throw FetchError
       | FetchNotOk => throw WhatsAppApiError
       | FetchOk => ret tt
       end)
      (fun e => console error "Error sending message:" ;; throw e).

(** Lines 447-450. *)
Definition expectedSignature (bodyString : jsstring) : jsstring :=
  hmac_sha256_hex (WHATSAPP_TOKEN cfg) (DataString bodyString).

(** The test of line 452: [!signature || `sha256=${expectedSignature}` !== signature]. *)
Definition signature_rejected (signature : option jsstring) (expected : jsstring) : bool :=
  match signature with
  | Some (c :: s) => negb (jsstring_eqb (sha256_prefixed expected) (c :: s))
  | _ => true
  end.

(** The condition of lines 458-463, a chain of [&&]: the value of the first
    change and its first message when every operand is truthy, [None] when
    one is falsy; a read below [undefined] or [null] throws. *)
Definition first_message (b : jsval) : M (option (jsval * jsval)) :=
  entry <- member b "entry" ;;
  if negb (truthy entry) then ret None else
  entry_0 <- member entry "0" ;;
  changes <- member entry_0 "changes" ;;
  if negb (truthy changes) then ret None else
  changes_0 <- member changes "0" ;;
  if negb (truthy changes_0) then ret None else
  value <- member changes_0 "value" ;;
  messages <- member value "messages" ;;
  if negb (truthy messages) then ret None else
  message <- member messages "0" ;;
  if negb (truthy message) then ret None else
  ret (Some (value, message)).

(** Lines 464-493. *)
Definition reply (value message : jsval) : M response :=
  metadata <- member value "metadata" ;;
  phone_number_id <- member metadata "phone_number_id" ;;
  from <- member message "from" ;;
  if negb (includes (ALLOWED_PHONE_NUMBERS cfg) from) then
    interpolate from ;;
    console warn "Unauthorized message from: " ;;
    ret UnauthorizedSender
  else
    text <- member message "text" ;;
    msg_body <- member text "body" ;;
    try_catch
      (emit (TranslateCall msg_body "en") ;;
       match translate_translate msg_body "en" with
       | None => throw TranslateError
       | Some translation =>
           sendMessage phone_number_id from (translated_text translation) ;;
           ret (Success translation)
       end)
      (fun _ => console error "Translation error:" ;; ret TranslationFailed).

(** Lines 457-500: what the handler does once the signature is accepted. *)
Definition process_body (b : jsval) : M response :=
  object <- member b "object" ;;
  if truthy object then
    found <- first_message b ;;
    match found with
    | Some (value, message) => reply value message
    | None => ret InvalidRequestFormat
    end
  else ret InvalidRequestFormat.

(** Lines 440-501: the handler of [app.post('/webhook', ...)].  Its value is
    the response it sends; when it throws, the promise of the [async]
    function rejects and no response is sent. *)
Definition webhook_post (req : request) : M response :=
  if negb (validation_is_empty cfg req) then ret ValidationErrors
  else
    match JSON_stringify (body req) with
    | None => throw TypeError   (* update(undefined) *)
    | Some bodyString =>
        if signature_rejected (x_hub_signature_256 req) (expectedSignature bodyString)
        then
          console warn "Invalid signature received" ;;
          ret InvalidSignature
        else process_body (body req)
    end.

(** The whitelist in front of the route (lines 380-395). *)
Definition ip_whitelist (clientIP : jsstring) (next : M response) : M response :=
  if is_production cfg then
    if negb (isWhatsAppIP clientIP) then ret UnauthorizedIP else next
  else next.

(** A POST to /webhook from the address [clientIP]. *)
Definition post_webhook (clientIP : jsstring) (req : request) : M response :=
  ip_whitelist clientIP (webhook_post req).

End Handler.

End V2.

(** An envelope whose first entry is [null]. *)
Definition entry_without_changes : jsval :=
  JObj [(js "object", JStr (js "whatsapp_business_account"));
        (js "entry", JArr [JNull])].

(** A request whose header is the signature the second handler expects. *)
Definition signed_v2 (cfg : config) (b : jsval) : request :=
  mkRequest
    (option_map (fun s => sha256_prefixed (V2.expectedSignature cfg s))
                (JSON_stringify b))
    b.

Definition production_v2 : config :=
  mkConfig (js "production") false sample_token (js "15551234567,15557654321")
    select_fields.


(** ** Further samples *)

(** The message envelope with the first message given as a whole. *)
Definition envelope_of_message (message : jsval) : jsval :=
  JObj [(js "object", JStr (js "whatsapp_business_account"));
        (js "entry", JArr [JObj [(js "changes", JArr [JObj
           [(js "value",
             JObj [(js "messages", JArr [message]);
                   (js "metadata",
                    JObj [(js "phone_number_id", sample_phone_number_id)])])]])]])].

(** A first message without [text], and one whose [text] is a string rather
    than an object with a [body]. *)
Definition textless_message : jsval := JObj [(js "from", JStr (js "15551234567"))].

Definition primitive_text_message : jsval :=
  JObj [(js "from", JStr (js "15551234567")); (js "text", JStr (js "Hola"))].

(** A translation provider that answers with the empty string. *)
Definition translate_empty (_ : jsval) (_ : string) : option jsstring := Some [].

(** A development deployment whose express-validator stops at a primitive
    (releases 7.0.0 and 7.1.0). *)
Definition development_stopping : config :=
  mkConfig (js "development") false sample_token sample_allowed select_fields_stopping.
(** * Properties *)

Lemma jsstring_eqb_eq (a b : jsstring) : jsstring_eqb a b = true <-> a = b.
Proof.
  revert b; induction a as [|x a IH]; intros [|y b]; simpl; split;
    try congruence; try reflexivity.
  - intros H. apply andb_true_iff in H as [Hx Hab].
    apply Z.eqb_eq in Hx. apply IH in Hab. congruence.
  - intros H. injection H as -> ->. rewrite Z.eqb_refl. simpl. now apply IH.
Qed.

Lemma jsstring_eqb_refl (a : jsstring) : jsstring_eqb a a = true.
Proof. now apply jsstring_eqb_eq. Qed.

Example sha256_abc :
  hex_of_bytes (SHA256.sha256 (js "abc"))
  = js "ba7816bf8f01cfea414140de5dae2223b00361a396177a9cb410ff61f20015ad".
Proof. vm_compute. reflexivity. Qed.

Example sha256_empty :
  hex_of_bytes (SHA256.sha256 [])
  = js "e3b0c44298fc1c149afbf4c8996fb92427ae41e4649b934ca495991b7852b855".
Proof. vm_compute. reflexivity. Qed.

Example sha256_two_blocks :
  hex_of_bytes (SHA256.sha256
    (js "abcdbcdecdefdefgefghfghighijhijkijkljklmklmnlmnomnopnopq"))
  = js "248d6a61d20638b8e5c026930c3e6039a33ce45964ff2167f6ecedd419db06c1".
Proof. vm_compute. reflexivity. Qed.

(** RFC 4231, test case 2. *)
Example hmac_rfc4231_2 :
  hex_of_bytes (HMAC.hmac_sha256 (js "Jefe") (js "what do ya want for nothing?"))
  = js "5bdcc146bf60754e6a042426089575c75a003f089d2739839dec58b964ec3843".
Proof. vm_compute. reflexivity. Qed.

(** ** The completion monad *)

Lemma bind_ret {A B} (a : A) (k : A -> M B) : bind (ret a) k = k a.
Proof. unfold bind, ret; simpl. now destruct (k a). Qed.

Lemma bind_emit {B} (e : event) (k : unit -> M B) :
  bind (emit e) k = (e :: fst (k tt), snd (k tt)).
Proof. reflexivity. Qed.

Lemma bind_throw {A B} (e : exn) (k : A -> M B) : bind (throw e) k = throw e.
Proof. reflexivity. Qed.

Lemma bind_return {A B} (k : A -> M B) : bind return_ k = return_.
Proof. reflexivity. Qed.

Lemma trace_bind {A B} (m : M A) (k : A -> M B) :
  trace (bind m k)
  = trace m ++ match outcome m with Normal a => trace (k a) | _ => [] end.
Proof.
  unfold trace, outcome, bind. destruct m as [t [a| |e]]; simpl;
    now rewrite ?app_nil_r.
Qed.

Lemma outcome_bind {A B} (m : M A) (k : A -> M B) :
  outcome (bind m k)
  = match outcome m with
    | Normal a => outcome (k a)
    | Returned => Returned
    | Thrown e => Thrown e
    end.
Proof. unfold outcome, bind. now destruct m as [t [a| |e]]. Qed.

Lemma trace_try_catch {A} (m : M A) (h : exn -> M A) :
  trace (try_catch m h)
  = trace m ++ match outcome m with Thrown e => trace (h e) | _ => [] end.
Proof.
  unfold trace, outcome, try_catch. destruct m as [t [a| |e]]; simpl;
    now rewrite ?app_nil_r.
Qed.

Lemma outcome_try_catch {A} (m : M A) (h : exn -> M A) :
  outcome (try_catch m h)
  = match outcome m with Thrown e => outcome (h e) | c => c end.
Proof. unfold outcome, try_catch. now destruct m as [t [a| |e]]. Qed.

Lemma member_cases (v : jsval) (k : string) :
  (get_member v k = None /\ member v k = throw TypeError)
  \/ (exists w, get_member v k = Some w /\ member v k = ret w).
Proof.
  unfold member. destruct (get_member v k) as [w|]; [right; eauto | left; auto].
Qed.

Lemma member_some v k w : get_member v k = Some w -> member v k = ret w.
Proof. unfold member. now intros ->. Qed.

Lemma member_none v k : get_member v k = None -> member v k = throw TypeError.
Proof. unfold member. now intros ->. Qed.

(** ** Running the handler symbolically *)

Lemma bind_emit_prepend {B} (e : event) (k : unit -> M B) :
  bind (emit e) k = prepend [e] (k tt).
Proof. reflexivity. Qed.

Lemma bind_console_prepend {B} (l : level) (s : string) (k : unit -> M B) :
  bind (console l s) k = prepend [Console l s] (k tt).
Proof. reflexivity. Qed.

Lemma bind_prepend {A B} (t : list event) (r : M A) (k : A -> M B) :
  bind (prepend t r) k = prepend t (bind r k).
Proof.
  unfold bind, prepend. destruct r as [t' [a| |e]]; simpl;
    now rewrite ?app_assoc.
Qed.

Lemma try_catch_prepend {A} (t : list event) (r : M A) (h : exn -> M A) :
  try_catch (prepend t r) h = prepend t (try_catch r h).
Proof.
  unfold try_catch, prepend. destruct r as [t' [a| |e]]; simpl;
    now rewrite ?app_assoc.
Qed.

Lemma try_catch_ret {A} (a : A) (h : exn -> M A) : try_catch (ret a) h = ret a.
Proof. reflexivity. Qed.

Lemma try_catch_return {A} (h : exn -> M A) : try_catch return_ h = return_.
Proof. reflexivity. Qed.

Lemma try_catch_throw {A} (e : exn) (h : exn -> M A) : try_catch (throw e) h = h e.
Proof. unfold try_catch, throw; simpl. now destruct (h e). Qed.

Lemma console_prepend (l : level) (s : string) :
  console l s = prepend [Console l s] (ret tt).
Proof. reflexivity. Qed.

Lemma emit_prepend (e : event) : emit e = prepend [e] (ret tt).
Proof. reflexivity. Qed.

Lemma trace_prepend {A} (t : list event) (r : M A) :
  trace (prepend t r) = t ++ trace r.
Proof. reflexivity. Qed.

Lemma outcome_prepend {A} (t : list event) (r : M A) :
  outcome (prepend t r) = outcome r.
Proof. reflexivity. Qed.

Lemma pair_prepend {A} (t : list event) (c : completion A) :
  (t, c) = prepend t ([], c).
Proof. unfold prepend; simpl. now rewrite app_nil_r. Qed.

Lemma bind_normal {A B} (a : A) (k : A -> M B) : bind ([], Normal a) k = k a.
Proof. exact (bind_ret a k). Qed.

Lemma bind_returned {A B} (k : A -> M B) : bind ([], Returned) k = ([], Returned).
Proof. reflexivity. Qed.

Lemma bind_thrown {A B} (e : exn) (k : A -> M B) : bind ([], Thrown e) k = ([], Thrown e).
Proof. reflexivity. Qed.

Create Rewrite HintDb exec.
#[local] Hint Rewrite @bind_emit_prepend @bind_console_prepend @bind_prepend
  @try_catch_prepend @try_catch_ret @try_catch_return @try_catch_throw
  @bind_ret @bind_throw @bind_return @bind_normal @bind_returned @bind_thrown
  console_prepend emit_prepend : exec.

Ltac exec := repeat (progress (autorewrite with exec; cbv beta)).

(** ** C1: the acknowledgement comes first *)

(** C1. Whatever the request (any parsed body, any header), the configuration
    and the behaviour of the collaborators, the first thing the POST /webhook
    handler does is send the 200 "OK" response: every call of
    [translate.translate] or [sendMessage] in the run has that response
    strictly before it. *)
Theorem C1_ack_before_collaborators :
  forall translate_translate fetch cfg req,
    (exists rest,
        trace (webhook_post translate_translate fetch cfg req)
        = Respond 200 "OK" :: rest)
    /\ (forall pre e post,
           trace (webhook_post translate_translate fetch cfg req) = pre ++ e :: post ->
           is_collaborator_call e = true ->
           In (Respond 200 "OK") pre).
Proof.
  intros tr fe cfg req.
  assert (Hhead : exists rest,
             trace (webhook_post tr fe cfg req) = Respond 200 "OK" :: rest).
  { unfold webhook_post. rewrite bind_emit. simpl. eauto. }
  split; [exact Hhead|].
  destruct Hhead as [rest Hrest]. intros pre e post Heq Hcall.
  rewrite Hrest in Heq. destruct pre as [|p pre]; simpl in Heq.
  - injection Heq as <- _. discriminate Hcall.
  - injection Heq as <- _. now left.
Qed.

(** ** C10: the two digests agree *)

(** C10. For every body string the handler serialises, the digest of Method 1
    ([update] with the string) and of Method 2 ([update] with
    [Buffer.from] of the string) are the same hex string, so the test of
    line 189 is the single comparison with [sha256=] followed by that
    digest. *)
Theorem C10_methods_agree :
  forall cfg bodyString,
    expectedSignature1 cfg bodyString = expectedSignature2 cfg bodyString
    /\ (forall signature,
           signature_matches cfg signature bodyString
           = jsstring_eqb signature
               (sha256_prefixed (expectedSignature1 cfg bodyString))).
Proof.
  intros cfg bodyString.
  assert (H12 : expectedSignature1 cfg bodyString = expectedSignature2 cfg bodyString).
  { unfold expectedSignature1, expectedSignature2, hmac_sha256_hex.
    unfold update_bytes, Buffer_from. reflexivity. }
  split; [exact H12|].
  intros signature. unfold signature_matches. rewrite <- H12.
  apply orb_diag.
Qed.

(** ** The signature block *)

Lemma production_not_test cfg :
  is_production cfg = true -> isTestEnvironment cfg = false.
Proof.
  unfold is_production, isTestEnvironment. intros H.
  apply jsstring_eqb_eq in H. now rewrite H.
Qed.

Ltac console_only_list :=
  let e := fresh "e" in let H := fresh "H" in
  intros e H; simpl in H;
  repeat (destruct H as [<- | H]; [reflexivity|]); contradiction.

(** The block only writes to the console, and stops the handler exactly in
    production with [DEBUG] off and a signature that is not accepted. *)
Lemma signature_block_spec cfg req :
  exists t,
    console_only t
    /\ signature_block cfg req
       = (t, if is_production cfg && negb (DEBUG cfg)
                  && negb (signature_accepted cfg req)
               then Returned else Normal tt).
Proof.
  unfold signature_block, signature_accepted. fold (is_production cfg).
  destruct (is_production cfg) eqn:Hp.
  - rewrite (production_not_test _ Hp). cbn [negb andb].
    destruct (x_hub_signature_256 req) as [[|c s]|];
      destruct (JSON_stringify (body req)) as [bodyString|];
      destruct (DEBUG cfg); cbn [negb andb];
      try destruct (signature_matches cfg (c :: s) bodyString);
      cbn [negb andb]; exec;
      (eexists; split; [| cbv [prepend ret return_ fst snd app]; reflexivity]);
      console_only_list.
  - cbn [andb]. exists []. split; [intros e []| reflexivity].
Qed.

(** ** The collaborator calls of a run *)

Lemma calls_app t1 t2 :
  collaborator_calls (t1 ++ t2) = collaborator_calls t1 ++ collaborator_calls t2.
Proof. apply filter_app. Qed.

Lemma calls_prepend {A} t (r : M A) :
  collaborator_calls (trace (prepend t r))
  = collaborator_calls t ++ collaborator_calls (trace r).
Proof. rewrite trace_prepend. apply calls_app. Qed.

Lemma calls_console_only t : console_only t -> collaborator_calls t = [].
Proof.
  induction t as [|e t IH]; intros H; [reflexivity|].
  simpl. assert (He : is_console e = true) by (apply H; now left).
  destruct e; try discriminate He. simpl. apply IH.
  intros e' He'. apply H. now right.
Qed.

Ltac head_of t :=
  lazymatch t with
  | prepend _ ?r => head_of r
  | try_catch ?m _ => head_of m
  | bind ?m _ => head_of m
  | _ => t
  end.

(** One step of the run [X] in a goal [P X]: split on what the statement at
    the head of [X] depends on. *)
Ltac run_head :=
  lazymatch goal with
  | |- ?P ?X =>
      let h := head_of X in
      lazymatch h with
      | member ?v ?k =>
          lazymatch goal with
          | H : get_member v k = Some ?w |- _ => rewrite (member_some v k w H); exec
          | H : get_member v k = None |- _ => rewrite (member_none v k H); exec
          | _ =>
              let w := fresh "w" in let Hg := fresh "Hg" in let Hm := fresh "Hm" in
              destruct (member_cases v k) as [[Hg Hm] | [w [Hg Hm]]];
              rewrite Hm; clear Hm; exec
          end
      | (if ?b then _ else _) =>
          lazymatch b with
          | context [includes ?l ?f] =>
              lazymatch goal with
              | H : includes l f = _ |- _ => rewrite H; cbn [negb andb]; exec
              | _ => destruct (includes l f) eqn:?; cbn [negb andb]; exec
              end
          | context [DEBUG ?c] =>
              lazymatch goal with
              | H : DEBUG c = _ |- _ => rewrite H; cbn [negb andb]; exec
              | _ => destruct (DEBUG c) eqn:?; cbn [negb andb]; exec
              end
          | _ =>
              lazymatch goal with
              | H : b = _ |- _ => rewrite H; exec
              | _ => destruct b eqn:?; exec
              end
          end
      | match ?x with _ => _ end => destruct x eqn:?; exec
      end
  end.

(** String literals are large terms: name them while the run is rewritten. *)
Ltac name_labels :=
  repeat match goal with
         | |- context [String ?a ?s] =>
             let x := fresh "label" in set (x := String a s) in *
         end.

Ltac restore_labels :=
  repeat match goal with x := _ : string |- _ => subst x end.

Ltac calls_now :=
  repeat rewrite calls_prepend;
  repeat match goal with
         | H : console_only ?t |- context [collaborator_calls ?t] =>
             rewrite (calls_console_only t H)
         end;
  cbn [collaborator_calls filter is_collaborator_call is_translate_call
       is_send_call orb app trace ret return_ throw fst snd].

Ltac read_path :=
  cbn [get_path path_value path_metadata_id path_message_text];
  repeat match goal with
         | H : get_member _ _ = Some _ |- _ => rewrite H
         end;
  reflexivity.

Ltac message_event_now :=
  unfold message_event;
  split; [eexists; split; eassumption|];
  split; [read_path|];
  split; [eexists; split; [eassumption|split; eassumption]|];
  eassumption.

Lemma collaborator_calls_cases tr fe cfg req :
  let c := collaborator_calls (trace (webhook_post tr fe cfg req)) in
  c = []
  \/ (exists value message from pid,
         passes_gates cfg req = true
         /\ message_event req value message from
         /\ get_path value path_metadata_id = Some pid
         /\ includes (ALLOWED_PHONE_NUMBERS cfg) from = false
         /\ DEBUG cfg = false
         /\ ToString_throws from = false
         /\ ToString_throws pid = false
         /\ c = [SendMessageCall pid from restricted_text])
  \/ (exists value message from pid text,
         passes_gates cfg req = true
         /\ message_event req value message from
         /\ get_path value path_metadata_id = Some pid
         /\ get_path message path_message_text = Some text
         /\ (includes (ALLOWED_PHONE_NUMBERS cfg) from = true \/ DEBUG cfg = true)
         /\ c = TranslateCall text "en"
                :: match tr text "en"%string with
                   | Some t =>
                       if ToString_throws pid then []
                       else [SendMessageCall pid from (translated_text t)]
                   | None => []
                   end).
Proof.
  cbv zeta.
  match goal with
  | |- ?G =>
      let g := eval pattern (webhook_post tr fe cfg req) in G in
      lazymatch g with ?F _ => set (Q := F); change (Q (webhook_post tr fe cfg req)) end
  end.
  unfold webhook_post, validation_gate, process_body, handle_value,
    phone_number_check, translate_and_reply, sendMessage, interpolate.
  name_labels.
  destruct (validation_is_empty cfg req) eqn:Hv; cbn [negb]; exec.
  2: { restore_labels; subst Q; cbv beta. left. calls_now. reflexivity. }
  destruct (signature_block_spec cfg req) as (tsig & Hc & Hs).
  rewrite Hs, pair_prepend.
  destruct (is_production cfg && negb (DEBUG cfg) && negb (signature_accepted cfg req))
    eqn:Hgate; exec.
  { restore_labels; subst Q; cbv beta. left. calls_now. reflexivity. }
  assert (Hpg : passes_gates cfg req = true)
    by (unfold passes_gates; now rewrite Hv, Hgate).
  clear Hv Hgate Hs.
  repeat run_head.
  all: restore_labels; subst Q; cbv beta.
  all: try (left; calls_now; reflexivity).
  all: first
    [ right; right; do 5 eexists;
      (split; [eassumption|]); (split; [message_event_now|]);
      (split; [read_path|]); (split; [read_path|]);
      (split; [first [left; eassumption | right; reflexivity]|]);
      calls_now;
      match goal with H : _ _ "en"%string = _ |- _ => rewrite H end;
      try match goal with H : ToString_throws _ = _ |- _ => rewrite H end;
      reflexivity
    | right; left; do 4 eexists;
      (split; [eassumption|]); (split; [message_event_now|]);
      (split; [read_path|]); (split; [eassumption|]); (split; [reflexivity|]);
      (split; [eassumption|]); (split; [eassumption|]);
      calls_now; reflexivity ].
Qed.

(** ** What validation guarantees about the fields the handler reads *)

Lemma get_member_own v k w : get_member v k = Some w -> own_property v (js k) = w.
Proof. destruct v; simpl; congruence. Qed.

Lemma lookup_in fields k : lookup fields k <> JUndefined -> In k (map fst fields).
Proof.
  induction fields as [|[k' v] fields IH]; simpl; [congruence|].
  destruct (jsstring_eqb k k') eqn:E.
  - apply jsstring_eqb_eq in E. auto.
  - auto.
Qed.

(** Reading [v[0]] and two further named fields below it succeeds only when
    [v] is an array or object with an own key ["0"]: a [*] over [v] then
    selects that element too. *)
Lemma wildcard_covers_first v w k1 w1 k2 w2 :
  get_member v "0" = Some w ->
  get_member w k1 = Some w1 ->
  get_member w1 k2 = Some w2 ->
  array_index (js k1) = None ->
  jsstring_eqb (js k1) (js "length") = false ->
  In (js "0") (own_keys v) /\ own_property v (js "0") = w.
Proof.
  intros H0 H1 H2 Hidx Hlen.
  split; [|now apply get_member_own].
  apply get_member_own in H0.
  assert (Hw : w <> JUndefined) by (intros ->; discriminate H1).
  destruct v as [| |b|n|s|xs|fields]; cbn [own_property] in H0;
    try congruence.
  - (* string *)
    change (array_index (js "0")) with (Some 0) in H0. cbv beta iota in H0.
    destruct (nth_error s (Z.to_nat 0)) as [c|]; [|congruence].
    subst w. cbn [get_member own_property] in H1. rewrite Hidx, Hlen in H1.
    injection H1 as <-. discriminate H2.
  - (* array *)
    change (array_index (js "0")) with (Some 0) in H0. cbv beta iota in H0.
    destruct xs as [|x xs]; [simpl in H0; congruence|]. simpl. now left.
  - (* object *)
    cbn [own_keys]. apply lookup_in. congruence.
Qed.

Lemma select_key k rest v :
  select_fields (Key k :: rest) v = select_fields rest (own_property v (js k)).
Proof. reflexivity. Qed.

Lemma select_wildcard rest v x :
  In (js "0") (own_keys v) ->
  In x (select_fields rest (own_property v (js "0"))) ->
  In x (select_fields (Wild :: rest) v).
Proof.
  intros Hk Hx. cbn [select_fields]. apply in_flat_map. eauto.
Qed.

Lemma validated_text_body cfg req b :
  selection_covers cfg path_text_body ->
  validation_is_empty cfg req = true ->
  get_path (body req) path_message_body = Some b ->
  b <> JUndefined.
Proof.
  intros Hcov Hv Hp.
  assert (Hin : In b (select_fields path_text_body (body req))).
  { cbn [get_path path_message_body] in Hp.
    repeat match type of Hp with
           | match get_member ?v ?k with _ => _ end = _ =>
               let E := fresh "Hg" in
               destruct (get_member v k) eqn:E; [|discriminate Hp]
           end.
    injection Hp as ->.
    unfold path_text_body. rewrite select_key, (get_member_own _ _ _ Hg).
    destruct (wildcard_covers_first _ _ _ _ _ _ Hg0 Hg1 Hg2 eq_refl eq_refl) as [K1 E1].
    apply select_wildcard; [exact K1|].
    rewrite E1, select_key, (get_member_own _ _ _ Hg1).
    destruct (wildcard_covers_first _ _ _ _ _ _ Hg2 Hg3 Hg4 eq_refl eq_refl) as [K2 E2].
    apply select_wildcard; [exact K2|].
    rewrite E2, !select_key, (get_member_own _ _ _ Hg3), (get_member_own _ _ _ Hg4).
    destruct (wildcard_covers_first _ _ _ _ _ _ Hg5 Hg6 Hg7 eq_refl eq_refl) as [K3 E3].
    apply select_wildcard; [exact K3|].
    rewrite E3, !select_key, (get_member_own _ _ _ Hg6), (get_member_own _ _ _ Hg7).
    now left. }
  apply Hcov in Hin.
  unfold validation_is_empty in Hv.
  repeat (apply andb_true_iff in Hv as [Hv ?]).
  match goal with
  | H : forallb exists_ (field_selection cfg path_text_body _) = true |- _ =>
      rewrite forallb_forall in H; specialize (H b Hin)
  end.
  intros ->. discriminate.
Qed.

(** ** Membership in the trace of an executed run *)

Lemma in_prepend {A} e t (r : M A) :
  In e (trace (prepend t r)) <-> In e t \/ In e (trace r).
Proof. rewrite trace_prepend. apply in_app_iff. Qed.

Lemma in_calls e t :
  In e t -> is_collaborator_call e = true -> In e (collaborator_calls t).
Proof. intros H1 H2. apply filter_In. auto. Qed.

(** Split a hypothesis [In e (trace X)] of an executed run [X] into the
    events that can be [e]. *)
Ltac elim_in H :=
  idtac;
  lazymatch type of H with
  | In _ (trace (prepend _ _)) =>
      apply in_prepend in H; destruct H as [H | H];
      [ first [ solve [ cbn [In] in H; destruct H as [H | []]; discriminate H ]
              | solve [ match goal with
                        | Hc : console_only _ |- _ => apply Hc in H; discriminate H
                        end ]
              | cbn [In] in H; destruct H as [H | []] ]
      | elim_in H ]
  | In _ (trace _) => solve [ destruct H ]
  end.

(** Find an event in the trace of an executed run. *)
Ltac find_in :=
  idtac;
  lazymatch goal with
  | |- In _ (trace (prepend _ _)) =>
      apply in_prepend; first [ left; left; reflexivity | right; find_in ]
  end.

Ltac c6_translate_failed Hin :=
  idtac; injection Hin as <- <-;
  first [ congruence
        | split; [find_in | let Hs := fresh "Hs" in intros ? ? ? Hs; elim_in Hs] ].

Ltac c6_send_failed Hin :=
  idtac; injection Hin as <- <- <-; first [ congruence | find_in ].

Ltac c6_leaf :=
  split; [intros ?; repeat rewrite outcome_prepend; discriminate|];
  split;
  [ let Hin := fresh "Hin" in
    intros ? ? Hin ?; elim_in Hin; c6_translate_failed Hin
  | let Hin := fresh "Hin" in
    intros ? ? ? Hin ?; elim_in Hin; c6_send_failed Hin ].

(** ** Reading paths, and what passing the gates means *)

Lemma get_path_app v p q :
  get_path v (p ++ q)
  = match get_path v p with Some w => get_path w q | None => None end.
Proof.
  revert v; induction p as [|k p IH]; intros v; simpl; [reflexivity|].
  destruct (get_member v k); [apply IH | reflexivity].
Qed.

Lemma message_event_path req value message from :
  message_event req value message from ->
  get_path (body req) path_first_message = Some message.
Proof.
  intros (_ & Hval & (messages & Hm & _ & H0) & _).
  change path_first_message with (path_value ++ ["messages"; "0"]%string).
  rewrite get_path_app, Hval. simpl. now rewrite Hm, H0.
Qed.

Lemma passes_gates_validation cfg req :
  passes_gates cfg req = true -> validation_is_empty cfg req = true.
Proof. unfold passes_gates. intros H. now apply andb_true_iff in H. Qed.

Lemma validation_failed_run tr fe cfg req :
  validation_is_empty cfg req = false ->
  webhook_post tr fe cfg req = (validation_failed_trace, Returned).
Proof.
  intros Hv. unfold webhook_post, validation_gate. rewrite Hv. cbn [negb]. exec.
  reflexivity.
Qed.

(** ** Runs whose course the hypotheses fix *)

(** Name the run in the goal, unfold the handler, and run the gates as
    [Hv] and [Hgate] say. *)
Ltac start_run tr fe cfg req :=
  match goal with
  | |- ?G =>
      let g := eval pattern (webhook_post tr fe cfg req) in G in
      lazymatch g with
      | ?F _ => set (Q := F); change (Q (webhook_post tr fe cfg req))
      end
  end;
  unfold webhook_post, validation_gate, process_body, handle_value,
    phone_number_check, translate_and_reply, sendMessage, interpolate;
  name_labels.

Ltac split_path H :=
  cbn [get_path path_value path_metadata_id path_message_text] in H;
  repeat match type of H with
         | match get_member ?v ?k with _ => _ end = _ =>
             let E := fresh "Hg" in
             destruct (get_member v k) eqn:E; [|discriminate H]
         end;
  injection H as H; try subst.

Lemma passes_gates_inv cfg req :
  passes_gates cfg req = true ->
  validation_is_empty cfg req = true
  /\ (is_production cfg && negb (DEBUG cfg) && negb (signature_accepted cfg req))
     = false.
Proof.
  unfold passes_gates. intros H. apply andb_true_iff in H as [Hv Hg].
  now apply negb_true_iff in Hg.
Qed.


(** ** How a run ends *)

Lemma ends_with_prepend {A} t (r : M A) l :
  ends_with (trace r) l -> ends_with (trace (prepend t r)) l.
Proof.
  intros [before H]. exists (t ++ before).
  rewrite trace_prepend, H. apply app_assoc.
Qed.

Lemma ends_with_prepend_ret {A} t (a : A) : ends_with (trace (prepend t (ret a))) t.
Proof. exists []. rewrite trace_prepend. apply app_nil_r. Qed.

Lemma ends_with_prepend_return {A} t : ends_with (trace (prepend t (@return_ A))) t.
Proof. exists []. rewrite trace_prepend. apply app_nil_r. Qed.

Lemma prepend_prepend {A} t1 t2 (r : M A) :
  prepend t1 (prepend t2 r) = prepend (t1 ++ t2) r.
Proof. unfold prepend. simpl. now rewrite app_assoc. Qed.

(** The run in the goal ends with the given events. *)
Ltac ends_now :=
  idtac;
  first [ apply ends_with_prepend_ret
        | apply ends_with_prepend_return
        | repeat rewrite prepend_prepend; cbn [app]; apply ends_with_prepend_ret
        | apply ends_with_prepend; ends_now ].

(** ** C6: failures of the collaborators are caught and logged *)

Lemma failures_are_logged tr fe cfg req :
  (forall e, outcome (webhook_post tr fe cfg req) <> Thrown e)
  /\ (forall text target,
         In (TranslateCall text target) (trace (webhook_post tr fe cfg req)) ->
         tr text target = None ->
         In (Console error "Translation error:") (trace (webhook_post tr fe cfg req))
         /\ forall p t m,
             ~ In (SendMessageCall p t m) (trace (webhook_post tr fe cfg req)))
  /\ (forall p t m,
         In (SendMessageCall p t m) (trace (webhook_post tr fe cfg req)) ->
         fe p t m <> FetchOk ->
         In (Console error "Error sending message:")
            (trace (webhook_post tr fe cfg req))).
Proof.
  match goal with
  | |- ?G =>
      let g := eval pattern (webhook_post tr fe cfg req) in G in
      lazymatch g with ?F _ => set (Q := F); change (Q (webhook_post tr fe cfg req)) end
  end.
  unfold webhook_post, validation_gate, process_body, handle_value,
    phone_number_check, translate_and_reply, sendMessage, interpolate.
  name_labels.
  destruct (signature_block_spec cfg req) as (tsig & Hc & Hs).
  rewrite Hs, pair_prepend. clear Hs.
  destruct (is_production cfg && negb (DEBUG cfg) && negb (signature_accepted cfg req)).
  all: destruct (validation_is_empty cfg req); cbn [negb]; exec.
  all: repeat run_head.
  all: restore_labels; subst Q; cbv beta; c6_leaf.
Qed.

(** The run of a message event whose translation is refused. *)
Lemma refused_translation_run tr fe cfg req value message from pid text :
  passes_gates cfg req = true ->
  message_event req value message from ->
  get_path value path_metadata_id = Some pid ->
  get_path message path_message_text = Some text ->
  includes (ALLOWED_PHONE_NUMBERS cfg) from = true
  \/ (DEBUG cfg = true /\ ToString_throws from = false) ->
  tr text "en"%string = None ->
  In (TranslateCall text "en") (trace (webhook_post tr fe cfg req))
  /\ ends_with (trace (webhook_post tr fe cfg req))
       [TranslateCall text "en";
        Console error "Translation error:";
        Console log "Processing completed successfully"]
  /\ outcome (webhook_post tr fe cfg req) = Normal tt.
Proof.
  intros Hpg Hev Hpid Htext Hlet Htr.
  apply passes_gates_inv in Hpg as [Hv Hgate].
  destruct Hev as ((object & Hobj & Hstr) & Hval & (messages & Hmsgs & Ht & Hmsg) & Hfrom).
  split_path Hval. split_path Hpid. split_path Htext.
  destruct (signature_block_spec cfg req) as (tsig & Hc & Hs).
  rewrite Hgate in Hs.
  destruct Hlet as [Hincl | [Hdebug Hsender]].
  - start_run tr fe cfg req.
    rewrite Hs, pair_prepend, Hv. cbn [negb]. exec.
    repeat run_head.
    all: restore_labels; subst Q; cbv beta.
    all: try congruence.
    all: split; [find_in|].
    all: split; [ends_now | repeat rewrite outcome_prepend; reflexivity].
  - start_run tr fe cfg req.
    rewrite Hs, pair_prepend, Hv. cbn [negb]. exec.
    repeat run_head.
    all: restore_labels; subst Q; cbv beta.
    all: try congruence.
    all: split; [find_in|].
    all: split; [ends_now | repeat rewrite outcome_prepend; reflexivity].
Qed.

(** The run of a message event whose translated reply is not delivered. *)
Lemma failed_reply_run tr fe cfg req value message from pid text translation :
  passes_gates cfg req = true ->
  message_event req value message from ->
  get_path value path_metadata_id = Some pid ->
  get_path message path_message_text = Some text ->
  includes (ALLOWED_PHONE_NUMBERS cfg) from = true
  \/ (DEBUG cfg = true /\ ToString_throws from = false) ->
  tr text "en"%string = Some translation ->
  ToString_throws pid = false ->
  fe pid from (translated_text translation) <> FetchOk ->
  ends_with (trace (webhook_post tr fe cfg req))
    [SendMessageCall pid from (translated_text translation);
     Console error "Error sending message:";
     Console error "Translation error:";
     Console log "Processing completed successfully"]
  /\ outcome (webhook_post tr fe cfg req) = Normal tt.
Proof.
  intros Hpg Hev Hpid Htext Hlet Htr Hurl Hfetch.
  apply passes_gates_inv in Hpg as [Hv Hgate].
  destruct Hev as ((object & Hobj & Hstr) & Hval & (messages & Hmsgs & Ht & Hmsg) & Hfrom).
  split_path Hval. split_path Hpid. split_path Htext.
  destruct (signature_block_spec cfg req) as (tsig & Hc & Hs).
  rewrite Hgate in Hs.
  destruct Hlet as [Hincl | [Hdebug Hsender]].
  - start_run tr fe cfg req.
    rewrite Hs, pair_prepend, Hv. cbn [negb]. exec.
    repeat run_head.
    all: restore_labels; subst Q; cbv beta.
    all: try congruence.
    all: injection Htr as ->.
    all: split; [ends_now | repeat rewrite outcome_prepend; reflexivity].
  - start_run tr fe cfg req.
    rewrite Hs, pair_prepend, Hv. cbn [negb]. exec.
    repeat run_head.
    all: restore_labels; subst Q; cbv beta.
    all: try congruence.
    all: injection Htr as ->.
    all: split; [ends_now | repeat rewrite outcome_prepend; reflexivity].
Qed.

(** The run of a message event whose translated reply is delivered. *)
Lemma delivered_reply_run tr fe cfg req value message from pid text translation :
  passes_gates cfg req = true ->
  message_event req value message from ->
  get_path value path_metadata_id = Some pid ->
  get_path message path_message_text = Some text ->
  includes (ALLOWED_PHONE_NUMBERS cfg) from = true
  \/ (DEBUG cfg = true /\ ToString_throws from = false) ->
  tr text "en"%string = Some translation ->
  ToString_throws pid = false ->
  fe pid from (translated_text translation) = FetchOk ->
  collaborator_calls (trace (webhook_post tr fe cfg req))
  = [TranslateCall text "en"; SendMessageCall pid from (translated_text translation)]
  /\ ends_with (trace (webhook_post tr fe cfg req))
       [SendMessageCall pid from (translated_text translation);
        Console log "Translation successful:";
        Console log "Processing completed successfully"]
  /\ outcome (webhook_post tr fe cfg req) = Normal tt.
Proof.
  intros Hpg Hev Hpid Htext Hlet Htr Hurl Hfetch.
  apply passes_gates_inv in Hpg as [Hv Hgate].
  destruct Hev as ((object & Hobj & Hstr) & Hval & (messages & Hmsgs & Ht & Hmsg) & Hfrom).
  split_path Hval. split_path Hpid. split_path Htext.
  destruct (signature_block_spec cfg req) as (tsig & Hc & Hs).
  rewrite Hgate in Hs.
  destruct Hlet as [Hincl | [Hdebug Hsender]].
  - start_run tr fe cfg req.
    rewrite Hs, pair_prepend, Hv. cbn [negb]. exec.
    repeat run_head.
    all: restore_labels; subst Q; cbv beta.
    all: try congruence.
    all: injection Htr as ->.
    all: split; [calls_now; reflexivity|].
    all: split; [ends_now | repeat rewrite outcome_prepend; reflexivity].
  - start_run tr fe cfg req.
    rewrite Hs, pair_prepend, Hv. cbn [negb]. exec.
    repeat run_head.
    all: restore_labels; subst Q; cbv beta.
    all: try congruence.
    all: injection Htr as ->.
    all: split; [calls_now; reflexivity|].
    all: split; [ends_now | repeat rewrite outcome_prepend; reflexivity].
Qed.

(** For a message event whose sender is let through, the text read at
    [text.body] is handed to [translate.translate], whatever it is. *)
Lemma translation_attempted_run tr fe cfg req value message from pid text :
  passes_gates cfg req = true ->
  message_event req value message from ->
  get_path value path_metadata_id = Some pid ->
  get_path message path_message_text = Some text ->
  includes (ALLOWED_PHONE_NUMBERS cfg) from = true
  \/ (DEBUG cfg = true /\ ToString_throws from = false) ->
  In (TranslateCall text "en") (trace (webhook_post tr fe cfg req)).
Proof.
  intros Hpg Hev Hpid Htext Hlet.
  apply passes_gates_inv in Hpg as [Hv Hgate].
  destruct Hev as ((object & Hobj & Hstr) & Hval & (messages & Hmsgs & Ht & Hmsg) & Hfrom).
  split_path Hval. split_path Hpid. split_path Htext.
  destruct (signature_block_spec cfg req) as (tsig & Hc & Hs).
  rewrite Hgate in Hs.
  destruct Hlet as [Hincl | [Hdebug Hsender]].
  - start_run tr fe cfg req.
    rewrite Hs, pair_prepend, Hv. cbn [negb]. exec.
    repeat run_head.
    all: restore_labels; subst Q; cbv beta; find_in.
  - start_run tr fe cfg req.
    rewrite Hs, pair_prepend, Hv. cbn [negb]. exec.
    repeat run_head.
    all: restore_labels; subst Q; cbv beta; find_in.
Qed.

(** C6 (as amended). Whatever the request and however the collaborators
    behave, the handler never ends with an exception.  A translation call
    that is refused (the promise of [translate.translate] rejects) is caught:
    "Translation error:" is logged and [sendMessage] is not called at all in
    that run; a POST of [sendMessage] that fails is caught and logged as
    "Error sending message:".  Both are reached: for a message event that passed
    the gates and whose sender is let through, a refused translation ends the
    run with the translation call, "Translation error:" and "Processing
    completed successfully", and an undelivered reply ends it with the POST,
    "Error sending message:", "Translation error:" and "Processing completed
    successfully".  A translation that comes back is never treated as a
    failure, whatever it is, the empty string included: when the Graph API
    accepts the reply, the run makes the translation call and the POST of
    "Translated text: " followed by that translation, and ends with
    "Translation successful:" and "Processing completed successfully". *)
Theorem C6_collaborator_failures_are_caught :
  forall translate_translate fetch cfg req,
    (forall e, outcome (webhook_post translate_translate fetch cfg req) <> Thrown e)
    /\ (forall text target,
           In (TranslateCall text target)
              (trace (webhook_post translate_translate fetch cfg req)) ->
           translate_translate text target = None ->
           In (Console error "Translation error:")
              (trace (webhook_post translate_translate fetch cfg req))
           /\ forall p t m,
               ~ In (SendMessageCall p t m)
                    (trace (webhook_post translate_translate fetch cfg req)))
    /\ (forall p t m,
           In (SendMessageCall p t m)
              (trace (webhook_post translate_translate fetch cfg req)) ->
           fetch p t m <> FetchOk ->
           In (Console error "Error sending message:")
              (trace (webhook_post translate_translate fetch cfg req)))
    /\ (forall value message from pid text,
           passes_gates cfg req = true ->
           message_event req value message from ->
           get_path value path_metadata_id = Some pid ->
           get_path message path_message_text = Some text ->
           includes (ALLOWED_PHONE_NUMBERS cfg) from = true
           \/ (DEBUG cfg = true /\ ToString_throws from = false) ->
           (translate_translate text "en"%string = None ->
            In (TranslateCall text "en")
               (trace (webhook_post translate_translate fetch cfg req))
            /\ ends_with (trace (webhook_post translate_translate fetch cfg req))
                 [TranslateCall text "en";
                  Console error "Translation error:";
                  Console log "Processing completed successfully"]
            /\ outcome (webhook_post translate_translate fetch cfg req) = Normal tt)
           /\ (forall translation,
                  translate_translate text "en"%string = Some translation ->
                  ToString_throws pid = false ->
                  fetch pid from (translated_text translation) <> FetchOk ->
                  ends_with (trace (webhook_post translate_translate fetch cfg req))
                    [SendMessageCall pid from (translated_text translation);
                     Console error "Error sending message:";
                     Console error "Translation error:";
                     Console log "Processing completed successfully"]
                  /\ outcome (webhook_post translate_translate fetch cfg req)
                     = Normal tt)
           /\ (forall translation,
                  translate_translate text "en"%string = Some translation ->
                  ToString_throws pid = false ->
                  fetch pid from (translated_text translation) = FetchOk ->
                  collaborator_calls
                    (trace (webhook_post translate_translate fetch cfg req))
                  = [TranslateCall text "en";
                     SendMessageCall pid from (translated_text translation)]
                  /\ ends_with (trace (webhook_post translate_translate fetch cfg req))
                       [SendMessageCall pid from (translated_text translation);
                        Console log "Translation successful:";
                        Console log "Processing completed successfully"])).
Proof.
  intros tr fe cfg req.
  destruct (failures_are_logged tr fe cfg req) as (Hnever & Htranslate & Hsend).
  split; [exact Hnever|]. split; [exact Htranslate|]. split; [exact Hsend|].
  intros value message from pid text Hpg Hev Hpid Htext Hlet. split; [|split].
  - intros Htr.
    exact (refused_translation_run tr fe cfg req value message from pid text
             Hpg Hev Hpid Htext Hlet Htr).
  - intros translation Htr Hurl Hfetch.
    exact (failed_reply_run tr fe cfg req value message from pid text translation
             Hpg Hev Hpid Htext Hlet Htr Hurl Hfetch).
  - intros translation Htr Hurl Hfetch.
    destruct (delivered_reply_run tr fe cfg req value message from pid text translation
                Hpg Hev Hpid Htext Hlet Htr Hurl Hfetch) as (Hcalls & Hends & _).
    split; assumption.
Qed.

(** ** C8: what reaches the translation call *)

Lemma wildcard_covers_object v fields :
  get_member v "0" = Some (JObj fields) ->
  In (js "0") (own_keys v) /\ own_property v (js "0") = JObj fields.
Proof.
  intros H0. split; [|now apply get_member_own].
  apply get_member_own in H0.
  destruct v as [| |b|n|s|xs|fs]; cbn [own_property] in H0; try discriminate H0.
  - change (array_index (js "0")) with (Some 0) in H0. cbv beta iota in H0.
    destruct (nth_error s (Z.to_nat 0)); discriminate H0.
  - change (array_index (js "0")) with (Some 0) in H0. cbv beta iota in H0.
    destruct xs as [|x xs]; [discriminate H0|]. simpl. now left.
  - cbn [own_keys]. apply lookup_in. congruence.
Qed.


Lemma missing_text_fails_validation cfg req fields :
  selection_covers cfg path_text_body ->
  get_path (body req) path_first_message = Some (JObj fields) ->
  get_path (JObj fields) path_message_text = None
  \/ get_path (JObj fields) path_message_text = Some JUndefined ->
  validation_is_empty cfg req = false.
Proof.
  intros Hcov Hp Hmissing.
  assert (Hbody : own_property (own_property (JObj fields) (js "text")) (js "body")
                  = JUndefined).
  { cbn [get_path path_message_text get_member] in Hmissing.
    destruct (own_property (JObj fields) (js "text")) eqn:Ht;
      cbn [get_member] in Hmissing; try reflexivity;
      destruct Hmissing as [H | H]; congruence. }
  assert (Hin : In JUndefined (select_fields path_text_body (body req))).
  { cbn [get_path path_first_message] in Hp.
    repeat match type of Hp with
           | match get_member ?v ?k with _ => _ end = _ =>
               let E := fresh "Hg" in
               destruct (get_member v k) eqn:E; [|discriminate Hp]
           end.
    injection Hp as ->.
    unfold path_text_body. rewrite select_key, (get_member_own _ _ _ Hg).
    destruct (wildcard_covers_first _ _ _ _ _ _ Hg0 Hg1 Hg2 eq_refl eq_refl) as [K1 E1].
    apply select_wildcard; [exact K1|].
    rewrite E1, select_key, (get_member_own _ _ _ Hg1).
    destruct (wildcard_covers_first _ _ _ _ _ _ Hg2 Hg3 Hg4 eq_refl eq_refl) as [K2 E2].
    apply select_wildcard; [exact K2|].
    rewrite E2, !select_key, (get_member_own _ _ _ Hg3), (get_member_own _ _ _ Hg4).
    destruct (wildcard_covers_object _ _ Hg5) as [K3 E3].
    apply select_wildcard; [exact K3|].
    rewrite E3, !select_key, Hbody. now left. }
  apply Hcov in Hin.
  unfold validation_is_empty.
  assert (Hf : forallb exists_ (field_selection cfg path_text_body (body req)) = false).
  { destruct (forallb exists_ (field_selection cfg path_text_body (body req))) eqn:E;
      [|reflexivity].
    rewrite forallb_forall in E. specialize (E _ Hin). discriminate E. }
  rewrite Hf, andb_false_r. reflexivity.
Qed.


(** C8 (as amended). Provided the express-validator installed checks, for
    the path of [text.body], at least the fields that the selection of its
    6.x releases yields (6.x does; releases 7.0.0 and 7.1.0, which select
    nothing below a primitive, do not), a missing [text.body] never reaches the
    translation call: no run calls [translate.translate] with [undefined],
    and when [messages[0]] is an object whose [text.body] is missing the
    request fails validation, so the handler logs "Validation failed" and
    returns.  An empty string is not missing: for a message event that passed
    the gates and whose sender is let through, an empty [text.body] is handed
    to [translate.translate] like any other text. *)
Theorem C8_missing_text_never_translated :
  forall translate_translate fetch cfg req,
    selection_covers cfg path_text_body ->
    (forall text target,
        In (TranslateCall text target)
           (trace (webhook_post translate_translate fetch cfg req)) ->
        text <> JUndefined)
    /\ (forall fields,
           get_path (body req) path_first_message = Some (JObj fields) ->
           get_path (JObj fields) path_message_text = None
           \/ get_path (JObj fields) path_message_text = Some JUndefined ->
           webhook_post translate_translate fetch cfg req
           = (validation_failed_trace, Returned))
    /\ (forall value message from pid,
           passes_gates cfg req = true ->
           message_event req value message from ->
           get_path value path_metadata_id = Some pid ->
           get_path message path_message_text = Some (JStr []) ->
           includes (ALLOWED_PHONE_NUMBERS cfg) from = true
           \/ (DEBUG cfg = true /\ ToString_throws from = false) ->
           In (TranslateCall (JStr []) "en")
              (trace (webhook_post translate_translate fetch cfg req))).
Proof.
  intros tr fe cfg req Hcov. split; [|split].
  - intros text target Hin.
    apply in_calls in Hin; [|reflexivity].
    destruct (collaborator_calls_cases tr fe cfg req)
      as [Hc | [(value & message & from & pid & _ & _ & _ & _ & _ & _ & _ & Hc)
               | (value & message & from & pid & text' & Hpg & Hev & _ & Htext & _ & Hc)]];
      rewrite Hc in Hin.
    + destruct Hin.
    + destruct Hin as [Hin | []]. discriminate Hin.
    + assert (Heq : text = text').
      { destruct Hin as [Hin | Hin]; [now injection Hin|].
        destruct (tr text' "en"%string); [|destruct Hin].
        destruct (ToString_throws pid); [destruct Hin|].
        destruct Hin as [Hin | []]. discriminate Hin. }
      subst text'.
      apply (validated_text_body cfg req); [exact Hcov | now apply passes_gates_validation |].
      change path_message_body with (path_first_message ++ path_message_text).
      now rewrite get_path_app, (message_event_path _ _ _ _ Hev).
  - intros fields Hp Hmissing. apply validation_failed_run.
    now apply (missing_text_fails_validation cfg req fields).
  - intros value message from pid Hpg Hev Hpid Htext Hlet.
    exact (translation_attempted_run tr fe cfg req value message from pid (JStr [])
             Hpg Hev Hpid Htext Hlet).
Qed.

(** ** C7: a status update *)


(** ** C5: a sender who is not on the allow-list *)

Lemma translated_is_not_restricted t : translated_text t <> restricted_text.
Proof. unfold translated_text, restricted_text. simpl. discriminate. Qed.

(** C5 (as amended). For a message event whose sender is not on the
    allow-list, in a request that passed validation and the signature block:
    with [DEBUG] off the run makes exactly one collaborator call, the
    [sendMessage] of the fixed restricted-service text to that sender, and no
    translation call; with [DEBUG] on (the value [index.js] fixes) the sender
    is let through ("bypassed in DEBUG mode") and the restricted-service text
    is never sent. *)
(** C5 (as amended). For a message event whose sender is not on the
    allow-list, in a request that passed validation and the signature block.
    When the sender is a value a template literal can interpolate (every
    string is): with [DEBUG] off, and a [phone_number_id] that can be
    interpolated too, the run makes exactly one collaborator call, the
    [sendMessage] of the fixed restricted-service text to that sender, and no
    translation call; with [DEBUG] on (the value [index.js] fixes) the sender
    is let through ("bypassed in DEBUG mode") and the restricted-service text
    is never sent.  When the sender cannot be interpolated (an object with a
    [toString] property of its own), or with [DEBUG] off the
    [phone_number_id] cannot, the log of line 227 or 238, or the URL of line
    284, throws: no collaborator is called and the run ends with "Error
    processing webhook:". *)
Theorem C5_unlisted_sender :
  forall translate_translate fetch cfg req value message from pid,
    passes_gates cfg req = true ->
    message_event req value message from ->
    get_path value path_metadata_id = Some pid ->
    includes (ALLOWED_PHONE_NUMBERS cfg) from = false ->
    (DEBUG cfg = false ->
     ToString_throws from = false ->
     ToString_throws pid = false ->
     collaborator_calls (trace (webhook_post translate_translate fetch cfg req))
     = [SendMessageCall pid from restricted_text])
    /\ (DEBUG cfg = true ->
        ToString_throws from = false ->
        In (Console log "Unauthorized phone number bypassed in DEBUG mode: ")
           (trace (webhook_post translate_translate fetch cfg req))
        /\ forall p t,
            ~ In (SendMessageCall p t restricted_text)
                 (trace (webhook_post translate_translate fetch cfg req)))
    /\ (ToString_throws from = true
        \/ (DEBUG cfg = false /\ ToString_throws pid = true) ->
        collaborator_calls (trace (webhook_post translate_translate fetch cfg req)) = []
        /\ ends_with (trace (webhook_post translate_translate fetch cfg req))
             [Console error "Error processing webhook:"]).
Proof.
  intros tr fe cfg req value message from pid Hpg Hev Hpid Hincl.
  apply passes_gates_inv in Hpg as [Hv Hgate].
  destruct Hev as ((object & Hobj & Hstr) & Hval & (messages & Hmsgs & Ht & Hmsg) & Hfrom).
  split_path Hval. split_path Hpid.
  destruct (signature_block_spec cfg req) as (tsig & Hc & Hs).
  rewrite Hgate in Hs.
  split; [|split].
  - intros Hdebug Hsender Hurl.
    start_run tr fe cfg req.
    rewrite Hs, pair_prepend, Hv. cbn [negb]. exec.
    repeat run_head.
    all: restore_labels; subst Q; cbv beta; calls_now; reflexivity.
  - intros Hdebug Hsender.
    start_run tr fe cfg req.
    rewrite Hs, pair_prepend, Hv. cbn [negb]. exec.
    repeat run_head.
    all: restore_labels; subst Q; cbv beta.
    all: split; [find_in|].
    all: intros p t Hin; elim_in Hin.
    all: injection Hin as _ _ Hin; exact (translated_is_not_restricted _ Hin).
  - intros [Hsender | [Hdebug Hurl]].
    + start_run tr fe cfg req.
      rewrite Hs, pair_prepend, Hv. cbn [negb]. exec.
      repeat run_head.
      all: restore_labels; subst Q; cbv beta.
      all: split; [calls_now; reflexivity | ends_now].
    + start_run tr fe cfg req.
      rewrite Hs, pair_prepend, Hv. cbn [negb]. exec.
      repeat run_head.
      all: restore_labels; subst Q; cbv beta.
      all: split; [calls_now; reflexivity | ends_now].
Qed.

(** ** C3: the signature block in production *)

(** C3 (as amended). In production, for a request whose
    [x-hub-signature-256] header is missing, empty or different from the
    expected [sha256=<hex>]: with [DEBUG] off the handler returns early and
    makes no translation call and no reply; with [DEBUG] on (the value
    [index.js] fixes) the signature block lets the request through.  A request
    without the header at all fails validation in every mode. *)
Theorem C3_unverified_request :
  forall translate_translate fetch cfg req,
    is_production cfg = true ->
    signature_accepted cfg req = false ->
    (DEBUG cfg = false ->
     collaborator_calls (trace (webhook_post translate_translate fetch cfg req)) = []
     /\ outcome (webhook_post translate_translate fetch cfg req) = Returned)
    /\ (DEBUG cfg = true -> outcome (signature_block cfg req) = Normal tt)
    /\ (x_hub_signature_256 req = None ->
        webhook_post translate_translate fetch cfg req
        = (validation_failed_trace, Returned)).
Proof.
  intros tr fe cfg req Hprod Hsig.
  destruct (signature_block_spec cfg req) as (tsig & Hc & Hs).
  rewrite Hprod, Hsig in Hs. cbn [negb andb] in Hs.
  split; [|split].
  - intros Hdebug. rewrite Hdebug in Hs. cbn [negb] in Hs. split.
    + destruct (collaborator_calls_cases tr fe cfg req)
        as [Hcalls | [(? & ? & ? & ? & Hpg & _) | (? & ? & ? & ? & ? & Hpg & _)]];
        [exact Hcalls | |];
        unfold passes_gates in Hpg;
        rewrite Hprod, Hdebug, Hsig, andb_false_r in Hpg; discriminate Hpg.
    + unfold webhook_post, validation_gate.
      destruct (validation_is_empty cfg req); cbn [negb];
        [rewrite Hs, pair_prepend|];
        exec; repeat rewrite outcome_prepend; reflexivity.
  - intros Hdebug. rewrite Hdebug in Hs. cbn [negb] in Hs. now rewrite Hs.
  - intros Hnone. apply validation_failed_run.
    unfold validation_is_empty. rewrite Hnone. apply andb_false_r.
Qed.

(** ** C4: the allow-list test *)

Lemma includes_iff l v :
  includes l v = true <-> exists s, v = JStr s /\ In s l.
Proof.
  destruct v; simpl; try (split; [discriminate | intros (s' & E & _); discriminate E]).
  rewrite existsb_exists. split.
  - intros (x & Hin & Heq). apply jsstring_eqb_eq in Heq. subst x. eauto.
  - intros (s' & E & Hin). injection E as <-. exists s. split; [exact Hin|].
    apply jsstring_eqb_refl.
Qed.

(** C4 (as amended). The allow-list is normalised once, at start-up (digits
    only, a leading 1 added when absent); the inbound sender is compared with
    it as received, without normalisation.  With the list built from
    "15551234567", the sender "15551234567" is on it, and neither
    "5551234567" nor "19998887777" is. *)
Theorem C4_sender_compared_verbatim :
  (forall cfg from,
      includes (ALLOWED_PHONE_NUMBERS cfg) from = true
      <-> exists s entry,
            from = JStr s
            /\ In entry (split_comma (ALLOWED_PHONE_NUMBERS_env cfg) [])
            /\ s = normalize_number entry)
  /\ (forall node_env debug token selection,
         let cfg := mkConfig node_env debug token (js "15551234567") selection in
         ALLOWED_PHONE_NUMBERS cfg = [js "15551234567"]
         /\ includes (ALLOWED_PHONE_NUMBERS cfg) (JStr (js "15551234567")) = true
         /\ includes (ALLOWED_PHONE_NUMBERS cfg) (JStr (js "5551234567")) = false
         /\ includes (ALLOWED_PHONE_NUMBERS cfg) (JStr (js "19998887777")) = false).
Proof.
  split.
  - intros cfg from. rewrite includes_iff. unfold ALLOWED_PHONE_NUMBERS. split.
    + intros (s & E & Hin). apply in_map_iff in Hin as (entry & Hn & Hin).
      exists s, entry. auto.
    + intros (s & entry & E & Hin & Hn). exists s. split; [exact E|].
      apply in_map_iff. exists entry. auto.
  - intros node_env debug token selection. cbv zeta. repeat split; reflexivity.
Qed.

(** ** C2: what the verifier signs *)

Lemma signature_matches_single cfg signature bodyString :
  signature_matches cfg signature bodyString
  = jsstring_eqb signature
      (platform_signature (WHATSAPP_TOKEN cfg) (utf8_encode bodyString)).
Proof. unfold signature_matches. apply orb_diag. Qed.

Lemma signature_accepted_iff cfg req :
  signature_accepted cfg req = true
  <-> exists bodyString,
        JSON_stringify (body req) = Some bodyString
        /\ x_hub_signature_256 req
           = Some (platform_signature (WHATSAPP_TOKEN cfg) (utf8_encode bodyString)).
Proof.
  unfold signature_accepted.
  destruct (x_hub_signature_256 req) as [[|c s]|];
    destruct (JSON_stringify (body req)) as [bodyString|];
    try (split; [discriminate | intros (bs & E1 & E2); discriminate]).
  rewrite signature_matches_single, jsstring_eqb_eq. split.
  - intros E. exists bodyString. now rewrite E.
  - intros (bs & E1 & E2). injection E1 as <-. congruence.
Qed.

Lemma signature_verified_iff cfg req :
  is_production cfg = true ->
  In (Console log "Signature verified successfully") (trace (signature_block cfg req))
  <-> signature_accepted cfg req = true.
Proof.
  intros Hp. unfold signature_block, signature_accepted. fold (is_production cfg).
  rewrite Hp, (production_not_test _ Hp). cbn [negb andb].
  destruct (x_hub_signature_256 req) as [[|c s]|];
    destruct (JSON_stringify (body req)) as [bodyString|];
    destruct (DEBUG cfg); cbn [negb andb];
    try destruct (signature_matches cfg (c :: s) bodyString);
    exec;
    (split; [intros H; elim_in H; reflexivity
            | intros H; first [discriminate H | find_in]]).
Qed.

(** C2 (as amended). The value the verifier compares the header with is
    [sha256=] followed by the hex HMAC-SHA256, keyed with [WHATSAPP_TOKEN], of
    the UTF-8 bytes of [JSON.stringify(req.body)]: a re-serialisation of the
    parsed body, not the raw request bytes.  In production the block reports
    "Signature verified successfully" exactly when the header is the
    signature of those re-serialised bytes; so it matches the signature of
    the raw bytes when these are the re-serialisation itself. *)
(** In production the block reports "Signature verified successfully"
    exactly when the header is [sha256=] followed by the hex HMAC-SHA256, keyed
    with [WHATSAPP_TOKEN], of the UTF-8 bytes of [JSON.stringify(req.body)]:
    of a re-serialisation of the parsed body, not of the bytes received. *)
Lemma verifier_signs_reserialized_body cfg req :
  is_production cfg = true ->
  In (Console log "Signature verified successfully") (trace (signature_block cfg req))
  <-> exists bodyString,
        JSON_stringify (body req) = Some bodyString
        /\ x_hub_signature_256 req
           = Some (platform_signature (WHATSAPP_TOKEN cfg) (utf8_encode bodyString)).
Proof.
  intros Hp. rewrite (signature_verified_iff cfg req Hp).
  apply signature_accepted_iff.
Qed.
(** ** Sample runs *)

(** C2, at a concrete request: the platform signs the bytes it sends; the
    body parses, its re-serialisation differs from those bytes, and the
    verifier, which hashes the re-serialisation, does not accept the signature
    of the original bytes.  As [index.js] is written the mismatch is logged
    and passed over; with [DEBUG] off the genuine request is dropped without a
    translation. *)
Lemma C2_raw_bytes_signature_not_matched :
  bodyParser_json spaced_raw = Some (body spaced_request)
  /\ x_hub_signature_256 spaced_request
     = Some (platform_signature (WHATSAPP_TOKEN production_source) spaced_raw)
  /\ (exists bodyString,
         JSON_stringify (body spaced_request) = Some bodyString
         /\ utf8_encode bodyString <> spaced_raw)
  /\ signature_accepted production_source spaced_request = false
  /\ In (Console warn "Invalid signature received, but continuing due to DEBUG mode")
        (trace (webhook_post translate_hello fetch_ok production_source spaced_request))
  /\ webhook_post translate_hello fetch_ok production_debug_off spaced_request
     = ([Respond 200 "OK"; Console log "Environment:";
         Console log "Webhook POST received"; Console log "Full request:";
         Console log "Raw body:"; Console log "Received signature:";
         Console log "Expected signature (Method 1):";
         Console log "Expected signature (Method 2):";
         Console warn "Invalid signature received"],
        Returned).
Proof.
  split; [vm_compute; reflexivity|].
  split; [reflexivity|].
  split.
  { eexists. split; [reflexivity|].
    intros H. apply (f_equal (@length byte)) in H. vm_compute in H. discriminate H. }
  split; [vm_compute; reflexivity|].
  split; [vm_compute; tauto|].
  vm_compute. reflexivity.
Qed.

Lemma signed_header cfg b s :
  JSON_stringify b = Some s ->
  x_hub_signature_256 (signed cfg b)
  = Some (platform_signature (WHATSAPP_TOKEN cfg) (utf8_encode s)).
Proof. unfold signed. simpl. now intros ->. Qed.

Example signed_reserialization_is_verified :
  In (Console log "Signature verified successfully")
     (trace (signature_block production_source
               (signed production_source status_envelope))).
Proof.
  apply (proj2 (verifier_signs_reserialized_body production_source
                  (signed production_source status_envelope) eq_refl)).
  eexists. split; [vm_compute; reflexivity|].
  apply signed_header. vm_compute. reflexivity.
Qed.

(** C3, at a concrete request: in production, as [index.js] is written, a
    request with a signature that does not match is translated and answered. *)
Lemma C3_production_mismatch_is_processed :
  is_production production_source = true
  /\ signature_accepted production_source
       (wrongly_signed (message_envelope (js "15551234567") (js "Hola"))) = false
  /\ collaborator_calls
       (trace (webhook_post translate_hello fetch_ok production_source
                 (wrongly_signed (message_envelope (js "15551234567") (js "Hola")))))
     = [TranslateCall (JStr (js "Hola")) "en";
        SendMessageCall sample_phone_number_id (JStr (js "15551234567"))
          (translated_text (js "Hello"))].
Proof.
  split; [reflexivity|]. split; vm_compute; reflexivity.
Qed.

Lemma C3_witness :
  (is_production production_debug_off = true
   /\ signature_accepted production_debug_off
        (wrongly_signed (message_envelope (js "15551234567") (js "Hola"))) = false
   /\ DEBUG production_debug_off = false
   /\ collaborator_calls
        (trace (webhook_post translate_hello fetch_ok production_debug_off
                  (wrongly_signed (message_envelope (js "15551234567") (js "Hola")))))
      = []
   /\ outcome (webhook_post translate_hello fetch_ok production_debug_off
                 (wrongly_signed (message_envelope (js "15551234567") (js "Hola"))))
      = Returned)
  /\ (DEBUG production_source = true
      /\ outcome (signature_block production_source
                    (wrongly_signed (message_envelope (js "15551234567") (js "Hola"))))
         = Normal tt).
Proof.
  assert (Hoff : signature_accepted production_debug_off
            (wrongly_signed (message_envelope (js "15551234567") (js "Hola"))) = false)
    by (vm_compute; reflexivity).
  assert (Hon : signature_accepted production_source
            (wrongly_signed (message_envelope (js "15551234567") (js "Hola"))) = false)
    by (vm_compute; reflexivity).
  destruct (C3_unverified_request translate_hello fetch_ok production_debug_off
              (wrongly_signed (message_envelope (js "15551234567") (js "Hola")))
              eq_refl Hoff) as (Hstrict & _ & _).
  destruct (Hstrict eq_refl) as [Hcalls Hout].
  destruct (C3_unverified_request translate_hello fetch_ok production_source
              (wrongly_signed (message_envelope (js "15551234567") (js "Hola")))
              eq_refl Hon) as (_ & Hdebug & _).
  split.
  - split; [reflexivity|]. split; [exact Hoff|]. split; [reflexivity|].
    split; [exact Hcalls | exact Hout].
  - split; [reflexivity | exact (Hdebug eq_refl)].
Defined.

(** C4, at concrete requests: with the allow-list built from "15551234567",
    the sender "5551234567" is not found on it, although normalising it
    would give the listed number; it gets through only as a DEBUG bypass.
    And the sender "19998887777" is not denied: the message is translated. *)
Lemma C4_unnormalized_sender_not_on_list :
  ALLOWED_PHONE_NUMBERS production_source = [js "15551234567"]
  /\ normalize_number (js "5551234567") = js "15551234567"
  /\ includes (ALLOWED_PHONE_NUMBERS production_source) (JStr (js "5551234567")) = false
  /\ In (Console log "Unauthorized phone number bypassed in DEBUG mode: ")
        (trace (webhook_post translate_hello fetch_ok production_source
                  (signed production_source
                     (message_envelope (js "5551234567") (js "Hola")))))
  /\ collaborator_calls
       (trace (webhook_post translate_hello fetch_ok production_source
                 (signed production_source
                    (message_envelope (js "19998887777") (js "Hola")))))
     = [TranslateCall (JStr (js "Hola")) "en";
        SendMessageCall sample_phone_number_id (JStr (js "19998887777"))
          (translated_text (js "Hello"))].
Proof.
  split; [reflexivity|]. split; [reflexivity|]. split; [reflexivity|].
  split; [vm_compute; tauto | vm_compute; reflexivity].
Qed.

(** C5, at a concrete request: as [index.js] is written, a sender who is
    not on the allow-list gets no courtesy reply; the message is translated
    and the translation is sent. *)
Lemma C5_unlisted_sender_is_translated :
  includes (ALLOWED_PHONE_NUMBERS production_source) (JStr (js "19998887777")) = false
  /\ collaborator_calls
       (trace (webhook_post translate_hello fetch_ok production_source
                 (signed production_source
                    (message_envelope (js "19998887777") (js "Hola")))))
     = [TranslateCall (JStr (js "Hola")) "en";
        SendMessageCall sample_phone_number_id (JStr (js "19998887777"))
          (translated_text (js "Hello"))]
  /\ translated_text (js "Hello") <> restricted_text.
Proof.
  split; [reflexivity|]. split; [vm_compute; reflexivity|].
  vm_compute. discriminate.
Qed.

Lemma sample_message_event cfg from text :
  message_event (signed cfg (message_envelope from text))
    (sample_value (JStr from) (JStr text)) (sample_message (JStr from) (JStr text))
    (JStr from).
Proof.
  split; [eexists; split; reflexivity|]. split; [reflexivity|].
  split; [eexists; split; [reflexivity|split; reflexivity]|]. reflexivity.
Qed.

Lemma C5_witness :
  (passes_gates production_debug_off
     (signed production_debug_off (message_envelope (js "19998887777") (js "Hola")))
   = true
   /\ includes (ALLOWED_PHONE_NUMBERS production_debug_off) (JStr (js "19998887777"))
      = false
   /\ ToString_throws (JStr (js "19998887777")) = false
   /\ ToString_throws sample_phone_number_id = false
   /\ DEBUG production_debug_off = false
   /\ collaborator_calls
        (trace (webhook_post translate_hello fetch_ok production_debug_off
                  (signed production_debug_off
                     (message_envelope (js "19998887777") (js "Hola")))))
      = [SendMessageCall sample_phone_number_id (JStr (js "19998887777"))
           restricted_text])
  /\ (passes_gates production_source
        (signed production_source (message_envelope (js "19998887777") (js "Hola")))
      = true
      /\ DEBUG production_source = true
      /\ In (Console log "Unauthorized phone number bypassed in DEBUG mode: ")
            (trace (webhook_post translate_hello fetch_ok production_source
                      (signed production_source
                         (message_envelope (js "19998887777") (js "Hola")))))
      /\ forall p t,
          ~ In (SendMessageCall p t restricted_text)
               (trace (webhook_post translate_hello fetch_ok production_source
                         (signed production_source
                            (message_envelope (js "19998887777") (js "Hola")))))).
Proof.
  assert (Hoff : passes_gates production_debug_off
            (signed production_debug_off
               (message_envelope (js "19998887777") (js "Hola"))) = true)
    by (vm_compute; reflexivity).
  assert (Hon : passes_gates production_source
            (signed production_source
               (message_envelope (js "19998887777") (js "Hola"))) = true)
    by (vm_compute; reflexivity).
  destruct (C5_unlisted_sender translate_hello fetch_ok production_debug_off
              (signed production_debug_off
                 (message_envelope (js "19998887777") (js "Hola")))
              _ _ _ sample_phone_number_id Hoff
              (sample_message_event production_debug_off
                 (js "19998887777") (js "Hola"))
              eq_refl eq_refl) as (Hdenied & _ & _).
  destruct (C5_unlisted_sender translate_hello fetch_ok production_source
              (signed production_source
                 (message_envelope (js "19998887777") (js "Hola")))
              _ _ _ sample_phone_number_id Hon
              (sample_message_event production_source
                 (js "19998887777") (js "Hola"))
              eq_refl eq_refl) as (_ & Hbypass & _).
  destruct (Hbypass eq_refl eq_refl) as [Hlog Hnever].
  split.
  - split; [exact Hoff|]. split; [reflexivity|]. split; [reflexivity|].
    split; [reflexivity|]. split; [reflexivity|].
    exact (Hdenied eq_refl eq_refl eq_refl).
  - split; [exact Hon|]. split; [reflexivity|]. split; [exact Hlog | exact Hnever].
Defined.


(** C8, at a concrete request: an envelope whose [text.body] is the empty
    string, from a sender on the allow-list, passes validation, and the empty
    string is handed to [translate.translate]. *)
Lemma C8_empty_text_is_translated :
  get_path (message_envelope (js "15551234567") []) path_message_body = Some (JStr [])
  /\ validation_is_empty production_source
       (signed production_source (message_envelope (js "15551234567") [])) = true
  /\ includes (ALLOWED_PHONE_NUMBERS production_source) (JStr (js "15551234567")) = true
  /\ In (TranslateCall (JStr []) "en")
        (trace (webhook_post translate_hello fetch_ok production_source
                  (signed production_source (message_envelope (js "15551234567") [])))).
Proof.
  split; [reflexivity|]. split; [vm_compute; reflexivity|].
  split; [reflexivity|]. vm_compute. tauto.
Qed.

(** C8, at a concrete request of a deployment whose validator is of the 6.x
    releases: a first message without [text] fails validation. *)
Lemma C8_witness :
  selection_covers development_debug_off path_text_body
  /\ get_path (body (wrongly_signed (envelope_of_message textless_message)))
       path_first_message
     = Some textless_message
  /\ get_path textless_message path_message_text = None
  /\ (forall text target,
         In (TranslateCall text target)
            (trace (webhook_post translate_hello fetch_ok development_debug_off
                      (wrongly_signed (envelope_of_message textless_message)))) ->
         text <> JUndefined)
  /\ webhook_post translate_hello fetch_ok development_debug_off
       (wrongly_signed (envelope_of_message textless_message))
     = (validation_failed_trace, Returned).
Proof.
  assert (Hcov : selection_covers development_debug_off path_text_body)
    by (intros b x H; exact H).
  destruct (C8_missing_text_never_translated translate_hello fetch_ok
              development_debug_off
              (wrongly_signed (envelope_of_message textless_message)) Hcov)
    as (Hnever & Hfails & _).
  split; [exact Hcov|]. split; [reflexivity|]. split; [reflexivity|].
  split; [exact Hnever|].
  exact (Hfails [(js "from", JStr (js "15551234567"))] eq_refl (or_introl eq_refl)).
Defined.

Example stopping_selection_does_not_cover :
  ~ selection_covers development_stopping path_text_body.
Proof.
  intros H.
  specialize (H (envelope_of_message primitive_text_message) JUndefined).
  vm_compute in H. apply H. now left.
Qed.

(** Why C8 needs its proviso: with a validator that stops at a primitive
    (releases 7.0.0 and 7.1.0) a first message whose [text] is a string passes
    validation, and [translate.translate] is called with [undefined]. *)
Example stopping_selection_lets_missing_text_through :
  validation_is_empty development_stopping
    (wrongly_signed (envelope_of_message primitive_text_message)) = true
  /\ validation_is_empty development_debug_off
       (wrongly_signed (envelope_of_message primitive_text_message)) = false
  /\ collaborator_calls
       (trace (webhook_post translate_hello fetch_ok development_stopping
                 (wrongly_signed (envelope_of_message primitive_text_message))))
     = [TranslateCall JUndefined "en";
        SendMessageCall sample_phone_number_id (JStr (js "15551234567"))
          (translated_text (js "Hello"))].
Proof. repeat split; vm_compute; reflexivity. Qed.

(** C6, at a concrete request: a translation that comes back empty is not
    treated as a failure.  Nothing is logged as an error, and the reply
    "Translated text: " is dispatched. *)
Lemma C6_empty_translation_is_dispatched :
  translate_empty (JStr (js "Hola")) "en" = Some []
  /\ webhook_post translate_empty fetch_ok development_debug_off
       (wrongly_signed (message_envelope (js "15551234567") (js "Hola")))
     = ([Respond 200 "OK"; Console log "Environment:";
         Console log "Webhook POST received"; Console log "Full request:";
         Console log "Webhook update type:"; Console log "Value:";
         Console log "Received message:"; Console log "Full value object:";
         Console log "Processing message with phone_number_id:";
         TranslateCall (JStr (js "Hola")) "en"; Console log "Sending message:";
         SendMessageCall sample_phone_number_id (JStr (js "15551234567"))
           (js "Translated text: ");
         Console log "Translation successful:";
         Console log "Processing completed successfully"],
        Normal tt).
Proof. split; [reflexivity | vm_compute; reflexivity]. Qed.

Lemma wrongly_signed_message_event from text :
  message_event (wrongly_signed (message_envelope from text))
    (sample_value (JStr from) (JStr text)) (sample_message (JStr from) (JStr text))
    (JStr from).
Proof.
  split; [eexists; split; reflexivity|]. split; [reflexivity|].
  split; [eexists; split; [reflexivity|split; reflexivity]|]. reflexivity.
Qed.

(** C6, at concrete requests: a refused translation, and a reply that the
    Graph API does not accept. *)
Lemma C6_witness :
  (passes_gates development_debug_off
     (wrongly_signed (message_envelope (js "15551234567") (js "Hola"))) = true
   /\ includes (ALLOWED_PHONE_NUMBERS development_debug_off) (JStr (js "15551234567"))
      = true
   /\ translate_fails (JStr (js "Hola")) "en" = None
   /\ In (TranslateCall (JStr (js "Hola")) "en")
         (trace (webhook_post translate_fails fetch_ok development_debug_off
                   (wrongly_signed (message_envelope (js "15551234567") (js "Hola")))))
   /\ ends_with
        (trace (webhook_post translate_fails fetch_ok development_debug_off
                  (wrongly_signed (message_envelope (js "15551234567") (js "Hola")))))
        [TranslateCall (JStr (js "Hola")) "en";
         Console error "Translation error:";
         Console log "Processing completed successfully"]
   /\ outcome (webhook_post translate_fails fetch_ok development_debug_off
                 (wrongly_signed (message_envelope (js "15551234567") (js "Hola"))))
      = Normal tt)
  /\ (fetch_not_ok sample_phone_number_id (JStr (js "15551234567"))
        (translated_text (js "Hello")) <> FetchOk
      /\ ends_with
           (trace (webhook_post translate_hello fetch_not_ok development_debug_off
                     (wrongly_signed (message_envelope (js "15551234567") (js "Hola")))))
           [SendMessageCall sample_phone_number_id (JStr (js "15551234567"))
              (translated_text (js "Hello"));
            Console error "Error sending message:";
            Console error "Translation error:";
            Console log "Processing completed successfully"]
      /\ outcome (webhook_post translate_hello fetch_not_ok development_debug_off
                    (wrongly_signed (message_envelope (js "15551234567") (js "Hola"))))
         = Normal tt).
Proof.
  assert (Hpg : passes_gates development_debug_off
                  (wrongly_signed (message_envelope (js "15551234567") (js "Hola")))
                = true) by reflexivity.
  assert (Hincl : includes (ALLOWED_PHONE_NUMBERS development_debug_off)
                    (JStr (js "15551234567")) = true) by reflexivity.
  assert (Hfetch : fetch_not_ok sample_phone_number_id (JStr (js "15551234567"))
                     (translated_text (js "Hello")) <> FetchOk) by discriminate.
  destruct (C6_collaborator_failures_are_caught translate_fails fetch_ok
              development_debug_off
              (wrongly_signed (message_envelope (js "15551234567") (js "Hola"))))
    as (_ & _ & _ & Hrefused).
  destruct (Hrefused _ _ _ sample_phone_number_id (JStr (js "Hola")) Hpg
              (wrongly_signed_message_event (js "15551234567") (js "Hola"))
              eq_refl eq_refl (or_introl Hincl)) as (Hrun & _ & _).
  destruct (C6_collaborator_failures_are_caught translate_hello fetch_not_ok
              development_debug_off
              (wrongly_signed (message_envelope (js "15551234567") (js "Hola"))))
    as (_ & _ & _ & Hundelivered).
  destruct (Hundelivered _ _ _ sample_phone_number_id (JStr (js "Hola")) Hpg
              (wrongly_signed_message_event (js "15551234567") (js "Hola"))
              eq_refl eq_refl (or_introl Hincl)) as (_ & Hreply & _).
  split.
  - split; [exact Hpg|]. split; [exact Hincl|]. split; [reflexivity|].
    exact (Hrun eq_refl).
  - split; [exact Hfetch|].
    exact (Hreply (js "Hello") eq_refl eq_refl Hfetch).
Defined.

(** A sender that no template literal can interpolate: with [DEBUG] on the
    log of line 238 throws, the outer catch logs it, nothing is called. *)
Example uninterpolable_sender_run :
  webhook_post translate_hello fetch_ok
    (source_config (js "development") sample_token sample_allowed)
    (wrongly_signed
       (envelope_of_message
          (JObj [(js "from", JObj [(js "toString", JNum 1)]);
                 (js "text", JObj [(js "body", JStr (js "Hola"))])])))
  = ([Respond 200 "OK"; Console log "Environment:";
      Console log "Webhook POST received"; Console log "Full request:";
      Console log "Webhook update type:"; Console log "Value:";
      Console log "Received message:"; Console log "Full value object:";
      Console error "Error processing webhook:"],
     Normal tt).
Proof. vm_compute. reflexivity. Qed.

(** The end-to-end run of the specification: a signed "Hola" from a listed
    sender is acknowledged, translated and answered, in that order. *)
Example end_to_end_hola :
  webhook_post translate_hello fetch_ok production_debug_off
    (signed production_debug_off (message_envelope (js "15551234567") (js "Hola")))
  = ([Respond 200 "OK"; Console log "Environment:";
      Console log "Webhook POST received"; Console log "Full request:";
      Console log "Raw body:"; Console log "Received signature:";
      Console log "Expected signature (Method 1):";
      Console log "Expected signature (Method 2):";
      Console log "Signature verified successfully";
      Console log "Webhook update type:"; Console log "Value:";
      Console log "Received message:"; Console log "Full value object:";
      Console log "Processing message with phone_number_id:";
      TranslateCall (JStr (js "Hola")) "en"; Console log "Sending message:";
      SendMessageCall sample_phone_number_id (JStr (js "15551234567"))
        (translated_text (js "Hello"));
      Console log "Translation successful:";
      Console log "Processing completed successfully"],
     Normal tt).
Proof. vm_compute. reflexivity. Qed.

(** A failing translation: logged, no reply. *)
Example translation_failure_run :
  webhook_post translate_fails fetch_ok development_debug_off
    (wrongly_signed (message_envelope (js "15551234567") (js "Hola")))
  = ([Respond 200 "OK"; Console log "Environment:";
      Console log "Webhook POST received"; Console log "Full request:";
      Console log "Webhook update type:"; Console log "Value:";
      Console log "Received message:"; Console log "Full value object:";
      Console log "Processing message with phone_number_id:";
      TranslateCall (JStr (js "Hola")) "en";
      Console error "Translation error:";
      Console log "Processing completed successfully"],
     Normal tt).
Proof. vm_compute. reflexivity. Qed.

(** The parser and the serialiser on the sample envelope. *)
Example parse_spaced_raw :
  bodyParser_json spaced_raw = Some (message_envelope (js "15551234567") (js "Hola")).
Proof. vm_compute. reflexivity. Qed.

Example stringify_reorders_index_keys :
  option_map JSON_stringify
    (bodyParser_json (json_text "{'b' : [1, -20, true, null], '10': {}, '2': 'z', 'b': 0 }"))
  = Some (Some (json_text "{'2':'z','10':{},'b':0}")).
Proof. vm_compute. reflexivity. Qed.

(** Validation of the route on the sample envelopes: [exists()] accepts the
    empty string and rejects an absent field; a [*] under an absent
    [messages] selects nothing. *)
Example validation_accepts_message :
  validation_is_empty development_debug_off
    (wrongly_signed (message_envelope (js "15551234567") (js "Hola"))) = true.
Proof. reflexivity. Qed.

Example validation_accepts_status_update :
  validation_is_empty development_debug_off (wrongly_signed status_envelope) = true.
Proof. reflexivity. Qed.

Example validation_accepts_empty_text :
  validation_is_empty development_debug_off (wrongly_signed (message_envelope (js "15551234567") [])) = true.
Proof. reflexivity. Qed.

Example validation_rejects_missing_text :
  validation_is_empty development_debug_off
    (wrongly_signed
       (JObj [(js "object", JStr (js "whatsapp_business_account"));
              (js "entry", JArr [JObj [(js "changes", JArr [JObj [(js "value", JObj
                 [(js "messages", JArr [JObj [(js "from", JStr (js "15551234567"))]]);
                  (js "metadata",
                   JObj [(js "phone_number_id", sample_phone_number_id)])])]])]])]))
  = false.
Proof. reflexivity. Qed.

Example validation_rejects_missing_header :
  validation_is_empty development_debug_off
    (mkRequest None (message_envelope (js "15551234567") (js "Hola"))) = false.
Proof. reflexivity. Qed.

Example normalize_formatted_number :
  normalize_number (js "+1 (555) 123-4567") = js "15551234567"
  /\ normalize_number (js "555 123 4567") = js "15551234567"
  /\ map normalize_number (split_comma (js "15551234567, 9998887777") [])
     = [js "15551234567"; js "19998887777"].
Proof. repeat split. Qed.

(** * Further properties of [index.js] *)

(** ** The allow-list (lines 94-99) *)

Lemma filter_is_digit_all num : forallb is_digit (filter is_digit num) = true.
Proof.
  induction num as [|c num IH]; simpl; [reflexivity|].
  destruct (is_digit c) eqn:E; simpl; [now rewrite E|exact IH].
Qed.

Lemma filter_all_digits num :
  forallb is_digit num = true -> filter is_digit num = num.
Proof.
  induction num as [|c num IH]; simpl; [reflexivity|].
  intros H. apply andb_true_iff in H as [Hc Hn]. rewrite Hc. now rewrite IH.
Qed.

Lemma normalize_number_digits num :
  forallb is_digit (normalize_number num) = true
  /\ startsWith_1 (normalize_number num) = true.
Proof.
  unfold normalize_number.
  destruct (startsWith_1 (filter is_digit num)) eqn:E.
  - split; [apply filter_is_digit_all | exact E].
  - split; [|reflexivity]. simpl. apply filter_is_digit_all.
Qed.

Lemma normalize_number_fixed num :
  forallb is_digit num = true -> startsWith_1 num = true ->
  normalize_number num = num.
Proof.
  intros Hd Hs. unfold normalize_number. rewrite (filter_all_digits _ Hd).
  now rewrite Hs.
Qed.

(** X1. Whatever is written in an entry of ALLOWED_PHONE_NUMBERS, the number
    kept for it consists of decimal digits only and begins with 1; in
    particular it is never empty. *)
Theorem X1_normalized_entry_shape :
  forall num,
    forallb is_digit (normalize_number num) = true
    /\ startsWith_1 (normalize_number num) = true
    /\ normalize_number num <> [].
Proof.
  intros num. destruct (normalize_number_digits num) as [Hd Hs].
  split; [exact Hd|]. split; [exact Hs|].
  intros E. rewrite E in Hs. discriminate Hs.
Qed.

(** X2. Normalising is idempotent, and it leaves alone a number that is
    already made of digits and begins with 1: such a number is never given a
    second country code. *)
Theorem X2_normalize_number_idempotent :
  (forall num, normalize_number (normalize_number num) = normalize_number num)
  /\ (forall num,
         forallb is_digit num = true -> startsWith_1 num = true ->
         normalize_number num = num).
Proof.
  split.
  - intros num. destruct (normalize_number_digits num) as [Hd Hs].
    now apply normalize_number_fixed.
  - exact normalize_number_fixed.
Qed.

Lemma includes_in l v :
  includes l v = true <-> exists s, v = JStr s /\ In s l.
Proof.
  destruct v; simpl; try (split; [discriminate | intros (s' & E & _); discriminate E]).
  rewrite existsb_exists. split.
  - intros (x & Hin & Heq). apply jsstring_eqb_eq in Heq. subst x. eauto.
  - intros (s' & E & Hin). injection E as <-. exists s. split; [exact Hin|].
    apply jsstring_eqb_refl.
Qed.

(** X3. A sender the allow-list test accepts is a string of decimal digits
    beginning with 1: a sender written with a plus sign, blanks or any other
    character, or without the leading 1, is never on the list. *)
Theorem X3_listed_sender_shape :
  forall cfg from,
    includes (ALLOWED_PHONE_NUMBERS cfg) from = true ->
    exists s,
      from = JStr s
      /\ forallb is_digit s = true
      /\ startsWith_1 s = true.
Proof.
  intros cfg from H. apply includes_in in H as (s & E & Hin).
  unfold ALLOWED_PHONE_NUMBERS in Hin. apply in_map_iff in Hin as (entry & <- & _).
  exists (normalize_number entry). split; [exact E|].
  apply normalize_number_digits.
Qed.

Lemma X3_witness :
  includes (ALLOWED_PHONE_NUMBERS production_source) (JStr (js "15551234567")) = true
  /\ exists s,
       JStr (js "15551234567") = JStr s
       /\ forallb is_digit s = true
       /\ startsWith_1 s = true.
Proof.
  split; [reflexivity|].
  apply (X3_listed_sender_shape production_source (JStr (js "15551234567"))).
  reflexivity.
Defined.

(** X4. An entry of ALLOWED_PHONE_NUMBERS without any digit (an empty field
    left by a leading, trailing or doubled comma, or a blank one) puts the
    number "1" on the allow-list. *)
Theorem X4_blank_entry_lists_1 :
  forall cfg entry,
    In entry (split_comma (ALLOWED_PHONE_NUMBERS_env cfg) []) ->
    filter is_digit entry = [] ->
    includes (ALLOWED_PHONE_NUMBERS cfg) (JStr (js "1")) = true.
Proof.
  intros cfg entry Hin Hblank. apply includes_in. exists (js "1").
  split; [reflexivity|]. unfold ALLOWED_PHONE_NUMBERS. apply in_map_iff.
  exists entry. split; [|exact Hin].
  unfold normalize_number. now rewrite Hblank.
Qed.

Lemma X4_witness :
  In [] (split_comma (ALLOWED_PHONE_NUMBERS_env
                        (mkConfig (js "production") false sample_token
                           (js "15551234567,") select_fields)) [])
  /\ filter is_digit [] = []
  /\ includes (ALLOWED_PHONE_NUMBERS
                 (mkConfig (js "production") false sample_token (js "15551234567,")
                    select_fields))
       (JStr (js "1")) = true.
Proof.
  assert (Hin : In [] (split_comma (ALLOWED_PHONE_NUMBERS_env
                        (mkConfig (js "production") false sample_token
                           (js "15551234567,") select_fields)) []))
    by (vm_compute; tauto).
  split; [exact Hin|]. split; [reflexivity|].
  exact (X4_blank_entry_lists_1 _ [] Hin eq_refl).
Defined.

Lemma split_comma_length s cur :
  length (split_comma s cur) = S (count_occ Z.eq_dec s 44).
Proof.
  revert cur; induction s as [|c s IH]; intros cur; simpl; [reflexivity|].
  destruct (c =? 44) eqn:E.
  - apply Z.eqb_eq in E. subst c. simpl. rewrite IH.
    destruct (Z.eq_dec 44 44); [reflexivity|contradiction].
  - apply Z.eqb_neq in E. rewrite IH.
    destruct (Z.eq_dec c 44); [contradiction|reflexivity].
Qed.

Lemma join_comma_cons p l :
  l <> [] -> join_comma (p :: l) = p ++ 44 :: join_comma l.
Proof. destruct l; [contradiction|reflexivity]. Qed.

Lemma split_comma_nonempty s cur : split_comma s cur <> [].
Proof.
  intros E. pose proof (split_comma_length s cur) as L. rewrite E in L.
  discriminate L.
Qed.

Lemma split_comma_join s cur :
  join_comma (split_comma s cur) = rev cur ++ s.
Proof.
  revert cur; induction s as [|c s IH]; intros cur; simpl.
  - now rewrite app_nil_r.
  - destruct (c =? 44) eqn:E.
    + apply Z.eqb_eq in E. subst c.
      rewrite join_comma_cons by apply split_comma_nonempty.
      now rewrite IH.
    + rewrite IH. simpl. now rewrite <- app_assoc.
Qed.

(** X5. The allow-list has exactly one entry per comma-separated field of
    ALLOWED_PHONE_NUMBERS (one more than the variable has commas), so it is
    never empty; joining the fields with commas gives the variable's value
    back. *)
Theorem X5_allow_list_fields :
  forall cfg,
    length (ALLOWED_PHONE_NUMBERS cfg)
    = S (count_occ Z.eq_dec (ALLOWED_PHONE_NUMBERS_env cfg) 44)
    /\ ALLOWED_PHONE_NUMBERS cfg <> []
    /\ join_comma (split_comma (ALLOWED_PHONE_NUMBERS_env cfg) [])
       = ALLOWED_PHONE_NUMBERS_env cfg.
Proof.
  intros cfg.
  assert (L : length (ALLOWED_PHONE_NUMBERS cfg)
              = S (count_occ Z.eq_dec (ALLOWED_PHONE_NUMBERS_env cfg) 44)).
  { unfold ALLOWED_PHONE_NUMBERS. rewrite length_map. apply split_comma_length. }
  split; [exact L|]. split.
  - intros E. rewrite E in L. discriminate L.
  - apply (split_comma_join _ []).
Qed.

(** ** GET /webhook *)

Lemma strict_equals_string_eq v s :
  strict_equals_string v s = true <-> v = JStr s.
Proof.
  destruct v; simpl; try (split; discriminate).
  rewrite jsstring_eqb_eq. split; [now intros -> | now intros [= ->]].
Qed.

(** X6. The verification handshake echoes the challenge exactly when
    [hub.mode] is the string "subscribe" and [hub.verify_token] is the string
    WHATSAPP_VERIFY_TOKEN, and that token is not empty; what it echoes is the
    request's own [hub.challenge].  It answers 400 exactly when the mode or
    the token is missing or empty, and 403 in every other case. *)
Theorem X6_challenge_only_for_verify_token :
  forall verify_token q,
    (forall challenge,
        webhook_get verify_token q = SendChallenge challenge
        <-> hub_mode q = JStr (js "subscribe")
            /\ hub_verify_token q = JStr verify_token
            /\ verify_token <> []
            /\ challenge = hub_challenge q)
    /\ (webhook_get verify_token q = SendStatus 400
        <-> truthy (hub_mode q) = false \/ truthy (hub_verify_token q) = false)
    /\ (forall code,
           webhook_get verify_token q = SendStatus code -> code = 400 \/ code = 403).
Proof.
  intros vt q. unfold webhook_get.
  destruct (truthy (hub_mode q)) eqn:Hm; destruct (truthy (hub_verify_token q)) eqn:Ht;
    cbn [negb orb].
  - destruct (is_string (hub_mode q) "subscribe") eqn:Hs;
      destruct (strict_equals_string (hub_verify_token q) vt) eqn:Hv; cbn [andb].
    + assert (Em : hub_mode q = JStr (js "subscribe")).
      { unfold is_string in Hs. destruct (hub_mode q); try discriminate Hs.
        apply jsstring_eqb_eq in Hs. now subst. }
      apply strict_equals_string_eq in Hv.
      assert (Hne : vt <> []).
      { intros ->. rewrite Hv in Ht. discriminate Ht. }
      split; [|split].
      * intros c. split.
        -- intros [= <-]. auto.
        -- intros (_ & _ & _ & ->). reflexivity.
      * split; [discriminate | intros [H | H]; discriminate H].
      * intros code H. discriminate H.
    + split; [|split].
      * intros c. split; [discriminate|].
        intros (_ & E & _). apply strict_equals_string_eq in E. congruence.
      * split; [discriminate | intros [H | H]; discriminate H].
      * intros code [= <-]. now right.
    + split; [|split].
      * intros c. split; [discriminate|].
        intros (E & _). rewrite E in Hs. discriminate Hs.
      * split; [discriminate | intros [H | H]; discriminate H].
      * intros code [= <-]. now right.
    + split; [|split].
      * intros c. split; [discriminate|].
        intros (E & _). rewrite E in Hs. discriminate Hs.
      * split; [discriminate | intros [H | H]; discriminate H].
      * intros code [= <-]. now right.
  - split; [|split].
    + intros c. split; [discriminate|].
      intros (_ & E & Hne & _). rewrite E in Ht. destruct vt; [now elim Hne|discriminate Ht].
    + split; auto.
    + intros code [= <-]. now left.
  - split; [|split].
    + intros c. split; [discriminate|].
      intros (E & _). rewrite E in Hm. discriminate Hm.
    + split; auto.
    + intros code [= <-]. now left.
  - split; [|split].
    + intros c. split; [discriminate|].
      intros (E & _). rewrite E in Hm. discriminate Hm.
    + split; auto.
    + intros code [= <-]. now left.
Qed.

(** ** The start-up check *)

Lemma first_missing_none env vars :
  first_missing env vars = None
  <-> forall envVar, In envVar vars -> env_is_set env envVar = true.
Proof.
  induction vars as [|v vars IH]; simpl.
  - split; [intros _ ? [] | reflexivity].
  - destruct (env_is_set env v) eqn:E.
    + rewrite IH. split.
      * intros H x [<- | Hx]; auto.
      * intros H x Hx. apply H. now right.
    + split; [discriminate|]. intros H. specialize (H v (or_introl eq_refl)).
      congruence.
Qed.

Lemma first_missing_some env vars envVar :
  first_missing env vars = Some envVar ->
  exists before after,
    vars = before ++ envVar :: after
    /\ env_is_set env envVar = false
    /\ forall x, In x before -> env_is_set env x = true.
Proof.
  induction vars as [|v vars IH]; simpl; [discriminate|].
  destruct (env_is_set env v) eqn:E.
  - intros H. destruct (IH H) as (before & after & -> & Hm & Hb).
    exists (v :: before), after. split; [reflexivity|]. split; [exact Hm|].
    intros x [<- | Hx]; auto.
  - intros [= <-]. exists [], vars. split; [reflexivity|]. split; [exact E|].
    intros x [].
Qed.

(** X7. The process gets past its start-up check exactly when each of the
    seven required variables is set to a non-empty string; otherwise the
    variable it reports is the first of the list, in the list's order, that is
    absent or empty. *)
Theorem X7_startup_requires_every_variable :
  forall env,
    (startup_check env = None
     <-> forall envVar, In envVar requiredEnvVars ->
           exists value, env envVar = Some value /\ value <> [])
    /\ (forall envVar,
           startup_check env = Some envVar ->
           exists before after,
             requiredEnvVars = before ++ envVar :: after
             /\ (env envVar = None \/ env envVar = Some [])
             /\ forall x, In x before -> env_is_set env x = true).
Proof.
  intros env. unfold startup_check. split.
  - rewrite first_missing_none. split.
    + intros H v Hv. specialize (H v Hv). unfold env_is_set in H.
      destruct (env v) as [[|c s]|]; try discriminate H.
      exists (c :: s). split; [reflexivity | discriminate].
    + intros H v Hv. destruct (H v Hv) as (value & E & Hne).
      unfold env_is_set. rewrite E. destruct value; [now elim Hne | reflexivity].
  - intros v H. destruct (first_missing_some _ _ _ H) as (before & after & E & Hm & Hb).
    exists before, after. split; [exact E|]. split; [|exact Hb].
    unfold env_is_set in Hm. destruct (env v) as [[|c s]|]; auto. discriminate Hm.
Qed.

Example startup_reports_first_missing :
  startup_check (env_of [("WHATSAPP_TOKEN"%string, js "t");
                         ("GOOGLE_PROJECT_ID"%string, js "p");
                         ("NODE_ENV"%string, [])])
  = Some "WHATSAPP_VERIFY_TOKEN"%string.
Proof. reflexivity. Qed.

(** ** The responses of a run *)

Lemma no_response_ret {A} (a : A) : no_response (ret a).
Proof. reflexivity. Qed.

Lemma no_response_throw {A} (e : exn) : no_response (@throw A e).
Proof. reflexivity. Qed.

Lemma no_response_return {A} : no_response (@return_ A).
Proof. reflexivity. Qed.

Lemma no_response_emit e : is_respond e = false -> no_response (emit e).
Proof. unfold no_response, responses. simpl. now intros ->. Qed.

Lemma no_response_console l s : no_response (console l s).
Proof. reflexivity. Qed.

Lemma no_response_member v k : no_response (member v k).
Proof. unfold member. now destruct (get_member v k). Qed.

Lemma no_response_bind {A B} (m : M A) (k : A -> M B) :
  no_response m -> (forall a, no_response (k a)) -> no_response (bind m k).
Proof.
  unfold no_response, responses. intros Hm Hk. rewrite trace_bind, filter_app, Hm.
  destruct (outcome m); [apply Hk | reflexivity | reflexivity].
Qed.

Lemma no_response_try_catch {A} (m : M A) (h : exn -> M A) :
  no_response m -> (forall e, no_response (h e)) -> no_response (try_catch m h).
Proof.
  unfold no_response, responses. intros Hm Hh. rewrite trace_try_catch, filter_app, Hm.
  destruct (outcome m); [reflexivity | reflexivity | apply Hh].
Qed.

Ltac no_response_now :=
  repeat first
    [ apply no_response_bind; [|intros ?]
    | apply no_response_try_catch; [|intros ?]
    | apply no_response_console
    | apply no_response_member
    | apply no_response_ret
    | apply no_response_throw
    | apply no_response_return
    | apply no_response_emit; reflexivity
    | match goal with
      | |- no_response (if ?b then _ else _) => destruct b
      | |- no_response (match ?x with _ => _ end) => destruct x
      end ].

(** X8. Every run of the POST handler sends exactly one response, the
    200 "OK" of line 126: nothing that happens afterwards (validation, the
    signature, the sender, a failure of a collaborator) changes the status or
    sends a second response. *)
Theorem X8_exactly_one_response :
  forall translate_translate fetch cfg req,
    responses (trace (webhook_post translate_translate fetch cfg req))
    = [Respond 200 "OK"].
Proof.
  intros tr fe cfg req. unfold webhook_post.
  rewrite bind_emit_prepend, trace_prepend. unfold responses.
  rewrite filter_app. cbn [filter is_respond app]. f_equal.
  apply (no_response_try_catch (A := unit)); [|intros e; apply no_response_console].
  unfold validation_gate, signature_block, process_body, handle_value,
    phone_number_check, translate_and_reply, sendMessage, interpolate.
  no_response_now.
Qed.

(** ** How many calls a run makes *)

Lemma translate_calls_of_calls t :
  filter is_translate_call (collaborator_calls t) = filter is_translate_call t.
Proof.
  induction t as [|e t IH]; [reflexivity|].
  unfold collaborator_calls in *. destruct e; simpl; now rewrite ?IH.
Qed.

Lemma send_calls_of_calls t :
  filter is_send_call (collaborator_calls t) = filter is_send_call t.
Proof.
  induction t as [|e t IH]; [reflexivity|].
  unfold collaborator_calls in *. destruct e; simpl; now rewrite ?IH.
Qed.

(** X9. A run of the POST handler calls [translate.translate] at most once
    and [sendMessage] at most once, whatever the payload holds (further
    entries, changes and messages are not looked at), and a translation call
    never comes after a [sendMessage]. *)
Theorem X9_at_most_one_call_each :
  forall translate_translate fetch cfg req,
    (length (filter is_translate_call
               (trace (webhook_post translate_translate fetch cfg req))) <= 1)%nat
    /\ (length (filter is_send_call
                  (trace (webhook_post translate_translate fetch cfg req))) <= 1)%nat
    /\ (forall before p t m after text target,
           trace (webhook_post translate_translate fetch cfg req)
           = before ++ SendMessageCall p t m :: after ->
           ~ In (TranslateCall text target) after).
Proof.
  intros tr fe cfg req.
  rewrite <- translate_calls_of_calls, <- send_calls_of_calls.
  assert (Hshape :
            collaborator_calls (trace (webhook_post tr fe cfg req)) = []
            \/ (exists p t m,
                   collaborator_calls (trace (webhook_post tr fe cfg req))
                   = [SendMessageCall p t m])
            \/ (exists text,
                   collaborator_calls (trace (webhook_post tr fe cfg req))
                   = [TranslateCall text "en"])
            \/ (exists text p t m,
                   collaborator_calls (trace (webhook_post tr fe cfg req))
                   = [TranslateCall text "en"; SendMessageCall p t m])).
  { destruct (collaborator_calls_cases tr fe cfg req)
      as [Hc | [(value & message & from & pid & _ & _ & _ & _ & _ & _ & _ & Hc)
               | (value & message & from & pid & text & _ & _ & _ & _ & _ & Hc)]].
    - now left.
    - right; left. eauto.
    - destruct (tr text "en"%string); [|do 2 right; left; eauto].
      destruct (ToString_throws pid); [do 2 right; left | do 3 right]; eauto. }
  split; [|split].
  - destruct Hshape as [-> | [(p & t & m & ->) | [(x & ->) | (x & p & t & m & ->)]]];
      simpl; auto.
  - destruct Hshape as [-> | [(p & t & m & ->) | [(x & ->) | (x & p & t & m & ->)]]];
      simpl; auto.
  - intros before p t m after text target Heq Hin.
    pose proof (in_calls _ _ Hin eq_refl) as Hin'.
    rewrite Heq in Hshape. rewrite calls_app in Hshape.
    change (collaborator_calls (SendMessageCall p t m :: after))
      with (SendMessageCall p t m :: collaborator_calls after) in Hshape.
    destruct (collaborator_calls after) as [|e' after'] ; [destruct Hin'|].
    destruct Hshape as [H | [(p' & t' & m' & H) | [(x & H) | (x & p' & t' & m' & H)]]];
      destruct (collaborator_calls before) as [|b1 [|b2 [|b3 bs]]];
      simpl in H; discriminate H.
Qed.

(** ** What validation guarantees about the addressing fields *)

Lemma select_under_value b value k w rest x :
  get_path b path_value = Some value ->
  get_member value k = Some w ->
  In x (select_fields rest value) ->
  In x (select_fields
          (Key "entry" :: Wild :: Key "changes" :: Wild :: Key "value" :: rest) b).
Proof.
  intros Hp Hk Hx.
  cbn [get_path path_value] in Hp.
  repeat match type of Hp with
         | match get_member ?v ?k with _ => _ end = _ =>
             let E := fresh "Hg" in
             destruct (get_member v k) eqn:E; [|discriminate Hp]
         end.
  injection Hp as ->.
  rewrite select_key, (get_member_own _ _ _ Hg).
  destruct (wildcard_covers_first _ _ _ _ _ _ Hg0 Hg1 Hg2 eq_refl eq_refl) as [K1 E1].
  apply select_wildcard; [exact K1|].
  rewrite E1, select_key, (get_member_own _ _ _ Hg1).
  destruct (wildcard_covers_first _ _ _ _ _ _ Hg2 Hg3 Hk eq_refl eq_refl) as [K2 E2].
  apply select_wildcard; [exact K2|].
  rewrite E2, select_key, (get_member_own _ _ _ Hg3). exact Hx.
Qed.

Lemma validation_fields cfg req :
  validation_is_empty cfg req = true ->
  (forall x, In x (field_selection cfg path_phone_number_id (body req)) ->
             x <> JUndefined)
  /\ (forall x, In x (field_selection cfg path_from (body req)) -> x <> JUndefined)
  /\ x_hub_signature_256 req <> None.
Proof.
  unfold validation_is_empty. intros Hv.
  repeat (apply andb_true_iff in Hv as [Hv ?]).
  repeat match goal with
         | H : forallb exists_ _ = true |- _ => rewrite forallb_forall in H
         end.
  split; [|split].
  - intros x Hx ->. match goal with
    | H : forall _, In _ (field_selection cfg path_phone_number_id _) -> _ |- _ =>
        specialize (H _ Hx); discriminate H
    end.
  - intros x Hx ->. match goal with
    | H : forall _, In _ (field_selection cfg path_from _) -> _ |- _ =>
        specialize (H _ Hx); discriminate H
    end.
  - destruct (x_hub_signature_256 req); [discriminate | discriminate].
Qed.

Lemma validated_phone_number_id cfg req value pid :
  selection_covers cfg path_phone_number_id ->
  validation_is_empty cfg req = true ->
  get_path (body req) path_value = Some value ->
  get_path value path_metadata_id = Some pid ->
  pid <> JUndefined.
Proof.
  intros Hcov Hv Hval Hpid.
  apply (proj1 (validation_fields cfg req Hv)). apply Hcov.
  cbn [get_path path_metadata_id] in Hpid.
  destruct (get_member value "metadata") as [metadata|] eqn:Hm; [|discriminate Hpid].
  destruct (get_member metadata "phone_number_id") as [x|] eqn:Hi; [|discriminate Hpid].
  injection Hpid as ->.
  apply (select_under_value _ _ _ _ _ _ Hval Hm).
  rewrite !select_key, (get_member_own _ _ _ Hm), (get_member_own _ _ _ Hi).
  now left.
Qed.

Lemma validated_from cfg req value messages message text from :
  selection_covers cfg path_from ->
  validation_is_empty cfg req = true ->
  get_path (body req) path_value = Some value ->
  get_member value "messages" = Some messages ->
  get_member messages "0" = Some message ->
  get_path message path_message_text = Some text ->
  get_member message "from" = Some from ->
  from <> JUndefined.
Proof.
  intros Hcov Hv Hval Hmsgs H0 Htext Hfrom.
  apply (proj1 (proj2 (validation_fields cfg req Hv))). apply Hcov.
  cbn [get_path path_message_text] in Htext.
  destruct (get_member message "text") as [t|] eqn:Ht; [|discriminate Htext].
  destruct (get_member t "body") as [b|] eqn:Hb; [|discriminate Htext].
  apply (select_under_value _ _ _ _ _ _ Hval Hmsgs).
  rewrite select_key, (get_member_own _ _ _ Hmsgs).
  destruct (wildcard_covers_first _ _ _ _ _ _ H0 Ht Hb eq_refl eq_refl) as [K E].
  apply select_wildcard; [exact K|].
  rewrite E, select_key, (get_member_own _ _ _ Hfrom). now left.
Qed.

(** X10. Every message the handler sends is addressed from the payload: it
    is posted under [value.metadata.phone_number_id] of the first change of
    the first entry, a value that the URL's template can interpolate, to
    [messages[0].from] of that same value.  Its text is either the
    restricted-service notice (only with [DEBUG] off, to a sender not on the
    allow-list) or "Translated text: " followed by what [translate.translate]
    returned for [text.body] of that first message.  When the express-validator
    installed checks at least the fields that the selection of its 6.x
    releases yields, the [phone_number_id] is never [undefined], and neither
    is the sender of a translation. *)
Theorem X10_reply_addressed_from_payload :
  forall translate_translate fetch cfg req p t m,
    In (SendMessageCall p t m)
       (trace (webhook_post translate_translate fetch cfg req)) ->
    exists value message,
      get_path (body req) path_value = Some value
      /\ get_path (body req) path_first_message = Some message
      /\ get_path value path_metadata_id = Some p
      /\ get_member message "from" = Some t
      /\ ToString_throws p = false
      /\ (selection_covers cfg path_phone_number_id -> p <> JUndefined)
      /\ ((m = restricted_text
           /\ DEBUG cfg = false
           /\ includes (ALLOWED_PHONE_NUMBERS cfg) t = false)
          \/ (exists text translation,
                 get_path message path_message_text = Some text
                 /\ translate_translate text "en"%string = Some translation
                 /\ m = translated_text translation
                 /\ (selection_covers cfg path_from -> t <> JUndefined))).
Proof.
  intros tr fe cfg req p t m Hin.
  apply in_calls in Hin; [|reflexivity].
  destruct (collaborator_calls_cases tr fe cfg req)
    as [Hc | [(value & message & from & pid & Hpg & Hev & Hpid & Hincl & Hdebug
               & _ & Hurl & Hc)
             | (value & message & from & pid & text & Hpg & Hev & Hpid & Htext & _ & Hc)]];
    rewrite Hc in Hin.
  - destruct Hin.
  - destruct Hin as [Hin | []]. injection Hin as <- <- <-.
    pose proof (message_event_path _ _ _ _ Hev) as Hmsg.
    destruct Hev as (_ & Hval & _ & Hfrom).
    exists value, message. repeat (split; [assumption|]).
    split; [|left; auto].
    intros Hcov. apply (validated_phone_number_id cfg req value);
      [exact Hcov | now apply passes_gates_validation | assumption | assumption].
  - destruct Hin as [Hin | Hin]; [discriminate Hin|].
    destruct (tr text "en"%string) as [translation|] eqn:Htr; [|destruct Hin].
    destruct (ToString_throws pid) eqn:Hurl; [destruct Hin|].
    destruct Hin as [Hin | []]. injection Hin as <- <- <-.
    pose proof (message_event_path _ _ _ _ Hev) as Hmsg.
    pose proof (passes_gates_validation _ _ Hpg) as Hv.
    destruct Hev as (_ & Hval & (messages & Hmsgs & _ & H0) & Hfrom).
    exists value, message. repeat (split; [assumption|]).
    split; [intros Hcov; apply (validated_phone_number_id cfg req value); assumption|].
    right. exists text, translation. repeat (split; [assumption || reflexivity|]).
    intros Hcov. apply (validated_from cfg req value messages message text); assumption.
Qed.

Lemma X10_witness :
  In (SendMessageCall sample_phone_number_id (JStr (js "15551234567"))
        (translated_text (js "Hello")))
     (trace (webhook_post translate_hello fetch_ok development_debug_off
               (wrongly_signed (message_envelope (js "15551234567") (js "Hola")))))
  /\ exists value message,
      get_path (body (wrongly_signed (message_envelope (js "15551234567") (js "Hola"))))
        path_value = Some value
      /\ get_path (body (wrongly_signed (message_envelope (js "15551234567") (js "Hola"))))
           path_first_message = Some message
      /\ get_path value path_metadata_id = Some sample_phone_number_id
      /\ get_member message "from" = Some (JStr (js "15551234567"))
      /\ ToString_throws sample_phone_number_id = false
      /\ (selection_covers development_debug_off path_phone_number_id ->
          sample_phone_number_id <> JUndefined)
      /\ ((translated_text (js "Hello") = restricted_text
           /\ DEBUG development_debug_off = false
           /\ includes (ALLOWED_PHONE_NUMBERS development_debug_off)
                (JStr (js "15551234567")) = false)
          \/ (exists text translation,
                 get_path message path_message_text = Some text
                 /\ translate_hello text "en"%string = Some translation
                 /\ translated_text (js "Hello") = translated_text translation
                 /\ (selection_covers development_debug_off path_from ->
                     JStr (js "15551234567") <> JUndefined))).
Proof.
  assert (Hin : In (SendMessageCall sample_phone_number_id (JStr (js "15551234567"))
                      (translated_text (js "Hello")))
                   (trace (webhook_post translate_hello fetch_ok development_debug_off
                             (wrongly_signed
                                (message_envelope (js "15551234567") (js "Hola")))))).
  { vm_compute. tauto. }
  split; [exact Hin|].
  exact (X10_reply_addressed_from_payload translate_hello fetch_ok development_debug_off
           (wrongly_signed (message_envelope (js "15551234567") (js "Hola")))
           _ _ _ Hin).
Defined.

(** ** What the run does not depend on *)

Lemma signature_block_outside_production {B} (rest : M B) cfg req :
  is_production cfg = false ->
  signature_block cfg req ;; rest = rest.
Proof.
  intros Hp. unfold signature_block. fold (is_production cfg). rewrite Hp.
  cbn [andb]. rewrite try_catch_ret, bind_ret. reflexivity.
Qed.

Lemma calls_after_gates tr fe cfg req :
  validation_is_empty cfg req = true ->
  DEBUG cfg = true ->
  collaborator_calls (trace (webhook_post tr fe cfg req))
  = collaborator_calls
      (trace (try_catch
                (process_body tr fe cfg req ;;
                 console log "Processing completed successfully")
                (fun _ => console error "Error processing webhook:"))).
Proof.
  intros Hv Hd. unfold webhook_post, validation_gate. rewrite Hv. cbn [negb].
  destruct (signature_block_spec cfg req) as (tsig & Hc & Hs).
  rewrite Hd, andb_false_r in Hs. cbn [negb andb] in Hs.
  name_labels. exec. rewrite Hs, pair_prepend. exec.
  calls_now. reflexivity.
Qed.

(** X11. Given that the header is there at all, its value is immaterial
    outside production: the whole run is the same for any two header values.
    In production with [DEBUG] on (the value [index.js] fixes) the header
    value changes console output only: the calls to [translate.translate] and
    [sendMessage] are the same for any two header values. *)
Theorem X11_header_value_is_immaterial :
  forall translate_translate fetch cfg b h1 h2,
    (is_production cfg = false ->
     webhook_post translate_translate fetch cfg (mkRequest (Some h1) b)
     = webhook_post translate_translate fetch cfg (mkRequest (Some h2) b))
    /\ (DEBUG cfg = true ->
        collaborator_calls
          (trace (webhook_post translate_translate fetch cfg (mkRequest (Some h1) b)))
        = collaborator_calls
            (trace (webhook_post translate_translate fetch cfg (mkRequest (Some h2) b)))).
Proof.
  intros tr fe cfg b h1 h2. split.
  - intros Hp. unfold webhook_post.
    rewrite !(signature_block_outside_production _ _ _ Hp). reflexivity.
  - intros Hd.
    destruct (validation_is_empty cfg (mkRequest (Some h1) b)) eqn:Hv.
    + rewrite !calls_after_gates by assumption. reflexivity.
    + rewrite !validation_failed_run by assumption. reflexivity.
Qed.

(** ** Envelopes that cannot be read *)

Ltac split_failing_path H :=
  cbn [get_path path_messages] in H;
  repeat match type of H with
         | match get_member ?v ?k with _ => _ end = None =>
             let E := fresh "Hg" in destruct (get_member v k) eqn:E
         end;
  try discriminate H.

(** X12. When a request has passed validation and the signature block and
    carries the discriminator, but one of the reads of the envelope throws
    (an [entry] or [changes] without a first element, or a truthy [messages]
    without one, such as the empty array), the TypeError is caught by the
    handler's outer catch: no collaborator is called, the run ends with
    "Error processing webhook:" and the handler ends normally. *)
Theorem X12_unreadable_envelope_is_caught :
  forall translate_translate fetch cfg req object,
    passes_gates cfg req = true ->
    get_member (body req) "object" = Some object ->
    is_string object "whatsapp_business_account" = true ->
    envelope_read_throws req ->
    collaborator_calls (trace (webhook_post translate_translate fetch cfg req)) = []
    /\ ends_with (trace (webhook_post translate_translate fetch cfg req))
         [Console error "Error processing webhook:"]
    /\ outcome (webhook_post translate_translate fetch cfg req) = Normal tt.
Proof.
  intros tr fe cfg req object Hpg Hobj Hstr Hthrows.
  apply passes_gates_inv in Hpg as [Hv Hgate].
  destruct (signature_block_spec cfg req) as (tsig & Hc & Hs).
  rewrite Hgate in Hs.
  destruct Hthrows as [Hp | (messages & Hm & Ht & Hp)].
  - split_failing_path Hp.
    all: start_run tr fe cfg req.
    all: rewrite Hs, pair_prepend, Hv; cbn [negb]; exec.
    all: repeat run_head.
    all: restore_labels; subst Q; cbv beta.
    all: split; [calls_now; reflexivity|].
    all: split; [ends_now | repeat rewrite outcome_prepend; reflexivity].
  - unfold path_messages in Hm. split_path Hm. split_failing_path Hp.
    all: start_run tr fe cfg req.
    all: rewrite Hs, pair_prepend, Hv; cbn [negb]; exec.
    all: repeat run_head.
    all: restore_labels; subst Q; cbv beta.
    all: split; [calls_now; reflexivity|].
    all: split; [ends_now | repeat rewrite outcome_prepend; reflexivity].
Qed.

Lemma X12_witness :
  passes_gates development_debug_off (wrongly_signed empty_messages_envelope) = true
  /\ envelope_read_throws (wrongly_signed empty_messages_envelope)
  /\ collaborator_calls
       (trace (webhook_post translate_hello fetch_ok development_debug_off
                 (wrongly_signed empty_messages_envelope))) = []
  /\ ends_with
       (trace (webhook_post translate_hello fetch_ok development_debug_off
                 (wrongly_signed empty_messages_envelope)))
       [Console error "Error processing webhook:"]
  /\ outcome (webhook_post translate_hello fetch_ok development_debug_off
                (wrongly_signed empty_messages_envelope)) = Normal tt.
Proof.
  assert (Hpg : passes_gates development_debug_off
                  (wrongly_signed empty_messages_envelope) = true) by reflexivity.
  assert (Hthrows : envelope_read_throws (wrongly_signed empty_messages_envelope)).
  { right. exists (JArr []). repeat split; reflexivity. }
  split; [exact Hpg|]. split; [exact Hthrows|].
  exact (X12_unreadable_envelope_is_caught translate_hello fetch_ok
           development_debug_off (wrongly_signed empty_messages_envelope)
           (JStr (js "whatsapp_business_account")) Hpg eq_refl eq_refl Hthrows).
Defined.

(** X13. When a request has passed validation and the signature block but
    its [object] is not "whatsapp_business_account", nothing below it is read:
    no collaborator is called, and the run ends with "Invalid request format"
    followed by "Processing completed successfully". *)
Theorem X13_other_object_is_ignored :
  forall translate_translate fetch cfg req object,
    passes_gates cfg req = true ->
    get_member (body req) "object" = Some object ->
    is_string object "whatsapp_business_account" = false ->
    collaborator_calls (trace (webhook_post translate_translate fetch cfg req)) = []
    /\ ends_with (trace (webhook_post translate_translate fetch cfg req))
         [Console log "Invalid request format";
          Console log "Processing completed successfully"]
    /\ outcome (webhook_post translate_translate fetch cfg req) = Normal tt.
Proof.
  intros tr fe cfg req object Hpg Hobj Hstr.
  apply passes_gates_inv in Hpg as [Hv Hgate].
  destruct (signature_block_spec cfg req) as (tsig & Hc & Hs).
  rewrite Hgate in Hs.
  start_run tr fe cfg req.
  rewrite Hs, pair_prepend, Hv; cbn [negb]; exec.
  repeat run_head.
  restore_labels; subst Q; cbv beta.
  split; [calls_now; reflexivity|].
  split; [ends_now | repeat rewrite outcome_prepend; reflexivity].
Qed.

Lemma X13_witness :
  passes_gates development_debug_off (wrongly_signed other_account_envelope) = true
  /\ collaborator_calls
       (trace (webhook_post translate_hello fetch_ok development_debug_off
                 (wrongly_signed other_account_envelope))) = []
  /\ ends_with
       (trace (webhook_post translate_hello fetch_ok development_debug_off
                 (wrongly_signed other_account_envelope)))
       [Console log "Invalid request format";
        Console log "Processing completed successfully"]
  /\ outcome (webhook_post translate_hello fetch_ok development_debug_off
                (wrongly_signed other_account_envelope)) = Normal tt.
Proof.
  assert (Hpg : passes_gates development_debug_off
                  (wrongly_signed other_account_envelope) = true) by reflexivity.
  split; [exact Hpg|].
  exact (X13_other_object_is_ignored translate_hello fetch_ok
           development_debug_off (wrongly_signed other_account_envelope)
           (JStr (js "instagram")) Hpg eq_refl eq_refl).
Defined.

(** X14. A failure of the POST that [sendMessage] makes is reported
    according to where the message was sent from; sender and
    [phone_number_id] are taken to be values a template literal can
    interpolate (every string is).  When the translated reply cannot be
    delivered, [sendMessage] logs "Error sending message:" and rethrows, the
    translation block's catch logs it as "Translation error:", and the handler
    still logs "Processing completed successfully".  When the
    restricted-service notice cannot be delivered, the rethrown error reaches
    the outer catch: the run ends with "Error processing webhook:". *)
Theorem X14_failed_delivery_is_reported :
  forall translate_translate fetch cfg req value message from pid,
    passes_gates cfg req = true ->
    message_event req value message from ->
    get_path value path_metadata_id = Some pid ->
    ToString_throws from = false ->
    ToString_throws pid = false ->
    (forall text translation,
        get_path message path_message_text = Some text ->
        translate_translate text "en"%string = Some translation ->
        includes (ALLOWED_PHONE_NUMBERS cfg) from = true \/ DEBUG cfg = true ->
        fetch pid from (translated_text translation) <> FetchOk ->
        ends_with (trace (webhook_post translate_translate fetch cfg req))
          [SendMessageCall pid from (translated_text translation);
           Console error "Error sending message:";
           Console error "Translation error:";
           Console log "Processing completed successfully"]
        /\ outcome (webhook_post translate_translate fetch cfg req) = Normal tt)
    /\ (includes (ALLOWED_PHONE_NUMBERS cfg) from = false ->
        DEBUG cfg = false ->
        fetch pid from restricted_text <> FetchOk ->
        ends_with (trace (webhook_post translate_translate fetch cfg req))
          [SendMessageCall pid from restricted_text;
           Console error "Error sending message:";
           Console error "Error processing webhook:"]
        /\ outcome (webhook_post translate_translate fetch cfg req) = Normal tt).
Proof.
  intros tr fe cfg req value message from pid Hpg Hev Hpid Hsender Hurl.
  split.
  - intros text translation Htext Htr Hlet Hfetch.
    apply (failed_reply_run tr fe cfg req value message from pid text translation);
      try assumption.
    destruct Hlet as [Hincl | Hdebug]; [now left | right; now split].
  - intros Hincl Hdebug Hfetch.
    apply passes_gates_inv in Hpg as [Hv Hgate].
    destruct Hev
      as ((object & Hobj & Hstr) & Hval & (messages & Hmsgs & Ht & Hmsg) & Hfrom).
    split_path Hval. split_path Hpid.
    destruct (signature_block_spec cfg req) as (tsig & Hc & Hs).
    rewrite Hgate in Hs.
    start_run tr fe cfg req.
    rewrite Hs, pair_prepend, Hv. cbn [negb]. exec.
    repeat run_head.
    all: restore_labels; subst Q; cbv beta.
    all: try congruence.
    all: split; [ends_now | repeat rewrite outcome_prepend; reflexivity].
Qed.

Lemma X14_witness :
  passes_gates development_debug_off
    (wrongly_signed (message_envelope (js "19998887777") (js "Hola"))) = true
  /\ ToString_throws (JStr (js "19998887777")) = false
  /\ ToString_throws sample_phone_number_id = false
  /\ includes (ALLOWED_PHONE_NUMBERS development_debug_off) (JStr (js "19998887777"))
     = false
  /\ fetch_not_ok sample_phone_number_id (JStr (js "19998887777")) restricted_text
     <> FetchOk
  /\ ends_with
       (trace (webhook_post translate_hello fetch_not_ok development_debug_off
                 (wrongly_signed (message_envelope (js "19998887777") (js "Hola")))))
       [SendMessageCall sample_phone_number_id (JStr (js "19998887777")) restricted_text;
        Console error "Error sending message:";
        Console error "Error processing webhook:"]
  /\ outcome (webhook_post translate_hello fetch_not_ok development_debug_off
                (wrongly_signed (message_envelope (js "19998887777") (js "Hola"))))
     = Normal tt.
Proof.
  assert (Hpg : passes_gates development_debug_off
                  (wrongly_signed (message_envelope (js "19998887777") (js "Hola")))
                = true) by reflexivity.
  assert (Hfetch : fetch_not_ok sample_phone_number_id (JStr (js "19998887777"))
                     restricted_text <> FetchOk) by discriminate.
  split; [exact Hpg|]. split; [reflexivity|]. split; [reflexivity|].
  split; [reflexivity|]. split; [exact Hfetch|].
  exact (proj2 (X14_failed_delivery_is_reported translate_hello fetch_not_ok
                  development_debug_off
                  (wrongly_signed (message_envelope (js "19998887777") (js "Hola")))
                  _ _ _ sample_phone_number_id Hpg
                  (wrongly_signed_message_event (js "19998887777") (js "Hola"))
                  eq_refl eq_refl eq_refl)
           eq_refl eq_refl Hfetch).
Defined.

(** X15. The path the service exists for.  For a message event in a request
    that passed validation and the signature block, from a sender on the
    allow-list (or any sender while [DEBUG] is on), sender and
    [phone_number_id] being values a template literal can interpolate (every
    string is), when
    [translate.translate] returns a translation of [text.body] and the Graph
    API accepts the reply: the run makes exactly the translation call and then
    one [sendMessage] of "Translated text: " followed by that translation, to
    the sender, under the payload's [phone_number_id], and ends with
    "Translation successful:" and "Processing completed successfully". *)
Theorem X15_listed_sender_gets_translation :
  forall translate_translate fetch cfg req value message from pid text translation,
    passes_gates cfg req = true ->
    message_event req value message from ->
    get_path value path_metadata_id = Some pid ->
    get_path message path_message_text = Some text ->
    includes (ALLOWED_PHONE_NUMBERS cfg) from = true \/ DEBUG cfg = true ->
    ToString_throws from = false ->
    ToString_throws pid = false ->
    translate_translate text "en"%string = Some translation ->
    fetch pid from (translated_text translation) = FetchOk ->
    collaborator_calls (trace (webhook_post translate_translate fetch cfg req))
    = [TranslateCall text "en"; SendMessageCall pid from (translated_text translation)]
    /\ ends_with (trace (webhook_post translate_translate fetch cfg req))
         [SendMessageCall pid from (translated_text translation);
          Console log "Translation successful:";
          Console log "Processing completed successfully"]
    /\ outcome (webhook_post translate_translate fetch cfg req) = Normal tt.
Proof.
  intros tr fe cfg req value message from pid text translation
         Hpg Hev Hpid Htext Hlet Hsender Hurl Htr Hfetch.
  apply (delivered_reply_run tr fe cfg req value message from pid text translation);
    try assumption.
  destruct Hlet as [Hincl | Hdebug]; [now left | right; now split].
Qed.

Lemma X15_witness :
  passes_gates development_debug_off
    (wrongly_signed (message_envelope (js "15551234567") (js "Hola"))) = true
  /\ includes (ALLOWED_PHONE_NUMBERS development_debug_off) (JStr (js "15551234567"))
     = true
  /\ ToString_throws (JStr (js "15551234567")) = false
  /\ ToString_throws sample_phone_number_id = false
  /\ collaborator_calls
       (trace (webhook_post translate_hello fetch_ok development_debug_off
                 (wrongly_signed (message_envelope (js "15551234567") (js "Hola")))))
     = [TranslateCall (JStr (js "Hola")) "en";
        SendMessageCall sample_phone_number_id (JStr (js "15551234567"))
          (translated_text (js "Hello"))]
  /\ ends_with
       (trace (webhook_post translate_hello fetch_ok development_debug_off
                 (wrongly_signed (message_envelope (js "15551234567") (js "Hola")))))
       [SendMessageCall sample_phone_number_id (JStr (js "15551234567"))
          (translated_text (js "Hello"));
        Console log "Translation successful:";
        Console log "Processing completed successfully"]
  /\ outcome (webhook_post translate_hello fetch_ok development_debug_off
                (wrongly_signed (message_envelope (js "15551234567") (js "Hola"))))
     = Normal tt.
Proof.
  assert (Hpg : passes_gates development_debug_off
                  (wrongly_signed (message_envelope (js "15551234567") (js "Hola")))
                = true) by reflexivity.
  assert (Hev : message_event
                  (wrongly_signed (message_envelope (js "15551234567") (js "Hola")))
                  (sample_value (JStr (js "15551234567")) (JStr (js "Hola")))
                  (sample_message (JStr (js "15551234567")) (JStr (js "Hola")))
                  (JStr (js "15551234567"))).
  { split; [eexists; split; reflexivity|]. split; [reflexivity|].
    split; [eexists; split; [reflexivity|split; reflexivity]|]. reflexivity. }
  assert (Hincl : includes (ALLOWED_PHONE_NUMBERS development_debug_off)
                    (JStr (js "15551234567")) = true) by reflexivity.
  split; [exact Hpg|]. split; [exact Hincl|].
  split; [reflexivity|]. split; [reflexivity|].
  exact (X15_listed_sender_gets_translation translate_hello fetch_ok
           development_debug_off
           (wrongly_signed (message_envelope (js "15551234567") (js "Hola")))
           _ _ _ sample_phone_number_id (JStr (js "Hola")) (js "Hello")
           Hpg Hev eq_refl eq_refl (or_introl Hincl) eq_refl eq_refl eq_refl eq_refl).
Defined.

(** * The second version of [index.js] *)

(** ** The IP whitelist *)

Lemma startsWith_prefix s p :
  V2.startsWith s p = true <-> exists rest, s = p ++ rest.
Proof.
  revert s; induction p as [|c p IH]; intros s; cbn [V2.startsWith].
  - split; [intros _; now exists s | reflexivity].
  - destruct s as [|d s].
    + split; [discriminate | intros [rest H]; discriminate H].
    + rewrite andb_true_iff, Z.eqb_eq, IH. split.
      * intros [-> [rest ->]]. now exists rest.
      * intros [rest H]. injection H as -> ->. split; [reflexivity | now exists rest].
Qed.

Lemma isWhatsAppIP_prefixes clientIP :
  V2.isWhatsAppIP clientIP = true
  <-> exists rest,
        clientIP = js "157.240.0." ++ rest
        \/ clientIP = js "69.171.250." ++ rest
        \/ clientIP = js "69.171.251." ++ rest.
Proof.
  unfold V2.isWhatsAppIP, V2.whatsappIPs. cbn [existsb].
  rewrite !orb_true_iff, !startsWith_prefix.
  change (V2.slice_0_minus_1 (V2.split_slash_0 (js "157.240.0.0/16")))
    with (js "157.240.0.").
  change (V2.slice_0_minus_1 (V2.split_slash_0 (js "69.171.250.0/24")))
    with (js "69.171.250.").
  change (V2.slice_0_minus_1 (V2.split_slash_0 (js "69.171.251.0/24")))
    with (js "69.171.251.").
  split.
  - intros [[rest H] | [[rest H] | [[rest H] | H]]]; try discriminate H;
      exists rest; auto.
  - intros [rest [H | [H | H]]]; eauto 6.
Qed.

Lemma digits_then_dot c d :
  forallb is_digit c = true ->
  (exists rest, c ++ 46 :: d = 48 :: 46 :: rest) <-> c = [48].
Proof.
  intros Hc. split.
  - intros [rest H]. destruct c as [|x c]; [discriminate H|].
    injection H as -> H. destruct c as [|y c]; [reflexivity|].
    injection H as -> _. simpl in Hc. discriminate Hc.
  - intros ->. now exists d.
Qed.

(** X16. In production the whitelist lets a client through exactly when
    its address, as text, begins with "157.240.0.", "69.171.250." or
    "69.171.251.".  So of the range 157.240.0.0/16 only the addresses whose
    third number is 0 are let through, and an address in the IPv4-mapped
    form "::ffff:..." never is. *)
Theorem X16_whitelist_is_three_text_prefixes :
  (forall clientIP,
      V2.isWhatsAppIP clientIP = true
      <-> exists rest,
            clientIP = js "157.240.0." ++ rest
            \/ clientIP = js "69.171.250." ++ rest
            \/ clientIP = js "69.171.251." ++ rest)
  /\ (forall third fourth,
         forallb is_digit third = true ->
         (V2.isWhatsAppIP (js "157.240." ++ third ++ js "." ++ fourth) = true
          <-> third = js "0"))
  /\ (forall address, V2.isWhatsAppIP (js "::ffff:" ++ address) = false).
Proof.
  split; [exact isWhatsAppIP_prefixes|]. split.
  - intros third fourth Hd. rewrite isWhatsAppIP_prefixes.
    rewrite <- (digits_then_dot third fourth Hd). split.
    + intros [rest [H | [H | H]]]; try discriminate H.
      exists rest. simpl in H. now injection H.
    + intros [rest H]. exists rest. left.
      change (js "157.240.0." ++ rest) with (js "157.240." ++ 48 :: 46 :: rest).
      now rewrite <- H.
  - intros address. destruct (V2.isWhatsAppIP (js "::ffff:" ++ address)) eqn:E;
      [|reflexivity].
    apply isWhatsAppIP_prefixes in E as [rest [H | [H | H]]]; discriminate H.
Qed.

(** ** The runs of the second POST handler *)

Ltac start_run_v2 tr fe cfg req :=
  match goal with
  | |- ?G =>
      let g := eval pattern (V2.webhook_post tr fe cfg req) in G in
      lazymatch g with
      | ?F _ => set (Q := F); change (Q (V2.webhook_post tr fe cfg req))
      end
  end;
  unfold V2.webhook_post, V2.process_body, V2.first_message, V2.reply, V2.sendMessage,
    interpolate;
  name_labels.

Ltac run_v2 := repeat first [ progress (cbv beta iota; exec) | run_head ].

Ltac fact_now :=
  first [ reflexivity | eassumption | read_path | congruence
        | apply negb_false_iff; assumption ].

Lemma v2_run_cases tr fe cfg req :
  let run := V2.webhook_post tr fe cfg req in
  (collaborator_calls (trace run) = []
   /\ (forall t, outcome run <> Normal (V2.Success t))
   /\ outcome run <> Normal V2.TranslationFailed)
  \/ exists bodyString value message pid from text,
       validation_is_empty cfg req = true
       /\ JSON_stringify (body req) = Some bodyString
       /\ x_hub_signature_256 req
          = Some (sha256_prefixed (V2.expectedSignature cfg bodyString))
       /\ get_path (body req) path_value = Some value
       /\ get_path value ["messages"; "0"]%string = Some message
       /\ truthy message = true
       /\ get_path value path_metadata_id = Some pid
       /\ get_member message "from" = Some from
       /\ includes (V2.ALLOWED_PHONE_NUMBERS cfg) from = true
       /\ get_path message path_message_text = Some text
       /\ collaborator_calls (trace run)
          = TranslateCall text "en"
              :: match tr text "en"%string with
                 | Some t =>
                     if isTestEnvironment cfg then []
                     else if ToString_throws pid then []
                     else [SendMessageCall pid from (translated_text t)]
                 | None => []
                 end
       /\ outcome run
          = Normal
              match tr text "en"%string with
              | Some t =>
                  if isTestEnvironment cfg then V2.Success t
                  else if ToString_throws pid then V2.TranslationFailed
                  else match fe pid from (translated_text t) with
                       | FetchOk => V2.Success t
                       | _ => V2.TranslationFailed
                       end
              | None => V2.TranslationFailed
              end.
Proof.
  cbv zeta.
  start_run_v2 tr fe cfg req.
  destruct (validation_is_empty cfg req) eqn:Hv; cbn [negb].
  2: { restore_labels; subst Q; cbv beta. left.
       split; [reflexivity|]. split; [intros t|]; discriminate. }
  destruct (JSON_stringify (body req)) as [bodyString|] eqn:Hj.
  2: { restore_labels; subst Q; cbv beta. left.
       split; [reflexivity|]. split; [intros t|]; discriminate. }
  destruct (x_hub_signature_256 req) as [[|c s]|] eqn:Hh; cbn [V2.signature_rejected].
  1, 3: restore_labels; subst Q; cbv beta; left;
        (split; [reflexivity|]); (split; [intros t|]); discriminate.
  destruct (jsstring_eqb (sha256_prefixed (V2.expectedSignature cfg bodyString)) (c :: s))
    eqn:He; cbn [negb].
  2: { restore_labels; subst Q; cbv beta. left.
       split; [reflexivity|]. split; [intros t|]; discriminate. }
  apply jsstring_eqb_eq in He.
  run_v2.
  all: restore_labels; subst Q; cbv beta.
  all: try (left; split; [calls_now; reflexivity|];
            split; [intros ?|]; repeat rewrite outcome_prepend; discriminate).
  all: right; do 6 eexists.
  all: repeat (split; [fact_now|]).
  all: match goal with H : _ _ "en"%string = _ |- _ => rewrite H end.
  all: try match goal with H : ToString_throws _ = _ |- _ => rewrite H end.
  all: try match goal with H : _ _ _ (translated_text _) = _ |- _ => rewrite H end.
  all: split; [calls_now; reflexivity | repeat rewrite outcome_prepend; reflexivity].
Qed.

Lemma post_webhook_cases tr fe cfg clientIP req :
  (is_production cfg = true
   /\ V2.isWhatsAppIP clientIP = false
   /\ V2.post_webhook tr fe cfg clientIP req = ret V2.UnauthorizedIP)
  \/ ((is_production cfg = true -> V2.isWhatsAppIP clientIP = true)
      /\ V2.post_webhook tr fe cfg clientIP req = V2.webhook_post tr fe cfg req).
Proof.
  unfold V2.post_webhook, V2.ip_whitelist.
  destruct (is_production cfg); [|right; split; [discriminate | reflexivity]].
  destruct (V2.isWhatsAppIP clientIP); cbn [negb]; [right | left]; auto.
Qed.

(** X17. The second handler calls [translate.translate] or the Graph API
    only for a request that was let through by every check: in production the
    client address is on the whitelist; the request passed validation; its
    header is "sha256=" followed by the HMAC-SHA256, under WHATSAPP_TOKEN, of
    the re-serialised body (whatever NODE_ENV is: this version has no debug
    bypass); and the sender of the first message is, exactly as received, one
    of the comma-separated entries of ALLOWED_PHONE_NUMBERS. *)
Theorem X17_v2_calls_only_for_authorized_requests :
  forall translate_translate fetch cfg clientIP req e,
    In e (trace (V2.post_webhook translate_translate fetch cfg clientIP req)) ->
    is_collaborator_call e = true ->
    (is_production cfg = true -> V2.isWhatsAppIP clientIP = true)
    /\ validation_is_empty cfg req = true
    /\ (exists bodyString,
           JSON_stringify (body req) = Some bodyString
           /\ x_hub_signature_256 req
              = Some (sha256_prefixed
                        (hmac_sha256_hex (WHATSAPP_TOKEN cfg) (DataString bodyString))))
    /\ exists message from,
         get_path (body req) path_first_message = Some message
         /\ get_member message "from" = Some (JStr from)
         /\ In from (split_comma (ALLOWED_PHONE_NUMBERS_env cfg) []).
Proof.
  intros tr fe cfg clientIP req e Hin Hcall.
  destruct (post_webhook_cases tr fe cfg clientIP req) as [(_ & _ & E) | (Hip & E)];
    rewrite E in Hin; [destruct Hin|].
  split; [exact Hip|].
  apply in_calls in Hin; [|exact Hcall].
  destruct (v2_run_cases tr fe cfg req)
    as [(Hc & _) | (bodyString & value & message & pid & from & text & Hv & Hj & Hh
                    & Hval & Hmsg & _ & _ & Hfrom & Hincl & _)].
  - rewrite Hc in Hin. destruct Hin.
  - split; [exact Hv|]. split; [exists bodyString; split; assumption|].
    apply includes_in in Hincl as (s & -> & Hs).
    exists message, s. split; [|split; assumption].
    change path_first_message with (path_value ++ ["messages"; "0"]%string).
    now rewrite get_path_app, Hval.
Qed.

(** X18. The response of the second handler tells what was done.  It
    answers 200 with a translation only when [translate.translate] returned
    that translation and the reply was delivered (or, in development, logged
    instead of sent).  It answers 500 only after a translation call, when the
    translation failed, or the delivery failed, or, outside development, the
    payload's [phone_number_id] is a value that the URL's template cannot
    interpolate, so that no POST was made at all.  With any other response
    (400, 401, 403) neither collaborator was called.  In development the
    Graph API is never called. *)
Theorem X18_v2_response_tells_what_was_done :
  forall translate_translate fetch cfg clientIP req,
    let run := V2.post_webhook translate_translate fetch cfg clientIP req in
    (forall t,
        outcome run = Normal (V2.Success t) ->
        exists text,
          In (TranslateCall text "en") (trace run)
          /\ translate_translate text "en"%string = Some t
          /\ (isTestEnvironment cfg = true
              \/ exists pid from,
                   In (SendMessageCall pid from (translated_text t)) (trace run)
                   /\ fetch pid from (translated_text t) = FetchOk))
    /\ (outcome run = Normal V2.TranslationFailed ->
        exists text,
          In (TranslateCall text "en") (trace run)
          /\ (translate_translate text "en"%string = None
              \/ exists t,
                   translate_translate text "en"%string = Some t
                   /\ isTestEnvironment cfg = false
                   /\ ((exists value pid,
                           get_path (body req) path_value = Some value
                           /\ get_path value path_metadata_id = Some pid
                           /\ ToString_throws pid = true
                           /\ forall p f m, ~ In (SendMessageCall p f m) (trace run))
                       \/ exists pid from,
                            In (SendMessageCall pid from (translated_text t)) (trace run)
                            /\ fetch pid from (translated_text t) <> FetchOk)))
    /\ (forall r,
           outcome run = Normal r ->
           V2.status r <> 200 -> V2.status r <> 500 ->
           collaborator_calls (trace run) = [])
    /\ (isTestEnvironment cfg = true ->
        forall pid from m, ~ In (SendMessageCall pid from m) (trace run)).
Proof.
  intros tr fe cfg clientIP req. cbv zeta.
  destruct (post_webhook_cases tr fe cfg clientIP req) as [(_ & _ & E) | (_ & E)];
    rewrite E; clear E.
  { split; [intros t H; discriminate H|]. split; [intros H; discriminate H|].
    split; [reflexivity | intros _ pid from m []]. }
  assert (Hfilter : forall e,
             is_collaborator_call e = true ->
             In e (collaborator_calls (trace (V2.webhook_post tr fe cfg req))) ->
             In e (trace (V2.webhook_post tr fe cfg req))).
  { intros e _ H. apply filter_In in H. tauto. }
  assert (Hnone : forall l,
             collaborator_calls (trace (V2.webhook_post tr fe cfg req)) = l ->
             (forall p f m, ~ In (SendMessageCall p f m) l) ->
             forall p f m,
               ~ In (SendMessageCall p f m) (trace (V2.webhook_post tr fe cfg req))).
  { intros l El Hl p f m H. apply in_calls in H; [|reflexivity].
    rewrite El in H. exact (Hl p f m H). }
  destruct (v2_run_cases tr fe cfg req)
    as [(Hc & Hs & Hf) | (bodyString & value & message & pid & from & text & _ & _ & _
                          & Hval & _ & _ & Hpid & _ & _ & _ & Hc & Ho)].
  - split; [intros t H; now elim (Hs t)|]. split; [intros H; now elim Hf|].
    split; [intros; exact Hc|].
    intros _. apply (Hnone [] Hc). intros p f m [].
  - assert (Htr : In (TranslateCall text "en") (trace (V2.webhook_post tr fe cfg req))).
    { apply Hfilter; [reflexivity|]. rewrite Hc. now left. }
    rewrite Ho.
    destruct (tr text "en"%string) as [t|] eqn:Et.
    + destruct (isTestEnvironment cfg) eqn:Edev.
      * split; [|split; [|split]].
        -- intros t' [= <-]. exists text. auto.
        -- discriminate.
        -- intros r [= <-] H. now elim H.
        -- intros _. apply (Hnone _ Hc). intros p f m [H | []]. discriminate H.
      * destruct (ToString_throws pid) eqn:Eurl.
        { split; [|split; [|split]].
          - discriminate.
          - intros _. exists text. split; [exact Htr|]. right.
            exists t. split; [exact Et|]. split; [reflexivity|]. left.
            exists value, pid. split; [exact Hval|]. split; [exact Hpid|].
            split; [exact Eurl|].
            apply (Hnone _ Hc). intros p f m [H | []]. discriminate H.
          - intros r [= <-] _ H. now elim H.
          - discriminate. }
        assert (Hsend : In (SendMessageCall pid from (translated_text t))
                           (trace (V2.webhook_post tr fe cfg req))).
        { apply Hfilter; [reflexivity|]. rewrite Hc. right. now left. }
        destruct (fe pid from (translated_text t)) eqn:Ef.
        -- split; [|split; [|split]].
           ++ intros t' [= <-]. exists text. split; [exact Htr|]. split; [exact Et|].
              right. exists pid, from. auto.
           ++ discriminate.
           ++ intros r [= <-] H. now elim H.
           ++ discriminate.
        -- split; [|split; [|split]].
           ++ discriminate.
           ++ intros _. exists text. split; [exact Htr|]. right.
              exists t. split; [exact Et|]. split; [reflexivity|]. right.
              exists pid, from. split; [exact Hsend|]. rewrite Ef. discriminate.
           ++ intros r [= <-] _ H. now elim H.
           ++ discriminate.
        -- split; [|split; [|split]].
           ++ discriminate.
           ++ intros _. exists text. split; [exact Htr|]. right.
              exists t. split; [exact Et|]. split; [reflexivity|]. right.
              exists pid, from. split; [exact Hsend|]. rewrite Ef. discriminate.
           ++ intros r [= <-] _ H. now elim H.
           ++ discriminate.
    + split; [|split; [|split]].
      * discriminate.
      * intros _. exists text. auto.
      * intros r [= <-] _ H. now elim H.
      * intros _. apply (Hnone _ Hc). intros p f m [H | []]. discriminate H.
Qed.

Lemma own_signature_not_rejected cfg bodyString :
  V2.signature_rejected (Some (sha256_prefixed (V2.expectedSignature cfg bodyString)))
    (V2.expectedSignature cfg bodyString) = false.
Proof.
  unfold V2.signature_rejected.
  destruct (sha256_prefixed (V2.expectedSignature cfg bodyString)) as [|c s] eqn:E.
  - discriminate E.
  - now rewrite jsstring_eqb_refl.
Qed.

(** X19. The second handler has no catch around its reads of the envelope.
    For a request that passed validation, carries the right signature and a
    truthy [object], and whose [entry] is truthy but has no first element to
    read [changes] from (the empty array, or [null] as first entry), the read
    throws before anything is logged or called: the handler's promise rejects
    with the TypeError and no response is sent at all. *)
Theorem X19_v2_unreadable_entry_gets_no_response :
  forall translate_translate fetch cfg req bodyString object entry entry_0,
    validation_is_empty cfg req = true ->
    JSON_stringify (body req) = Some bodyString ->
    x_hub_signature_256 req
    = Some (sha256_prefixed (V2.expectedSignature cfg bodyString)) ->
    get_member (body req) "object" = Some object ->
    truthy object = true ->
    get_member (body req) "entry" = Some entry ->
    truthy entry = true ->
    get_member entry "0" = Some entry_0 ->
    get_member entry_0 "changes" = None ->
    V2.webhook_post translate_translate fetch cfg req = ([], Thrown TypeError).
Proof.
  intros tr fe cfg req bodyString object entry entry_0 Hv Hj Hh Hobj Hto Hentry Hte H0 Hch.
  unfold V2.webhook_post, V2.process_body, V2.first_message.
  rewrite Hv, Hj, Hh, own_signature_not_rejected. cbn [negb].
  rewrite (member_some _ _ _ Hobj), bind_ret, Hto.
  rewrite (member_some _ _ _ Hentry), bind_ret, Hte. cbn [negb].
  rewrite (member_some _ _ _ H0), bind_ret.
  rewrite (member_none _ _ Hch). reflexivity.
Qed.

Lemma X19_witness :
  validation_is_empty production_v2 (signed_v2 production_v2 entry_without_changes)
  = true
  /\ V2.webhook_post translate_hello fetch_ok production_v2
       (signed_v2 production_v2 entry_without_changes)
     = ([], Thrown TypeError).
Proof.
  assert (Hv : validation_is_empty production_v2
                 (signed_v2 production_v2 entry_without_changes) = true)
    by reflexivity.
  split; [exact Hv|].
  exact (X19_v2_unreadable_entry_gets_no_response translate_hello fetch_ok production_v2
           (signed_v2 production_v2 entry_without_changes)
           _ _ (JArr [JNull]) JNull Hv eq_refl eq_refl eq_refl eq_refl eq_refl eq_refl
           eq_refl eq_refl).
Defined.

(** ** Sample runs of the second handler *)

Lemma signed_v2_run tr fe cfg b bodyString :
  validation_is_empty cfg (signed_v2 cfg b) = true ->
  JSON_stringify b = Some bodyString ->
  V2.webhook_post tr fe cfg (signed_v2 cfg b) = V2.process_body tr fe cfg b.
Proof.
  intros Hv Hj. unfold V2.webhook_post. rewrite Hv. cbn [negb].
  unfold signed_v2 at 1 2. cbn [body x_hub_signature_256]. rewrite Hj.
  cbn [option_map]. now rewrite own_signature_not_rejected.
Qed.

Lemma X17_witness :
  In (TranslateCall (JStr (js "Hola")) "en")
     (trace (V2.post_webhook translate_hello fetch_ok production_v2 (js "157.240.0.12")
               (signed_v2 production_v2 (message_envelope (js "15557654321") (js "Hola")))))
  /\ (is_production production_v2 = true -> V2.isWhatsAppIP (js "157.240.0.12") = true)
  /\ validation_is_empty production_v2
       (signed_v2 production_v2 (message_envelope (js "15557654321") (js "Hola"))) = true
  /\ (exists bodyString,
         JSON_stringify
           (body (signed_v2 production_v2
                    (message_envelope (js "15557654321") (js "Hola"))))
         = Some bodyString
         /\ x_hub_signature_256
              (signed_v2 production_v2 (message_envelope (js "15557654321") (js "Hola")))
            = Some (sha256_prefixed
                      (hmac_sha256_hex (WHATSAPP_TOKEN production_v2)
                         (DataString bodyString))))
  /\ exists message from,
       get_path
         (body (signed_v2 production_v2
                  (message_envelope (js "15557654321") (js "Hola"))))
         path_first_message = Some message
       /\ get_member message "from" = Some (JStr from)
       /\ In from (split_comma (ALLOWED_PHONE_NUMBERS_env production_v2) []).
Proof.
  assert (Hin : In (TranslateCall (JStr (js "Hola")) "en")
                   (trace (V2.post_webhook translate_hello fetch_ok production_v2
                             (js "157.240.0.12")
                             (signed_v2 production_v2
                                (message_envelope (js "15557654321") (js "Hola")))))).
  { change (V2.post_webhook translate_hello fetch_ok production_v2 (js "157.240.0.12")
              (signed_v2 production_v2 (message_envelope (js "15557654321") (js "Hola"))))
      with (V2.webhook_post translate_hello fetch_ok production_v2
              (signed_v2 production_v2 (message_envelope (js "15557654321") (js "Hola")))).
    rewrite (signed_v2_run translate_hello fetch_ok production_v2
               (message_envelope (js "15557654321") (js "Hola")) _ eq_refl eq_refl).
    vm_compute. tauto. }
  split; [exact Hin|].
  exact (X17_v2_calls_only_for_authorized_requests translate_hello fetch_ok production_v2
           (js "157.240.0.12")
           (signed_v2 production_v2 (message_envelope (js "15557654321") (js "Hola")))
           _ Hin eq_refl).
Defined.

Example v2_end_to_end :
  V2.post_webhook translate_hello fetch_ok production_v2 (js "69.171.250.7")
    (signed_v2 production_v2 (message_envelope (js "15557654321") (js "Hola")))
  = ([TranslateCall (JStr (js "Hola")) "en";
      SendMessageCall sample_phone_number_id (JStr (js "15557654321"))
        (translated_text (js "Hello"))],
     Normal (V2.Success (js "Hello"))).
Proof.
  change (V2.post_webhook translate_hello fetch_ok production_v2 (js "69.171.250.7")
            (signed_v2 production_v2 (message_envelope (js "15557654321") (js "Hola"))))
    with (V2.webhook_post translate_hello fetch_ok production_v2
            (signed_v2 production_v2 (message_envelope (js "15557654321") (js "Hola")))).
  rewrite (signed_v2_run translate_hello fetch_ok production_v2
             (message_envelope (js "15557654321") (js "Hola")) _ eq_refl eq_refl).
  vm_compute. reflexivity.
Qed.

Example v2_rejects_formatted_list_entry :
  V2.post_webhook translate_hello fetch_ok
    (mkConfig (js "development") false sample_token (js "+1 (555) 123-4567")
       select_fields)
    (js "127.0.0.1")
    (signed_v2 (mkConfig (js "development") false sample_token (js "+1 (555) 123-4567")
       select_fields)
       (message_envelope (js "15551234567") (js "Hola")))
  = ([Console warn "Unauthorized message from: "], Normal V2.UnauthorizedSender).
Proof.
  change (V2.post_webhook translate_hello fetch_ok
            (mkConfig (js "development") false sample_token (js "+1 (555) 123-4567")
       select_fields)
            (js "127.0.0.1")
            (signed_v2
               (mkConfig (js "development") false sample_token (js "+1 (555) 123-4567")
       select_fields)
               (message_envelope (js "15551234567") (js "Hola"))))
    with (V2.webhook_post translate_hello fetch_ok
            (mkConfig (js "development") false sample_token (js "+1 (555) 123-4567")
       select_fields)
            (signed_v2
               (mkConfig (js "development") false sample_token (js "+1 (555) 123-4567")
       select_fields)
               (message_envelope (js "15551234567") (js "Hola")))).
  rewrite (signed_v2_run translate_hello fetch_ok
             (mkConfig (js "development") false sample_token (js "+1 (555) 123-4567")
       select_fields)
             (message_envelope (js "15551234567") (js "Hola")) _ eq_refl eq_refl).
  vm_compute. reflexivity.
Qed.
(** * tests/local-test.js against the two handlers *)

Lemma local_test_fails_validation cfg text :
  validation_is_empty cfg (local_test_request text) = false.
Proof. unfold validation_is_empty. cbn [x_hub_signature_256 local_test_request]. apply andb_false_r. Qed.

(** X20. The translation tests of [tests/local-test.js] cannot pass against
    either handler: the request the script posts carries no
    [x-hub-signature-256] header.  Against the first handler, for every test
    message and configuration, the run is the failed-validation run (no
    translation is asked for, nothing is sent), and the response the script
    receives, 200 with the text "OK", is not JSON, which the script reports as
    a failure ("Non-JSON response").  Against the second handler the request
    is answered, before anything is called, with a status other than the 200
    the script waits for. *)
Theorem X20_local_tests_cannot_pass :
  forall translate_translate fetch cfg clientIP text,
    (webhook_post translate_translate fetch cfg (local_test_request text)
     = (validation_failed_trace, Returned)
     /\ local_test_outcome
          (trace (webhook_post translate_translate fetch cfg (local_test_request text)))
        = Some TestNonJson)
    /\ exists r,
         V2.post_webhook translate_translate fetch cfg clientIP (local_test_request text)
         = ([], Normal r)
         /\ V2.status r <> 200.
Proof.
  intros tr fe cfg clientIP text. split.
  - rewrite (validation_failed_run tr fe cfg _ (local_test_fails_validation cfg text)).
    split; [reflexivity|]. vm_compute. reflexivity.
  - destruct (post_webhook_cases tr fe cfg clientIP (local_test_request text))
      as [(_ & _ & E) | (_ & E)]; rewrite E.
    + exists V2.UnauthorizedIP. split; [reflexivity | discriminate].
    + exists V2.ValidationErrors. unfold V2.webhook_post.
      rewrite local_test_fails_validation. split; [reflexivity | discriminate].
Qed.
